(** * Credential lifecycle of the bank payment API

    A shallow embedding of the authentication core of [bank-payment-api-mern]:
    the bcrypt password service and its Argon2id sibling, the JWT token
    service, the audit log model, the customer login route, the input
    sanitizer, and the abuse guard that fronts the login routes; and of what
    stands around it: the authentication middleware and its role gates, the
    employee login route, the queries of the audit log, the payment workflow
    of the employee portal, the password pattern and strength check, and two
    of the injection detectors.

    Conventions.
    - A JavaScript function that can throw returns [Js.result]; [try]/[catch]
      is [Js.try_catch]; an [await] on a rejected promise is a [Throw].
    - Randomness ([crypto.randomBytes]) and the clock ([Date.now()]) are
      explicit inputs.
    - Third-party packages ([bcrypt], [argon2], [jsonwebtoken], [ms]) are
      parameters; what a proof needs of them is a hypothesis that names the
      package's documented behaviour, and an executable stand-in shows that
      the hypotheses can be met.
    - Strings are byte strings (UTF-8), except in the sanitizer, where
      [String.prototype.trim] needs UTF-16 code units, and in the password
      checks and detectors, whose patterns read code units.
    - A field of the body of a customer login is a [Body.value]: absent, a
      string, or another JSON value, of which the model keeps what the
      handler and Mongoose observe of it.
    - A route handler serves one request at a time: no other write falls
      between two of its database calls; the clock readings of one request
      ([new Date()], the [timestamps] of a save, the default of a
      [timestamp]) are one instant. *)

From stdpp Require Import gmap strings list.
From Stdlib Require Import ZArith Lia Strings.Ascii Strings.Byte.
From Stdlib Require DecimalString.
From Stdlib Require Import Sorting.Sorted.

(* ===================================================================== *)
(** ** JavaScript control flow: results, [try]/[catch]                   *)
(* ===================================================================== *)

Module Js.

Inductive result (A : Type) : Type :=
| Ok (a : A)
| Throw (error : string).

Arguments Ok {A} a.
Arguments Throw {A} error.

Definition bind {A B : Type} (r : result A) (k : A -> result B) : result B :=
  match r with
  | Ok a => k a
  | Throw e => Throw e
  end.

(** [try { body } catch (error) { handler }] *)
Definition try_catch {A : Type} (body : result A) (handler : string -> result A)
  : result A :=
  match body with
  | Ok a => Ok a
  | Throw e => handler e
  end.

Definition returns {A : Type} (r : result A) : bool :=
  match r with
  | Ok _ => true
  | Throw _ => false
  end.

(** [a || b] on strings that may be [undefined]: the empty string is falsy. *)
Definition or_else (a : option string) (b : string) : string :=
  match a with
  | Some s => if String.eqb s "" then b else s
  | None => b
  end.

(** Truthiness of a string that may be [undefined]. *)
Definition truthy (a : option string) : bool :=
  match a with
  | Some s => negb (String.eqb s "")
  | None => false
  end.

(** [`${a}`] and [a + ''] for a string that may be [undefined]. *)
Definition to_string (a : option string) : string :=
  match a with
  | Some s => s
  | None => "undefined"
  end.

End Js.

Import Js.

Notation "x <- r ;; k" := (Js.bind r (fun x => k))
  (at level 100, r at next level, right associativity, only parsing).

(* ===================================================================== *)
(** ** [Buffer.toString('base64')]                                       *)
(* ===================================================================== *)

Module Base64.

Definition alphabet : string :=
  "ABCDEFGHIJKLMNOPQRSTUVWXYZabcdefghijklmnopqrstuvwxyz0123456789+/".

Definition digit (n : N) : ascii :=
  match String.get (N.to_nat n) alphabet with
  | Some c => c
  | None => "="%char
  end.

(** Three bytes become four sextets; a short last group is padded with [=]. *)
Fixpoint encode (bytes : list byte) : string :=
  match bytes with
  | [] => ""
  | [a] =>
      let x := Byte.to_N a in
      String (digit (x / 4)) (String (digit ((x mod 4) * 16)) "==")
  | [a; b] =>
      let x := Byte.to_N a in
      let y := Byte.to_N b in
      String (digit (x / 4))
        (String (digit ((x mod 4) * 16 + y / 16))
           (String (digit ((y mod 16) * 4)) "="))
  | a :: b :: c :: rest =>
      let x := Byte.to_N a in
      let y := Byte.to_N b in
      let z := Byte.to_N c in
      String (digit (x / 4))
        (String (digit ((x mod 4) * 16 + y / 16))
           (String (digit ((y mod 16) * 4 + z / 64))
              (String (digit (z mod 64)) (encode rest))))
  end.

End Base64.

(* ===================================================================== *)
(** ** services/passwordService.js (bcrypt)                              *)
(* ===================================================================== *)

Module PasswordService.

Definition SALT_ROUNDS : nat := 12.
Definition CUSTOM_SALT_SIZE : nat := 32.

(** What [hashPassword] returns and the account document stores. *)
Record Credential : Type := { hash : string; salt : string }.

(** The random inputs of one [hashPassword] call: the operating system's
    generator read by [crypto.randomBytes], and the salt bcrypt draws for
    itself. *)
Record Entropy : Type := { osRandom : nat -> byte; bcryptSalt : list byte }.

Definition randomBytes (size : nat) (e : Entropy) : list byte :=
  map (osRandom e) (seq 0 size).

(** bcrypt reads at most the first 72 bytes of its input. *)
Definition BCRYPT_INPUT_LIMIT : nat := 72.

Definition truncate72 (data : string) : string :=
  String.substring 0 BCRYPT_INPUT_LIMIT data.

Section WithBcrypt.

(** [bcrypt.hash(data, rounds)], with the salt it generates made explicit,
    and [bcrypt.compare(data, encrypted)]. *)
Variable bcrypt_hash : string -> nat -> list byte -> result string.
Variable bcrypt_compare : string -> string -> result bool.

Definition hashPassword (password : string) (e : Entropy) : result Credential :=
  try_catch
    (let customSalt := Base64.encode (randomBytes CUSTOM_SALT_SIZE e) in
     let saltedPassword := password +:+ customSalt in
     hash <- bcrypt_hash saltedPassword SALT_ROUNDS (bcryptSalt e) ;;
     Ok {| hash := hash; salt := customSalt |})
    (fun error => Throw ("Password hashing failed: " +:+ error)).

Definition verifyPassword (password hash salt : string) : result bool :=
  try_catch
    (let saltedPassword := password +:+ salt in
     isMatch <- bcrypt_compare saltedPassword hash ;;
     Ok isMatch)
    (fun _ => Ok false).

End WithBcrypt.

(** The text [hashPassword] hands to bcrypt and the salt it returns for
    storage, read off a run in which bcrypt is replaced by a function that
    returns its input. *)
Definition hashedInput (password : string) (e : Entropy)
  : option (string * string) :=
  match hashPassword (fun data _ _ => Ok data) password e with
  | Ok cred => Some (hash cred, salt cred)
  | Throw _ => None
  end.

(** A service appends a pepper when one secret, the same for every password
    and every draw of randomness, follows the password in the text that is
    hashed, and that secret is not the salt stored with the credential. *)
Definition appends_pepper
    (observe : string -> Entropy -> option (string * string)) : Prop :=
  exists pepper, forall password e,
    exists salt,
      observe password e = Some (password +:+ pepper, salt) /\ salt <> pepper.

(** The two facts about the bcrypt package that the proofs below use. *)
Definition bcrypt_verifies_own_hashes
    (bcrypt_hash : string -> nat -> list byte -> result string)
    (bcrypt_compare : string -> string -> result bool) : Prop :=
  forall data rounds s h,
    bcrypt_hash data rounds s = Ok h -> bcrypt_compare data h = Ok true.

Definition bcrypt_reads_72_bytes
    (bcrypt_compare : string -> string -> result bool) : Prop :=
  forall data h, bcrypt_compare data h = bcrypt_compare (truncate72 data) h.

End PasswordService.

(** An executable stand-in for the bcrypt package, used to run the service
    on concrete inputs. It keeps the modular-crypt layout (a seven character
    prefix with the cost, a 22 character salt field, then the digest) and the
    72 byte input limit; its digest is the truncated input itself, so it has
    no collisions beyond the ones the input limit causes. *)
Module BcryptStub.

Import PasswordService.

(** The cost as two decimal digits (the digits sit at 52..61 of the base64
    alphabet). *)
Definition two_digits (n : nat) : string :=
  String (Base64.digit (N.of_nat (52 + (n / 10) mod 10)))
    (String (Base64.digit (N.of_nat (52 + n mod 10))) "").

Fixpoint fixed_width (width : nat) (s : string) : string :=
  match width with
  | O => ""
  | S w =>
      match s with
      | "" => String "."%char (fixed_width w "")
      | String c rest => String c (fixed_width w rest)
      end
  end.

Definition drop (n : nat) (s : string) : string :=
  String.substring n (String.length s - n) s.

Definition hash (data : string) (rounds : nat) (saltBytes : list byte)
  : result string :=
  Ok ("$2b$" +:+ two_digits rounds +:+ "$"
        +:+ fixed_width 22 (Base64.encode saltBytes)
        +:+ truncate72 data).

Definition compare (data encrypted : string) : result bool :=
  Ok (String.prefix "$2b$" encrypted
      && String.eqb (drop 29 encrypted) (truncate72 data)).

End BcryptStub.

(* ===================================================================== *)
(** ** [process.env]                                                     *)
(* ===================================================================== *)

Module Process.

Record Env : Type := {
  JWT_SECRET : option string;
  JWT_EXPIRE : option string;
  PASSWORD_PEPPER : option string
}.

End Process.

(* ===================================================================== *)
(** ** services/passwordServiceEnhanced.js (Argon2id with a pepper)      *)
(* ===================================================================== *)

Module PasswordServiceEnhanced.

Import PasswordService.

Record Argon2Options : Type := {
  memoryCost : Z;
  timeCost : Z;
  parallelism : Z;
  hashLength : Z;
  saltLength : Z
}.

Definition argon2Options : Argon2Options :=
  {| memoryCost := 65536%Z; timeCost := 3%Z; parallelism := 4%Z;
     hashLength := 32%Z; saltLength := 32%Z |}.

(** The constructor: [process.env.PASSWORD_PEPPER || 'default_pepper_...']. *)
Definition pepper (env : Process.Env) : string :=
  or_else (Process.PASSWORD_PEPPER env) "default_pepper_change_in_production".

Section WithArgon2.

(** [argon2.hash(plain, {...options, salt})] and [argon2.verify(hash, plain)]. *)
Variable argon2_hash : string -> Argon2Options -> list byte -> result string.
Variable argon2_verify : string -> string -> result bool.
Variable env : Process.Env.

Definition hashPassword (password : string) (e : Entropy) : result Credential :=
  try_catch
    (let salt := randomBytes 32 e in
     let pepperedPassword := password +:+ pepper env in
     hash <- argon2_hash pepperedPassword argon2Options salt ;;
     Ok {| hash := hash; salt := Base64.encode salt |})
    (fun error => Throw ("Password hashing failed: " +:+ error)).

Definition verifyPassword (password hash salt : string) : result bool :=
  try_catch
    (let pepperedPassword := password +:+ pepper env in
     isMatch <- argon2_verify hash pepperedPassword ;;
     Ok isMatch)
    (fun _ => Ok false).

End WithArgon2.

End PasswordServiceEnhanced.

(* ===================================================================== *)
(** ** The jsonwebtoken package: [jwt.sign] and [jwt.verify]             *)
(* ===================================================================== *)

Module Jsonwebtoken.

Record Header : Type := { alg : string; typ : option string }.

(** The claims object. A field that is absent from the JSON is [None]. *)
Record Claims : Type := {
  userId : option string;
  username : option string;
  userType : option string;
  iat : option Z;
  nbf : option Z;
  exp : option Z;
  iss : option string;
  aud : option string
}.

Record SignOptions : Type := {
  expiresIn : string;
  issuer : string;
  audience : string
}.

(** What the package delegates to: the base64url JSON codec of the two
    segments, the keyed MAC behind the HS algorithms, and the [ms] package
    that reads a time span such as [2h] (in milliseconds). *)
Record Primitives : Type := {
  encodeHeader : Header -> string;
  decodeHeader : string -> option Header;
  encodeClaims : Claims -> string;
  decodeClaims : string -> option Claims;
  hmac : string -> string -> string -> string;
  ms : string -> option Z
}.

Definition dot : ascii := "."%char.

(** [s.split('.')] *)
Fixpoint split_dots (s : string) : list string :=
  match s with
  | "" => [""]
  | String c rest =>
      if Ascii.eqb c dot then "" :: split_dots rest
      else match split_dots rest with
           | [] => [String c ""]
           | part :: parts => String c part :: parts
           end
  end.

Fixpoint has_dot (s : string) : bool :=
  match s with
  | "" => false
  | String c rest => Ascii.eqb c dot || has_dot rest
  end.

Definition is_space (c : ascii) : bool :=
  let n := nat_of_ascii c in
  (Nat.leb 9 n && Nat.leb n 13) || Nat.eqb n 32.

(** [s.trim() === ''] *)
Fixpoint blank (s : string) : bool :=
  match s with
  | "" => true
  | String c rest => is_space c && blank rest
  end.

Definition HS_SUPPORTED_ALGS : list string := ["HS256"; "HS384"; "HS512"].

Fixpoint mem_string (x : string) (l : list string) : bool :=
  match l with
  | [] => false
  | y :: l' => String.eqb x y || mem_string x l'
  end.

Section WithPrimitives.

Variable P : Primitives.

(** The first two segments, over which the signature is computed. *)
Definition securedInput (header : Header) (claims : Claims) : string :=
  encodeHeader P header +:+ "." +:+ encodeClaims P claims.

Definition jws_sign (header : Header) (claims : Claims) (secret : string)
  : string :=
  let input := securedInput header claims in
  input +:+ "." +:+ hmac P (alg header) secret input.

(** [jwt.sign(payload, secretOrPrivateKey, options)] at clock [now] (ms). *)
Definition sign (payload : Claims) (secretOrPrivateKey : option string)
    (options : SignOptions) (now : Z) : result string :=
  match secretOrPrivateKey with
  | None => Throw "secretOrPrivateKey must have a value"
  | Some secret =>
      if String.eqb secret "" then Throw "secretOrPrivateKey must have a value"
      else if String.eqb (expiresIn options) ""
      then Throw "expiresIn should be a number of seconds or string representing a timespan"
      else
        (* payload.iat || Math.floor(Date.now() / 1000) *)
        let timestamp :=
          match iat payload with
          | Some t => if (t =? 0)%Z then (now / 1000)%Z else t
          | None => (now / 1000)%Z
          end in
        match ms P (expiresIn options) with
        | None =>
            Throw "expiresIn should be a number of seconds or string representing a timespan"
        | Some milliseconds =>
            (* Math.floor(timestamp + milliseconds / 1000) *)
            let claims :=
              {| userId := userId payload;
                 username := username payload;
                 userType := userType payload;
                 iat := Some timestamp;
                 nbf := nbf payload;
                 exp := Some ((timestamp * 1000 + milliseconds) / 1000)%Z;
                 iss := Some (issuer options);
                 aud := Some (audience options) |} in
            Ok (jws_sign {| alg := "HS256"; typ := Some "JWT" |} claims secret)
        end
  end.

(** [jwt.decode(token)]: the claims of the middle segment, unverified. *)
Definition decode (jwtString : string) : option Claims :=
  match split_dots jwtString with
  | [_; payload; _] => decodeClaims P payload
  | _ => None
  end.

(** [jwt.verify(jwtString, secretOrPublicKey, {issuer, audience})] at clock
    [now] (ms). Each failed check throws. *)
Definition verify (jwtString : string) (secretOrPublicKey : option string)
    (issuer audience : string) (now : Z) : result Claims :=
  let clockTimestamp := (now / 1000)%Z in
  if String.eqb jwtString "" then Throw "jwt must be provided"
  else
    match split_dots jwtString with
    | [h; p; signature] =>
        match decodeHeader P h, decodeClaims P p with
        | Some header, Some payload =>
            let hasSignature := negb (blank signature) in
            let key := or_else secretOrPublicKey "" in
            if negb hasSignature && truthy secretOrPublicKey
            then Throw "jwt signature is required"
            else if hasSignature && negb (truthy secretOrPublicKey)
            then Throw "secret or public key must be provided"
            else if negb hasSignature
            then Throw "please specify none in algorithms to verify unsigned tokens"
            else if negb (mem_string (alg header) HS_SUPPORTED_ALGS)
            then Throw "invalid algorithm"
            else if negb (String.eqb signature
                            (hmac P (alg header) key (h +:+ "." +:+ p)))
            then Throw "invalid signature"
            else if match nbf payload with
                    | Some t => (clockTimestamp <? t)%Z
                    | None => false
                    end
            then Throw "jwt not active"
            else if match exp payload with
                    | Some t => (t <=? clockTimestamp)%Z
                    | None => false
                    end
            then Throw "jwt expired"
            else if negb match aud payload with
                         | Some a => String.eqb a audience
                         | None => false
                         end
            then Throw "jwt audience invalid"
            else if negb match iss payload with
                         | Some i => String.eqb i issuer
                         | None => false
                         end
            then Throw "jwt issuer invalid"
            else Ok payload
        | _, _ => Throw "invalid token"
        end
    | _ => Throw "jwt malformed"
    end.

End WithPrimitives.

(** The documented behaviour of the primitives that the proofs use: the
    codec reads back what it wrote, base64url text holds no dot, a MAC is
    not blank, and [ms('2h')] is two hours. *)
Record PrimitivesOk (P : Primitives) : Prop := {
  decode_encode_header : forall h, decodeHeader P (encodeHeader P h) = Some h;
  decode_encode_claims : forall c, decodeClaims P (encodeClaims P c) = Some c;
  header_no_dot : forall h, has_dot (encodeHeader P h) = false;
  claims_no_dot : forall c, has_dot (encodeClaims P c) = false;
  hmac_no_dot : forall a k m, has_dot (hmac P a k m) = false;
  hmac_not_blank : forall a k m, blank (hmac P a k m) = false;
  ms_two_hours : ms P "2h" = Some 7200000%Z
}.

End Jsonwebtoken.

(* ===================================================================== *)
(** ** services/tokenService.js                                          *)
(* ===================================================================== *)

Module TokenService.

Import Jsonwebtoken.

(** The argument of [generateToken]. *)
Record Payload : Type := {
  p_userId : option string;
  p_username : option string;
  p_userType : option string
}.

Definition ISSUER : string := "BankPaymentAPI".
Definition AUDIENCE : string := "BankPaymentClient".

(** The claims of a token issued at clock [now] (ms) with a lifetime of
    [milliseconds]. *)
Definition issuedClaims (payload : Payload) (now milliseconds : Z) : Claims :=
  {| userId := p_userId payload;
     username := p_username payload;
     userType := p_userType payload;
     iat := Some (now / 1000)%Z;
     nbf := None;
     exp := Some ((now / 1000 * 1000 + milliseconds) / 1000)%Z;
     iss := Some ISSUER;
     aud := Some AUDIENCE |}.

Definition HS256 : Header := {| alg := "HS256"; typ := Some "JWT" |}.

Section WithPrimitives.

Variable P : Primitives.
Variable env : Process.Env.

Definition generateToken (payload : Payload) (now : Z) : result string :=
  sign P
    {| userId := p_userId payload;
       username := p_username payload;
       userType := p_userType payload;
       iat := Some (now / 1000)%Z;
       nbf := None; exp := None; iss := None; aud := None |}
    (Process.JWT_SECRET env)
    {| expiresIn := or_else (Process.JWT_EXPIRE env) "2h";
       issuer := ISSUER;
       audience := AUDIENCE |}
    now.

(** [null] is [None]. *)
Definition verifyToken (token : string) (now : Z) : option Claims :=
  match verify P token (Process.JWT_SECRET env) ISSUER AUDIENCE now with
  | Ok decoded => Some decoded
  | Throw _ => None
  end.

End WithPrimitives.

(** Every token the service issues expires two hours after it was issued. *)
Definition two_hour_expiry (P : Primitives) (env : Process.Env) : Prop :=
  forall payload now token c,
    generateToken P env payload now = Ok token ->
    decode P token = Some c ->
    exists t, iat c = Some t /\ exp c = Some (t + 7200)%Z.

(** [authHeader] is [None] when the request carries no Authorization header. *)
Definition extractTokenFromHeader (authHeader : option string) : option string :=
  match authHeader with
  | None => None
  | Some h =>
      if String.eqb h "" || negb (String.prefix "Bearer " h) then None
      else Some (String.substring 7 (String.length h - 7) h)
  end.

(** The shape section 4.4 of the specification asks of a header: the
    case-sensitive prefix [Bearer ], then a token that is not empty and
    holds no white space. *)
Fixpoint no_white_space (s : string) : bool :=
  match s with
  | "" => true
  | String c rest => negb (Jsonwebtoken.is_space c) && no_white_space rest
  end.

Definition bearer_shape (header token : string) : Prop :=
  header = "Bearer " +:+ token
  /\ token <> ""
  /\ no_white_space token = true.

(** An extraction helper that returns [null] unless the header has exactly
    that shape, and then the token after the prefix. *)
Definition null_unless_bearer_shape
    (extract : option string -> option string) : Prop :=
  forall authHeader token,
    extract authHeader = Some token
    <-> exists header, authHeader = Some header /\ bearer_shape header token.

End TokenService.

(** Executable stand-ins for the primitives of [Jsonwebtoken], used to run
    the token service on concrete inputs: a codec that writes the binary
    digits of an injective numbering of the object, a MAC that is the tagged
    numbering of its three arguments, and the integral forms of [ms]. *)
Module JwtStub.

Import Jsonwebtoken.

Fixpoint bits (p : positive) : string :=
  match p with
  | xH => ""
  | xO q => String "0"%char (bits q)
  | xI q => String "1"%char (bits q)
  end.

Fixpoint unbits (s : string) : option positive :=
  match s with
  | "" => Some xH
  | String c rest =>
      if Ascii.eqb c "0"%char then xO <$> unbits rest
      else if Ascii.eqb c "1"%char then xI <$> unbits rest
      else None
  end.

Definition header_fields (h : Header) : string * option string :=
  (alg h, typ h).

Definition header_of_fields (t : string * option string) : Header :=
  {| alg := t.1; typ := t.2 |}.

Definition claims_fields (c : Claims) :=
  (userId c, username c, userType c, iat c, nbf c, exp c, iss c, aud c).

Definition claims_of_fields
    (t : option string * option string * option string * option Z
         * option Z * option Z * option string * option string) : Claims :=
  let '(a, b, c, d, e, f, g, h) := t in
  {| userId := a; username := b; userType := c; iat := d; nbf := e;
     exp := f; iss := g; aud := h |}.

Definition encodeHeader (h : Header) : string :=
  bits (countable.encode (header_fields h)).

Definition decodeHeader (s : string) : option Header :=
  p ← unbits s; header_of_fields <$> countable.decode p.

Definition encodeClaims (c : Claims) : string :=
  bits (countable.encode (claims_fields c)).

Definition decodeClaims (s : string) : option Claims :=
  p ← unbits s; claims_of_fields <$> countable.decode p.

Definition hmac (algorithm secret message : string) : string :=
  String "s"%char (bits (countable.encode (algorithm, secret, message))).

Definition is_digit (c : ascii) : bool :=
  let n := nat_of_ascii c in Nat.leb 48 n && Nat.leb n 57.

Fixpoint read_digits (s : string) (acc : Z) : Z * string :=
  match s with
  | "" => (acc, "")
  | String c rest =>
      if is_digit c
      then read_digits rest (acc * 10 + Z.of_nat (nat_of_ascii c - 48))%Z
      else (acc, s)
  end.

Fixpoint skip_spaces (s : string) : string :=
  match s with
  | String c rest => if Ascii.eqb c " "%char then skip_spaces rest else s
  | "" => ""
  end.

Definition lower (c : ascii) : ascii :=
  let n := nat_of_ascii c in
  if Nat.leb 65 n && Nat.leb n 90 then ascii_of_nat (n + 32) else c.

Fixpoint lowercase (s : string) : string :=
  match s with
  | "" => ""
  | String c rest => String (lower c) (lowercase rest)
  end.

Definition unit_ms (unit : string) : option Z :=
  if mem_string unit [""; "ms"; "msec"; "msecs"; "millisecond"; "milliseconds"]
  then Some 1%Z
  else if mem_string unit ["s"; "sec"; "secs"; "second"; "seconds"]
  then Some 1000%Z
  else if mem_string unit ["m"; "min"; "mins"; "minute"; "minutes"]
  then Some 60000%Z
  else if mem_string unit ["h"; "hr"; "hrs"; "hour"; "hours"]
  then Some 3600000%Z
  else if mem_string unit ["d"; "day"; "days"]
  then Some 86400000%Z
  else if mem_string unit ["w"; "week"; "weeks"]
  then Some 604800000%Z
  else if mem_string unit ["y"; "yr"; "yrs"; "year"; "years"]
  then Some 31557600000%Z
  else None.

(** [ms(str)] for a whole number with an optional unit. *)
Definition ms (str : string) : option Z :=
  if Nat.ltb 100 (String.length str) then None
  else
    let '(sign, body) :=
      match str with
      | String c rest => if Ascii.eqb c "-"%char then ((-1)%Z, rest) else (1%Z, str)
      | "" => (1%Z, str)
      end in
    match body with
    | "" => None
    | String c _ =>
        if is_digit c
        then
          let '(n, rest) := read_digits body 0%Z in
          match unit_ms (lowercase (skip_spaces rest)) with
          | Some u => Some (sign * n * u)%Z
          | None => None
          end
        else None
    end.

Definition primitives : Primitives :=
  {| Jsonwebtoken.encodeHeader := encodeHeader;
     Jsonwebtoken.decodeHeader := decodeHeader;
     Jsonwebtoken.encodeClaims := encodeClaims;
     Jsonwebtoken.decodeClaims := decodeClaims;
     Jsonwebtoken.hmac := hmac;
     Jsonwebtoken.ms := ms |}.

End JwtStub.

(* ===================================================================== *)
(** ** utils/validators.js: the two patterns the login route uses        *)
(* ===================================================================== *)

Module Validators.

Definition is_digit (c : ascii) : bool :=
  let n := nat_of_ascii c in Nat.leb 48 n && Nat.leb n 57.

Definition is_word (c : ascii) : bool :=
  let n := nat_of_ascii c in
  (Nat.leb 48 n && Nat.leb n 57) || (Nat.leb 65 n && Nat.leb n 90)
  || (Nat.leb 97 n && Nat.leb n 122) || Nat.eqb n 95.

Fixpoint all_chars (p : ascii -> bool) (s : string) : bool :=
  match s with
  | "" => true
  | String c rest => p c && all_chars p rest
  end.

(** [/^[0-9]{10,16}$/.test(accountNumber)]; [undefined] is tested as the
    text [undefined]. *)
Definition isValidAccountNumber (accountNumber : option string) : bool :=
  let s := to_string accountNumber in
  Nat.leb 10 (String.length s) && Nat.leb (String.length s) 16
  && all_chars is_digit s.

(** [/^[a-zA-Z0-9_]{3,50}$/.test(username)] *)
Definition isValidUsername (username : option string) : bool :=
  let s := to_string username in
  Nat.leb 3 (String.length s) && Nat.leb (String.length s) 50
  && all_chars is_word s.

Definition lower (c : ascii) : ascii :=
  let n := nat_of_ascii c in
  if Nat.leb 65 n && Nat.leb n 90 then ascii_of_nat (n + 32) else c.

(** [s.toLowerCase()] on the ASCII letters, which is all a valid username has. *)
Fixpoint toLowerCase (s : string) : string :=
  match s with
  | "" => ""
  | String c rest => String (lower c) (toLowerCase rest)
  end.

End Validators.

(* ===================================================================== *)
(** ** The fields of a request body                                      *)
(* ===================================================================== *)

Module Body.

(** What the handlers and Mongoose observe of a JSON value that is not a
    string ([null], a boolean, a number, an array or an object):
    - [toText]: [ToString], which the pattern test, a template literal and
      [+ salt] apply to it; it throws for an object whose own [toString]
      is not a function;
    - [isTruthy]: false for [null], [false] and [0];
    - [castDocument]: Mongoose's cast to [String] on a path of a document,
      which keeps [null], takes the text of a number or a boolean and
      rejects an array and a plain object such as [{ $gt: '' }];
    - [castCondition]: Mongoose's cast of the value as the condition on a
      [String] path of a query: the texts it selects, or a cast error. *)
Record Foreign : Type := {
  toText : result string;
  isTruthy : bool;
  castDocument : result (option string);
  castCondition : result (string -> bool)
}.

(** A field of [req.body] as [express.json()] leaves it: absent, a string,
    or another JSON value. The sanitizers of [server.js] are mounted before
    the body parser and do not see it. *)
Inductive value : Type :=
| Undefined
| Str (s : string)
| Other (v : Foreign).

Definition of_option (a : option string) : value :=
  match a with
  | Some s => Str s
  | None => Undefined
  end.

(** [`${v}`], [v + ''] and the text a pattern tests. *)
Definition text (v : value) : result string :=
  match v with
  | Undefined => Ok "undefined"
  | Str s => Ok s
  | Other o => toText o
  end.

Definition truthy (v : value) : bool :=
  match v with
  | Undefined => false
  | Str s => negb (String.eqb s "")
  | Other o => isTruthy o
  end.

(** [v || 'd'] *)
Definition or_else (v : value) (d : string) : value :=
  if truthy v then v else Str d.

(** [v || null]; [null] and [undefined] are cast alike. *)
Definition or_null (v : value) : value :=
  if truthy v then v else Undefined.

(** [pattern.test(v)] *)
Definition test (pattern : option string -> bool) (v : value) : result bool :=
  t <- text v ;; Ok (pattern (Some t)).

(** Mongoose's cast of a document path of type [String]. *)
Definition castString (v : value) : result (option string) :=
  match v with
  | Undefined => Ok None
  | Str s => Ok (Some s)
  | Other o => castDocument o
  end.

(** Mongoose's cast of the condition [{ path: v }] on a path of type
    [String] that every document has. *)
Definition condition (v : value) : result (string -> bool) :=
  match v with
  | Undefined => Ok (fun _ => false)
  | Str s => Ok (fun stored => String.eqb stored s)
  | Other o => castCondition o
  end.

(** A string, or absent. *)
Definition plain (v : value) : bool :=
  match v with
  | Other _ => false
  | _ => true
  end.

(** A value the audit log can store: its text can be taken and the schema
    casts it. *)
Definition recordable (v : value) : bool :=
  returns (text v) && returns (castString v).

End Body.

(* ===================================================================== *)
(** ** models/AuditLog.js                                                *)
(* ===================================================================== *)

Module AuditLog.

Inductive EventType : Type :=
| login_failed
| login_success
| registration_success
| account_locked
| suspicious_activity
| password_reset
| unauthorized_access.

Inductive Severity : Type := info | warning | critical.

(** A document of the collection. [ipAddress] is still optional here:
    the schema's [required] is checked by [create]. *)
Record AuditEvent : Type := {
  eventType : EventType;
  userType : string;
  username : string;
  accountNumber : option string;
  ipAddress : option string;
  userAgent : string;
  message : string;
  failureReason : option string;
  severity : Severity;
  metadata : list (string * string);
  timestamp : Z
}.

(** The collection, and whether the database accepts the next write. *)
Record Collection : Type := {
  documents : list AuditEvent;
  accepts_writes : bool
}.

(** The argument of [logFailedLogin] and [logSuccessfulLogin]. [username]
    and [accountNumber] come from the request body as they are. *)
Record LoginData : Type := {
  d_userType : option string;
  d_username : Body.value;
  d_accountNumber : Body.value;
  d_ipAddress : option string;
  d_userAgent : option string;
  d_failureReason : option string;
  d_metadata : option (list (string * string))
}.

(** The object handed to [create], before the schema has cast it. *)
Record Fields : Type := {
  f_eventType : EventType;
  f_userType : string;
  f_username : Body.value;
  f_accountNumber : Body.value;
  f_ipAddress : option string;
  f_userAgent : string;
  f_message : string;
  f_failureReason : option string;
  f_severity : Severity;
  f_metadata : list (string * string)
}.

(** The schema casts [username] and [accountNumber] to [String]; a missing
    [username] gets the default, the [timestamp] is [Date.now]. *)
Definition cast (f : Fields) (now : Z) : result AuditEvent :=
  username <- Body.castString (f_username f) ;;
  accountNumber <- Body.castString (f_accountNumber f) ;;
  Ok {| eventType := f_eventType f;
        userType := f_userType f;
        username := default "unknown" username;
        accountNumber := accountNumber;
        ipAddress := f_ipAddress f;
        userAgent := f_userAgent f;
        message := f_message f;
        failureReason := f_failureReason f;
        severity := f_severity f;
        metadata := f_metadata f;
        timestamp := now |}.

(** Schema validation: the [userType] enum and the required strings. *)
Definition validates (doc : AuditEvent) : bool :=
  Jsonwebtoken.mem_string (userType doc) ["customer"; "employee"; "unknown"]
  && truthy (ipAddress doc)
  && negb (String.eqb (message doc) "").

(** [this.create(fields)]: cast, validate, write. *)
Definition create (c : Collection) (f : Fields) (now : Z) : result Collection :=
  doc <- cast f now ;;
  if negb (validates doc) then Throw "AuditLog validation failed"
  else if accepts_writes c
  then Ok {| documents := documents c ++ [doc];
             accepts_writes := accepts_writes c |}
  else Throw "write failed".

(** The whole body is inside [try]: a throw while the object is built, a
    rejected cast and a failed write are all swallowed. *)
Definition logFailedLogin (c : Collection) (data : LoginData) (now : Z)
  : Collection :=
  match
    subject <-
      Body.text (if Body.truthy (d_username data) then d_username data
                 else d_accountNumber data) ;;
    create c
      {| f_eventType := login_failed;
         f_userType := or_else (d_userType data) "unknown";
         f_username := Body.or_else (d_username data) "unknown";
         f_accountNumber := Body.or_null (d_accountNumber data);
         f_ipAddress := d_ipAddress data;
         f_userAgent := or_else (d_userAgent data) "unknown";
         f_message :=
           "Failed login attempt for " +:+ to_string (d_userType data) +:+ ": "
           +:+ subject;
         f_failureReason := d_failureReason data;
         f_severity := warning;
         f_metadata := default [] (d_metadata data) |}
      now
  with
  | Ok c' => c'
  | Throw _ => c
  end.

Definition logSuccessfulLogin (c : Collection) (data : LoginData) (now : Z)
  : Collection :=
  match
    subject <- Body.text (d_username data) ;;
    create c
      {| f_eventType := login_success;
         f_userType := or_else (d_userType data) "unknown";
         f_username := d_username data;
         f_accountNumber := Body.or_null (d_accountNumber data);
         f_ipAddress := d_ipAddress data;
         f_userAgent := or_else (d_userAgent data) "unknown";
         f_message :=
           "Successful login for " +:+ to_string (d_userType data) +:+ ": "
           +:+ subject;
         f_failureReason := None;
         f_severity := info;
         f_metadata := default [] (d_metadata data) |}
      now
  with
  | Ok c' => c'
  | Throw _ => c
  end.

End AuditLog.

(* ===================================================================== *)
(** ** routes/customerAuth.js: POST /api/customer/auth/login             *)
(* ===================================================================== *)

Module CustomerAuth.

(** models/Customer.js, with the [updatedAt] of [timestamps: true]. *)
Record Customer : Type := {
  _id : string;
  fullName : string;
  idNumber : string;
  accountNumber : string;
  username : string;
  passwordHash : string;
  passwordSalt : string;
  isActive : bool;
  createdAt : Z;
  lastLoginAt : option Z;
  updatedAt : option Z
}.

(** The database as the route sees it: the two collections, and whether the
    customer collection answers the next query and the next save. *)
Record World : Type := {
  customers : list Customer;
  auditLog : AuditLog.Collection;
  findOne_throws : bool;
  save_throws : bool
}.

Record Request : Type := {
  body_username : Body.value;
  body_accountNumber : Body.value;
  body_password : Body.value;
  ip : option string;
  remoteAddress : option string;
  user_agent : option string
}.

Inductive Json : Type :=
| Failure (message : string)
| LoggedIn (token username fullName : string).

Record Response : Type := { status : nat; json : Json }.

(** [{ accountNumber, isActive: true }], and [username] when one is given. *)
Record Query : Type := {
  q_accountNumber : Body.value;
  q_isActive : bool;
  q_username : option string
}.

Definition matches (selects : string -> bool) (q : Query) (c : Customer)
  : bool :=
  selects (accountNumber c)
  && Bool.eqb (isActive c) (q_isActive q)
  && match q_username q with
     | Some u => String.eqb (username c) u
     | None => true
     end.

(** [Customer.findOne(query)]: the condition on [accountNumber] is cast
    first. *)
Definition findOne (w : World) (q : Query) : result (option Customer) :=
  if findOne_throws w then Throw "query failed"
  else
    selects <- Body.condition (q_accountNumber q) ;;
    Ok (List.find (matches selects q) (customers w)).

Definition with_audit (w : World) (a : AuditLog.Collection) : World :=
  {| customers := customers w; auditLog := a;
     findOne_throws := findOne_throws w; save_throws := save_throws w |}.

(** [customer.lastLoginAt = new Date()] *)
Definition touch (c : Customer) (now : Z) : Customer :=
  {| _id := _id c; fullName := fullName c; idNumber := idNumber c;
     accountNumber := accountNumber c; username := username c;
     passwordHash := passwordHash c; passwordSalt := passwordSalt c;
     isActive := isActive c; createdAt := createdAt c;
     lastLoginAt := Some now; updatedAt := updatedAt c |}.

(** What [timestamps: true] does to a document that is saved. *)
Definition stamp (c : Customer) (now : Z) : Customer :=
  {| _id := _id c; fullName := fullName c; idNumber := idNumber c;
     accountNumber := accountNumber c; username := username c;
     passwordHash := passwordHash c; passwordSalt := passwordSalt c;
     isActive := isActive c; createdAt := createdAt c;
     lastLoginAt := lastLoginAt c; updatedAt := Some now |}.

(** [customer.save()] at clock [now]. *)
Definition save (w : World) (c : Customer) (now : Z) : result World :=
  if save_throws w then Throw "save failed"
  else Ok {| customers :=
               map (fun d => if String.eqb (_id d) (_id c) then stamp c now
                             else d)
                 (customers w);
             auditLog := auditLog w;
             findOne_throws := findOne_throws w;
             save_throws := save_throws w |}.

(** The two whitelist checks of the route: a valid account number, and a
    valid username when one is given. [Ok false] is a rejection; a test
    throws when the text of the value cannot be taken. *)
Definition validation (req : Request) : result bool :=
  validAccountNumber <-
    Body.test Validators.isValidAccountNumber (body_accountNumber req) ;;
  if negb validAccountNumber then Ok false
  else if Body.truthy (body_username req)
  then Body.test Validators.isValidUsername (body_username req)
  else Ok true.

Definition well_formed (req : Request) : bool :=
  match validation req with
  | Ok true => true
  | _ => false
  end.

(** [username.toLowerCase()] *)
Definition toLowerCase (v : Body.value) : result string :=
  match v with
  | Body.Str s => Ok (Validators.toLowerCase s)
  | _ => Throw "username.toLowerCase is not a function"
  end.

(** The [query] object of the route. *)
Definition loginQuery (req : Request) : result Query :=
  if Body.truthy (body_username req)
  then
    lowered <- toLowerCase (body_username req) ;;
    Ok {| q_accountNumber := body_accountNumber req;
          q_isActive := true;
          q_username := Some lowered |}
  else Ok {| q_accountNumber := body_accountNumber req;
             q_isActive := true;
             q_username := None |}.

(** Building the query and running it. *)
Definition lookup (w : World) (req : Request) : result (option Customer) :=
  query <- loginQuery req ;; findOne w query.

Definition internal_error : Response :=
  {| status := 500; json := Failure "Login failed. Please try again." |}.

Section Route.

Variable bcrypt_compare : string -> string -> result bool.
Variable P : Jsonwebtoken.Primitives.
Variable env : Process.Env.

(** [passwordService.verifyPassword(password, hash, salt)] for a password
    as the body has it: [password + salt] is inside the [try] of
    [verifyPassword], so a value without a text is answered [false]. *)
Definition verify (password : Body.value) (hash salt : string) : result bool :=
  match Body.text password with
  | Ok p => PasswordService.verifyPassword bcrypt_compare p hash salt
  | Throw _ => Ok false
  end.

Definition failed (w : World) (req : Request) (ipAddress userAgent : string)
    (username : Body.value) (reason : string) (now : Z) : World :=
  with_audit w
    (AuditLog.logFailedLogin (auditLog w)
       {| AuditLog.d_userType := Some "customer";
          AuditLog.d_username := username;
          AuditLog.d_accountNumber := body_accountNumber req;
          AuditLog.d_ipAddress := Some ipAddress;
          AuditLog.d_userAgent := Some userAgent;
          AuditLog.d_failureReason := Some reason;
          AuditLog.d_metadata := None |}
       now).

(** The handler: the database before, the request and the clock (read once
    for the request) give the database after and the response. The outer
    [try]/[catch] answers 500; what was written before the throw stays
    written. *)
Definition login (w : World) (req : Request) (now : Z) : World * Response :=
  let reqUsername := body_username req in
  let reqAccountNumber := body_accountNumber req in
  let ipAddress := or_else (ip req) (or_else (remoteAddress req) "unknown") in
  let userAgent := or_else (user_agent req) "unknown" in
  match Body.test Validators.isValidAccountNumber reqAccountNumber with
  | Throw _ => (w, internal_error)
  | Ok false =>
      (failed w req ipAddress userAgent
         (Body.or_else reqUsername "not-provided")
         "Invalid account number format" now,
       {| status := 400; json := Failure "Invalid account number format." |})
  | Ok true =>
      match
        if Body.truthy reqUsername
        then Body.test Validators.isValidUsername reqUsername
        else Ok true
      with
      | Throw _ => (w, internal_error)
      | Ok false =>
          (failed w req ipAddress userAgent reqUsername
             "Invalid username format" now,
           {| status := 400; json := Failure "Invalid username format." |})
      | Ok true =>
          match lookup w req with
          | Throw _ => (w, internal_error)
          | Ok None =>
              (failed w req ipAddress userAgent
                 (Body.or_else reqUsername "not-provided")
                 "Account not found or inactive" now,
               {| status := 401; json := Failure "Invalid credentials." |})
          | Ok (Some customer) =>
            match
              verify (body_password req) (passwordHash customer)
                (passwordSalt customer)
            with
            | Throw _ => (w, internal_error)
            | Ok false =>
                (failed w req ipAddress userAgent (Body.Str (username customer))
                   "Invalid password" now,
                 {| status := 401; json := Failure "Invalid credentials." |})
            | Ok true =>
                match save w (touch customer now) now with
                | Throw _ => (w, internal_error)
                | Ok w1 =>
                    let w2 :=
                      with_audit w1
                        (AuditLog.logSuccessfulLogin (auditLog w1)
                           {| AuditLog.d_userType := Some "customer";
                              AuditLog.d_username := Body.Str (username customer);
                              AuditLog.d_accountNumber := body_accountNumber req;
                              AuditLog.d_ipAddress := Some ipAddress;
                              AuditLog.d_userAgent := Some userAgent;
                              AuditLog.d_failureReason := None;
                              AuditLog.d_metadata := None |}
                           now) in
                    match
                      TokenService.generateToken P env
                        {| TokenService.p_userId := Some (_id customer);
                           TokenService.p_username := Some (username customer);
                           TokenService.p_userType := Some "customer" |}
                        now
                    with
                    | Throw _ => (w2, internal_error)
                    | Ok token =>
                        (w2,
                         {| status := 200;
                            json := LoggedIn token (username customer)
                                      (fullName customer) |})
                    end
                end
            end
          end
      end
  end.

End Route.

(** Every login attempt adds exactly one document to the audit collection. *)
Definition one_event_per_attempt
    (handler : World -> Request -> Z -> World * Response) : Prop :=
  forall w req now,
    exists ev,
      AuditLog.documents (auditLog (handler w req now).1)
      = AuditLog.documents (auditLog w) ++ [ev].

End CustomerAuth.

(* ===================================================================== *)
(** ** middleware/brute.js: the abuse guard in front of the login routes *)
(* ===================================================================== *)

Module AbuseGuard.

Local Open Scope Z_scope.

(** Modelled from the spec: the per-route-class settings of the guard.
    [middleware/brute.js], which [server.js] imports and mounts on the login
    routes, is not among the sources; the threshold, the counting window and
    the lockout duration are the spec's configured values. *)
Record Config : Type := {
  threshold : nat;
  windowMs : Z;
  lockoutMs : Z
}.

(** Modelled from the spec: the AbuseCounter of the data model, which
    [middleware/brute.js] would hold: attempt count, window start and
    lockout-until (if tripped). *)
Record AbuseCounter : Type := {
  attempts : nat;
  windowStart : Z;
  lockoutUntil : option Z
}.



(** Modelled from the spec: the counter of a scope key that is in force at a
    given time ([middleware/brute.js] is missing). The data model resets a
    counter on window expiry and the state machine leaves Locked on lockout
    expiry, so a counter whose lockout has expired, or which is not locked
    and whose window has expired or which has counted nothing, is not in
    force. *)
Definition current (cfg : Config) (s : gmap string AbuseCounter)
    (scopeKey : string) (now : Z) : option AbuseCounter :=
  match s !! scopeKey with
  | Some c =>
      match lockoutUntil c with
      | Some t => if now <? t then Some c else None
      | None =>
          if Nat.ltb 0 (attempts c) && (now <? windowStart c + windowMs cfg)
          then Some c else None
      end
  | None => None
  end.


(** Modelled from the spec: the window counter of a scope key at a given
    time ([middleware/brute.js] is missing). *)
Definition count (cfg : Config) (s : gmap string AbuseCounter)
    (scopeKey : string) (now : Z) : nat :=
  match current cfg s scopeKey now with
  | Some c => attempts c
  | None => O
  end.




(** Modelled from the spec: what becomes of a request at the guard
    ([middleware/brute.js] is missing): it is blocked, or it is passed on to
    the route behind the guard. *)
Inductive Outcome (A : Type) : Type :=
| Blocked (retryAfter : Z)
| Passed (response : A).

Arguments Blocked {A} retryAfter.
Arguments Passed {A} response.



End AbuseGuard.

(* ===================================================================== *)
(** ** utils/validators.js: [sanitizeInput]                              *)
(* ===================================================================== *)

Module Sanitizer.

Local Open Scope N_scope.

(** A JavaScript value as [typeof] sees it. A string is its sequence of
    UTF-16 code units. *)
Inductive value : Type :=
| VUndefined
| VNull
| VBoolean (b : bool)
| VNumber (ieee754 : N)
| VString (units : list N)
| VObject.

Definition LT : N := 60.
Definition GT : N := 62.
Definition AMP : N := 38.
Definition LPAREN : N := 40.
Definition RPAREN : N := 41.

Fixpoint has_gt (s : list N) : bool :=
  match s with
  | [] => false
  | c :: rest => (c =? GT) || has_gt rest
  end.

(** [s.replace(/<[^>]*>/g, '')]: a [<] that has a [>] somewhere after it
    opens a match that runs to the first such [>]; [inTag] says the scan is
    inside a match. *)
Fixpoint strip_tags (inTag : bool) (s : list N) : list N :=
  match s with
  | [] => []
  | c :: rest =>
      if inTag then
        if c =? GT then strip_tags false rest else strip_tags true rest
      else if (c =? LT) && has_gt rest then strip_tags true rest
      else c :: strip_tags false rest
  end.

(** [s.replace(/[<>]/g, '')] *)
Definition strip_angles (s : list N) : list N :=
  List.filter (fun c => negb ((c =? LT) || (c =? GT))) s.

(** [s.replace(/[&()]/g, '')] *)
Definition strip_amp_parens (s : list N) : list N :=
  List.filter (fun c => negb ((c =? AMP) || (c =? LPAREN) || (c =? RPAREN))) s.

(** WhiteSpace and LineTerminator of ECMAScript, which [trim] removes. *)
Definition is_white (c : N) : bool :=
  ((9 <=? c) && (c <=? 13)) || (c =? 32) || (c =? 160) || (c =? 5760)
  || ((8192 <=? c) && (c <=? 8202)) || (c =? 8232) || (c =? 8233)
  || (c =? 8239) || (c =? 8287) || (c =? 12288) || (c =? 65279).

Fixpoint trimStart (s : list N) : list N :=
  match s with
  | [] => []
  | c :: rest => if is_white c then trimStart rest else s
  end.

Definition trimEnd (s : list N) : list N :=
  reverse (trimStart (reverse s)).

Definition trim (s : list N) : list N := trimEnd (trimStart s).

Definition sanitizeInput (input : value) : list N :=
  match input with
  | VString s => trim (strip_amp_parens (strip_angles (strip_tags false s)))
  | _ => []
  end.

(** The code units of an ASCII literal. *)
Fixpoint units (s : string) : list N :=
  match s with
  | EmptyString => []
  | String c rest => N_of_ascii c :: units rest
  end.

Definition forbidden (c : N) : bool :=
  (c =? LT) || (c =? GT) || (c =? AMP) || (c =? LPAREN) || (c =? RPAREN).

End Sanitizer.

(* ===================================================================== *)
(** ** Concrete inputs                                                   *)
(* ===================================================================== *)

Module Scenario.

Import PasswordService.

Definition entropy0 : Entropy :=
  {| osRandom := fun i => byte_of_ascii (ascii_of_nat (7 * i + 3));
     bcryptSalt := map (fun i => byte_of_ascii (ascii_of_nat (11 * i + 5)))
                     (seq 0 16) |}.

Definition entropy1 : Entropy :=
  {| osRandom := fun i => byte_of_ascii (ascii_of_nat (5 * i + 1));
     bcryptSalt := bcryptSalt entropy0 |}.

Fixpoint repeat_char (n : nat) (c : ascii) : string :=
  match n with
  | O => ""
  | S m => String c (repeat_char m c)
  end.

(** A 72 character start shared by two passwords of the allowed length. *)
Definition longHead : string := "Aa1!" +:+ repeat_char 68 "p"%char.

Definition env0 : Process.Env :=
  {| Process.JWT_SECRET :=
       Some "test_secret_key_for_testing_purposes_only_minimum_64_chars_required";
     Process.JWT_EXPIRE := Some "2h";
     Process.PASSWORD_PEPPER := None |}.

(** The same deployment with a one hour session. *)
Definition env_1h : Process.Env :=
  {| Process.JWT_SECRET := Process.JWT_SECRET env0;
     Process.JWT_EXPIRE := Some "1h";
     Process.PASSWORD_PEPPER := None |}.

Definition payload0 : TokenService.Payload :=
  {| TokenService.p_userId := Some "507f1f77bcf86cd799439011";
     TokenService.p_username := Some "testuser";
     TokenService.p_userType := Some "customer" |}.

(** A clock reading, in milliseconds. *)
Definition now0 : Z := 1700000000000%Z.

(** The credential the account script stores for the password [Test@1234]. *)
Definition credential0 : Credential :=
  match hashPassword BcryptStub.hash "Test@1234" entropy0 with
  | Ok cred => cred
  | Throw _ => {| hash := ""; salt := "" |}
  end.

Definition customer0 : CustomerAuth.Customer :=
  {| CustomerAuth._id := "507f1f77bcf86cd799439011";
     CustomerAuth.fullName := "Test User";
     CustomerAuth.idNumber := "9001015009087";
     CustomerAuth.accountNumber := "1234567890";
     CustomerAuth.username := "testuser";
     CustomerAuth.passwordHash := hash credential0;
     CustomerAuth.passwordSalt := salt credential0;
     CustomerAuth.isActive := true;
     CustomerAuth.createdAt := 1699990000000%Z;
     CustomerAuth.lastLoginAt := None;
     CustomerAuth.updatedAt := Some 1699990000000%Z |}.

Definition world0 : CustomerAuth.World :=
  {| CustomerAuth.customers := [customer0];
     CustomerAuth.auditLog :=
       {| AuditLog.documents := []; AuditLog.accepts_writes := true |};
     CustomerAuth.findOne_throws := false;
     CustomerAuth.save_throws := false |}.

(** The same database while the audit collection refuses writes. *)
Definition world_audit_down : CustomerAuth.World :=
  {| CustomerAuth.customers := [customer0];
     CustomerAuth.auditLog :=
       {| AuditLog.documents := []; AuditLog.accepts_writes := false |};
     CustomerAuth.findOne_throws := false;
     CustomerAuth.save_throws := false |}.

(** The same database while the customer collection does not answer. *)
Definition world_lookup_down : CustomerAuth.World :=
  {| CustomerAuth.customers := [customer0];
     CustomerAuth.auditLog :=
       {| AuditLog.documents := []; AuditLog.accepts_writes := true |};
     CustomerAuth.findOne_throws := true;
     CustomerAuth.save_throws := false |}.

(** The same database after the account was deactivated. *)
Definition world_inactive : CustomerAuth.World :=
  {| CustomerAuth.customers :=
       [{| CustomerAuth._id := CustomerAuth._id customer0;
           CustomerAuth.fullName := CustomerAuth.fullName customer0;
           CustomerAuth.idNumber := CustomerAuth.idNumber customer0;
           CustomerAuth.accountNumber := CustomerAuth.accountNumber customer0;
           CustomerAuth.username := CustomerAuth.username customer0;
           CustomerAuth.passwordHash := CustomerAuth.passwordHash customer0;
           CustomerAuth.passwordSalt := CustomerAuth.passwordSalt customer0;
           CustomerAuth.isActive := false;
           CustomerAuth.createdAt := CustomerAuth.createdAt customer0;
           CustomerAuth.lastLoginAt := None;
           CustomerAuth.updatedAt := CustomerAuth.updatedAt customer0 |}];
     CustomerAuth.auditLog :=
       {| AuditLog.documents := []; AuditLog.accepts_writes := true |};
     CustomerAuth.findOne_throws := false;
     CustomerAuth.save_throws := false |}.

Definition request (accountNumber password : string) : CustomerAuth.Request :=
  {| CustomerAuth.body_username := Body.Str "TestUser";
     CustomerAuth.body_accountNumber := Body.Str accountNumber;
     CustomerAuth.body_password := Body.Str password;
     CustomerAuth.ip := Some "203.0.113.7";
     CustomerAuth.remoteAddress := None;
     CustomerAuth.user_agent := Some "supertest" |}.

Definition request_ok : CustomerAuth.Request :=
  request "1234567890" "Test@1234".

Definition request_wrong_password : CustomerAuth.Request :=
  request "1234567890" "Wrong@1234".

Definition request_unknown_account : CustomerAuth.Request :=
  request "9999999999" "Test@1234".




End Scenario.

(* ===================================================================== *)
(** ** middleware/auth.js                                                *)
(* ===================================================================== *)

Module Auth.

(** [req.user]: the three fields copied from the decoded token. *)
Record User : Type := {
  userId : option string;
  username : option string;
  userType : option string
}.

(** What a middleware does with a request: it calls [next()], with the
    [req.user] it attached, or it answers. *)
Inductive Outcome : Type :=
| Next (user : User)
| Respond (status : nat) (message : string).

Section WithPrimitives.

Variable P : Jsonwebtoken.Primitives.
Variable env : Process.Env.

(** [authorization] is [req.headers['authorization']]. The handler of the
    outer [try] is not reached: neither service function throws on a
    header that is a string or missing. *)
Definition authenticateToken (authorization : option string) (now : Z)
  : Outcome :=
  match TokenService.extractTokenFromHeader authorization with
  | None => Respond 401 "Access denied. No token provided."
  | Some token =>
      if String.eqb token ""
      then Respond 401 "Access denied. No token provided."
      else
        match TokenService.verifyToken P env token now with
        | None => Respond 401 "Invalid or expired token."
        | Some decoded =>
            Next {| userId := Jsonwebtoken.userId decoded;
                    username := Jsonwebtoken.username decoded;
                    userType := Jsonwebtoken.userType decoded |}
        end
  end.

End WithPrimitives.

(** What a role gate does: it calls [next()] or answers 403. *)
Inductive Gate : Type :=
| Pass
| Deny (status : nat) (message : string).

Definition has_type (role : string) (user : User) : bool :=
  match userType user with
  | Some t => String.eqb t role
  | None => false
  end.

(** [user] is [req.user], [None] when no middleware attached one: reading
    [req.user.userType] then throws. *)
Definition requireCustomer (user : option User) : result Gate :=
  match user with
  | None => Throw "Cannot read properties of undefined"
  | Some u =>
      if negb (has_type "customer" u)
      then Ok (Deny 403 "Access denied. Customer role required.")
      else Ok Pass
  end.

Definition requireEmployee (user : option User) : result Gate :=
  match user with
  | None => Throw "Cannot read properties of undefined"
  | Some u =>
      if negb (has_type "employee" u)
      then Ok (Deny 403 "Access denied. Employee role required.")
      else Ok Pass
  end.

End Auth.

(* ===================================================================== *)
(** ** routes/employeeAuth.js: POST /api/employee/auth/login             *)
(* ===================================================================== *)

Module EmployeeAuth.

(** models/Employee.js *)
Record Employee : Type := {
  _id : string;
  fullName : string;
  username : string;
  passwordHash : string;
  passwordSalt : string;
  role : string;
  isActive : bool;
  lastLoginAt : option Z;
  updatedAt : option Z
}.

Record World : Type := {
  employees : list Employee;
  auditLog : AuditLog.Collection;
  findOne_throws : bool;
  save_throws : bool
}.

(** The request, with the fields of its body as strings, or absent. *)
Record Request : Type := {
  body_username : option string;
  body_password : option string;
  ip : option string;
  remoteAddress : option string;
  user_agent : option string
}.

Inductive Json : Type :=
| Failure (message : string)
| LoggedIn (token username fullName role : string).

Record Response : Type := { status : nat; json : Json }.

(** [Employee.findOne({ username, isActive: true })] *)
Definition findOne (w : World) (queryUsername : string)
  : result (option Employee) :=
  if findOne_throws w then Throw "query failed"
  else Ok (List.find
             (fun e => String.eqb (username e) queryUsername
                       && Bool.eqb (isActive e) true)
             (employees w)).

Definition with_audit (w : World) (a : AuditLog.Collection) : World :=
  {| employees := employees w; auditLog := a;
     findOne_throws := findOne_throws w; save_throws := save_throws w |}.

(** [employee.lastLoginAt = new Date()] *)
Definition touch (e : Employee) (now : Z) : Employee :=
  {| _id := _id e; fullName := fullName e; username := username e;
     passwordHash := passwordHash e; passwordSalt := passwordSalt e;
     role := role e; isActive := isActive e; lastLoginAt := Some now;
     updatedAt := updatedAt e |}.

(** The [timestamps] option of the schema: a save sets [updatedAt]. *)
Definition stamp (e : Employee) (now : Z) : Employee :=
  {| _id := _id e; fullName := fullName e; username := username e;
     passwordHash := passwordHash e; passwordSalt := passwordSalt e;
     role := role e; isActive := isActive e; lastLoginAt := lastLoginAt e;
     updatedAt := Some now |}.

(** [employee.save()] *)
Definition save (w : World) (e : Employee) (now : Z) : result World :=
  if save_throws w then Throw "save failed"
  else Ok {| employees :=
               map (fun d => if String.eqb (_id d) (_id e)
                             then stamp e now else d)
                 (employees w);
             auditLog := auditLog w;
             findOne_throws := findOne_throws w;
             save_throws := save_throws w |}.

Definition internal_error : Response :=
  {| status := 500; json := Failure "Login failed. Please try again." |}.

Section Route.

Variable bcrypt_compare : string -> string -> result bool.
Variable P : Jsonwebtoken.Primitives.
Variable env : Process.Env.

Definition failed (w : World) (req : Request) (ipAddress userAgent : string)
    (username : option string) (reason : string) (now : Z) : World :=
  with_audit w
    (AuditLog.logFailedLogin (auditLog w)
       {| AuditLog.d_userType := Some "employee";
          AuditLog.d_username := Body.of_option username;
          AuditLog.d_accountNumber := Body.Undefined;
          AuditLog.d_ipAddress := Some ipAddress;
          AuditLog.d_userAgent := Some userAgent;
          AuditLog.d_failureReason := Some reason;
          AuditLog.d_metadata := None |}
       now).

(** The handler. A missing [username] is tested by the pattern as the text
    [undefined], which the pattern accepts; [username.toLowerCase()] then
    throws, and the outer [catch] answers 500. *)
Definition login (w : World) (req : Request) (now : Z) : World * Response :=
  let ipAddress := or_else (ip req) (or_else (remoteAddress req) "unknown") in
  let userAgent := or_else (user_agent req) "unknown" in
  if negb (Validators.isValidUsername (body_username req)) then
    (failed w req ipAddress userAgent (body_username req)
       "Invalid username format" now,
     {| status := 400; json := Failure "Invalid username format." |})
  else if negb (truthy (body_password req)) then
    (failed w req ipAddress userAgent (body_username req)
       "Password not provided" now,
     {| status := 400; json := Failure "Password is required." |})
  else
    match body_username req with
    | None => (w, internal_error)
    | Some reqUsername =>
        match findOne w (Validators.toLowerCase reqUsername) with
        | Throw _ => (w, internal_error)
        | Ok None =>
            (failed w req ipAddress userAgent (body_username req)
               "Employee not found or inactive" now,
             {| status := 401; json := Failure "Invalid credentials." |})
        | Ok (Some employee) =>
            match
              PasswordService.verifyPassword bcrypt_compare
                (to_string (body_password req))
                (passwordHash employee) (passwordSalt employee)
            with
            | Throw _ => (w, internal_error)
            | Ok false =>
                (failed w req ipAddress userAgent (Some (username employee))
                   "Invalid password" now,
                 {| status := 401; json := Failure "Invalid credentials." |})
            | Ok true =>
                match save w (touch employee now) now with
                | Throw _ => (w, internal_error)
                | Ok w1 =>
                    let w2 :=
                      with_audit w1
                        (AuditLog.logSuccessfulLogin (auditLog w1)
                           {| AuditLog.d_userType := Some "employee";
                              AuditLog.d_username :=
                                Body.Str (username employee);
                              AuditLog.d_accountNumber := Body.Undefined;
                              AuditLog.d_ipAddress := Some ipAddress;
                              AuditLog.d_userAgent := Some userAgent;
                              AuditLog.d_failureReason := None;
                              AuditLog.d_metadata :=
                                Some [("role", role employee)] |}
                           now) in
                    match
                      TokenService.generateToken P env
                        {| TokenService.p_userId := Some (_id employee);
                           TokenService.p_username := Some (username employee);
                           TokenService.p_userType := Some "employee" |}
                        now
                    with
                    | Throw _ => (w2, internal_error)
                    | Ok token =>
                        (w2,
                         {| status := 200;
                            json := LoggedIn token (username employee)
                                      (fullName employee) (role employee) |})
                    end
                end
            end
        end
    end.

End Route.

End EmployeeAuth.

(* ===================================================================== *)
(** ** models/AuditLog.js: the read side                                 *)
(* ===================================================================== *)

Module AuditQueries.

Import AuditLog.

Local Open Scope Z_scope.

(** [new Date(Date.now() - timeWindowMinutes * 60 * 1000)] *)
Definition cutoffTime (now timeWindowMinutes : Z) : Z :=
  now - timeWindowMinutes * 60 * 1000.

Definition same_ip (ip : string) (ev : AuditEvent) : bool :=
  match ipAddress ev with
  | Some a => String.eqb a ip
  | None => false
  end.

Definition is_login_failed (ev : AuditEvent) : bool :=
  match eventType ev with
  | login_failed => true
  | _ => false
  end.

(** [.sort({ timestamp: -1 })]: newest first. Documents of equal timestamp
    keep their order, which the database leaves open. *)
Fixpoint insert_desc (ev : AuditEvent) (sorted : list AuditEvent)
  : list AuditEvent :=
  match sorted with
  | [] => [ev]
  | x :: rest =>
      if timestamp x <? timestamp ev then ev :: sorted
      else x :: insert_desc ev rest
  end.

Definition sort_desc (l : list AuditEvent) : list AuditEvent :=
  fold_right insert_desc [] l.

(** [find_throws] says whether the database rejects the query; the two
    getters do not catch it. *)
Definition getFailedAttemptsByIP (find_throws : bool) (c : Collection)
    (ip : string) (timeWindowMinutes : option Z) (now : Z)
  : result (list AuditEvent) :=
  let cutoff := cutoffTime now (default 30 timeWindowMinutes) in
  if find_throws then Throw "query failed"
  else Ok (sort_desc
             (List.filter
                (fun ev => same_ip ip ev && is_login_failed ev
                           && (cutoff <=? timestamp ev))
                (documents c))).

Definition getFailedAttemptsByUsername (find_throws : bool) (c : Collection)
    (user : string) (timeWindowMinutes : option Z) (now : Z)
  : result (list AuditEvent) :=
  let cutoff := cutoffTime now (default 30 timeWindowMinutes) in
  if find_throws then Throw "query failed"
  else Ok (sort_desc
             (List.filter
                (fun ev => String.eqb (username ev) user && is_login_failed ev
                           && (cutoff <=? timestamp ev))
                (documents c))).

(** [checkSuspiciousActivity(ipAddress, threshold = 5, timeWindowMinutes = 15)] *)
Definition checkSuspiciousActivity (find_throws : bool) (c : Collection)
    (ip : string) (threshold timeWindowMinutes : option Z) (now : Z)
  : result bool :=
  failedAttempts <-
    getFailedAttemptsByIP find_throws c ip
      (Some (default 15 timeWindowMinutes)) now ;;
  Ok (default 5 threshold <=? Z.of_nat (length failedAttempts)).

End AuditQueries.

(* ===================================================================== *)
(** ** routes/employeePortal.js: the payment workflow                    *)
(* ===================================================================== *)

Module EmployeePortal.

Inductive Status : Type := Pending | Verified | Submitted | Completed | Rejected.

Definition status_name (s : Status) : string :=
  match s with
  | Pending => "Pending"
  | Verified => "Verified"
  | Submitted => "Submitted"
  | Completed => "Completed"
  | Rejected => "Rejected"
  end.

Definition status_eqb (a b : Status) : bool :=
  match a, b with
  | Pending, Pending | Verified, Verified | Submitted, Submitted
  | Completed, Completed | Rejected, Rejected => true
  | _, _ => false
  end.

(** models/Payment.js. [_id] is the hexadecimal text of the ObjectId;
    [amount] is the number as its IEEE 754 bits, which the portal never
    reads. *)
Record Payment : Type := {
  _id : string;
  customerId : string;
  customerUsername : string;
  amount : N;
  currency : string;
  provider : string;
  payeeFullName : string;
  payeeAccountNumber : string;
  payeeBankName : string;
  swiftCode : string;
  status : Status;
  verifiedBy : option string;
  verifiedByUsername : option string;
  verifiedAt : option Z;
  submittedToSwiftAt : option Z;
  createdAt : Z
}.

(** The payment collection, and whether the database rejects the next read,
    the next [save] and the next [updateMany]. *)
Record Db : Type := {
  payments : list Payment;
  find_throws : bool;
  save_throws : bool;
  update_throws : bool
}.

Inductive Json : Type :=
| Failure (message : string)
| Changed (message : string) (payment : Payment)
| Submittal (message : string) (count : nat).

Record Response : Type := { code : nat; json : Json }.

Definition is_hex (c : ascii) : bool :=
  let n := nat_of_ascii c in
  (Nat.leb 48 n && Nat.leb n 57) || (Nat.leb 65 n && Nat.leb n 70)
  || (Nat.leb 97 n && Nat.leb n 102).

(** [/^[0-9a-fA-F]{24}$/.test(id)] *)
Definition isValidObjectId (id : option string) : bool :=
  let s := to_string id in
  Nat.eqb (String.length s) 24 && Validators.all_chars is_hex s.

(** [Payment.findById(paymentId)]: the text is cast to an ObjectId, whose
    hexadecimal text is in lower case. *)
Definition findById (db : Db) (paymentId : string) : result (option Payment) :=
  if find_throws db then Throw "query failed"
  else Ok (List.find
             (fun p => String.eqb (_id p) (Validators.toLowerCase paymentId))
             (payments db)).

Definition set_payments (db : Db) (l : list Payment) : Db :=
  {| payments := l; find_throws := find_throws db;
     save_throws := save_throws db; update_throws := update_throws db |}.

(** The document of that [_id] is replaced. *)
Fixpoint replace_first (p : Payment) (l : list Payment) : list Payment :=
  match l with
  | [] => []
  | d :: rest =>
      if String.eqb (_id d) (_id p) then p :: rest
      else d :: replace_first p rest
  end.

(** [payment.save()] *)
Definition save (db : Db) (p : Payment) : result Db :=
  if save_throws db then Throw "save failed"
  else Ok (set_payments db (replace_first p (payments db))).

(** The four assignments of the verify and reject handlers. *)
Definition decide_payment (p : Payment) (outcome : Status) (user : Auth.User)
    (now : Z) : Payment :=
  {| _id := _id p; customerId := customerId p;
     customerUsername := customerUsername p; amount := amount p;
     currency := currency p; provider := provider p;
     payeeFullName := payeeFullName p;
     payeeAccountNumber := payeeAccountNumber p;
     payeeBankName := payeeBankName p; swiftCode := swiftCode p;
     status := outcome;
     verifiedBy := Auth.userId user;
     verifiedByUsername := Auth.username user;
     verifiedAt := Some now;
     submittedToSwiftAt := submittedToSwiftAt p;
     createdAt := createdAt p |}.

Definition submit_payment (p : Payment) (now : Z) : Payment :=
  {| _id := _id p; customerId := customerId p;
     customerUsername := customerUsername p; amount := amount p;
     currency := currency p; provider := provider p;
     payeeFullName := payeeFullName p;
     payeeAccountNumber := payeeAccountNumber p;
     payeeBankName := payeeBankName p; swiftCode := swiftCode p;
     status := Submitted;
     verifiedBy := verifiedBy p;
     verifiedByUsername := verifiedByUsername p;
     verifiedAt := verifiedAt p;
     submittedToSwiftAt := Some now;
     createdAt := createdAt p |}.

(** POST /verify-payment and POST /reject-payment differ in the status they
    set and in their texts; [req.body.reason] of the latter is read and not
    used. *)
Definition decide (outcome : Status) (verb done : string)
    (db : Db) (user : Auth.User) (paymentId : option string) (now : Z)
  : Db * Response :=
  if negb (isValidObjectId paymentId) then
    (db, {| code := 400; json := Failure "Invalid payment ID format." |})
  else
    match findById db (to_string paymentId) with
    | Throw _ =>
        (db, {| code := 500;
                json := Failure ("Failed to " +:+ verb +:+ " payment.") |})
    | Ok None => (db, {| code := 404; json := Failure "Payment not found." |})
    | Ok (Some payment) =>
        if negb (status_eqb (status payment) Pending) then
          (db, {| code := 400;
                  json := Failure ("Payment cannot be " +:+ done
                                     +:+ ". Current status: "
                                     +:+ status_name (status payment)) |})
        else
          let payment' := decide_payment payment outcome user now in
          match save db payment' with
          | Throw _ =>
              (db, {| code := 500;
                      json := Failure ("Failed to " +:+ verb +:+ " payment.") |})
          | Ok db' =>
              (db', {| code := 200;
                       json := Changed ("Payment " +:+ done +:+ " successfully")
                                 payment' |})
          end
    end.

Definition verifyPayment : Db -> Auth.User -> option string -> Z -> Db * Response :=
  decide Verified "verify" "verified".

Definition rejectPayment (db : Db) (user : Auth.User)
    (paymentId reason : option string) (now : Z) : Db * Response :=
  decide Rejected "reject" "rejected" db user paymentId now.

Definition is_verified (p : Payment) : bool := status_eqb (status p) Verified.

(** The count as decimal text, for the message. *)
Definition count_text (n : nat) : string :=
  DecimalString.NilEmpty.string_of_uint (Nat.to_uint n).

(** POST /submit-to-swift *)
Definition submitToSwift (db : Db) (now : Z) : Db * Response :=
  if find_throws db then
    (db, {| code := 500; json := Failure "Failed to submit payments to SWIFT." |})
  else
    let verifiedPayments := List.filter is_verified (payments db) in
    if Nat.eqb (length verifiedPayments) 0 then
      (db, {| code := 400; json := Failure "No verified payments to submit." |})
    else if update_throws db then
      (db, {| code := 500; json := Failure "Failed to submit payments to SWIFT." |})
    else
      (set_payments db
         (map (fun p => if is_verified p then submit_payment p now else p)
            (payments db)),
       {| code := 200;
          json := Submittal
                    ("Successfully submitted "
                       +:+ count_text (length verifiedPayments)
                       +:+ " payment(s) to SWIFT")
                    (length verifiedPayments) |}).

(** One request to the portal, after [authenticateToken] and
    [requireEmployee] have let it through. *)
Inductive Operation : Type :=
| VerifyPayment (user : Auth.User) (paymentId : option string)
| RejectPayment (user : Auth.User) (paymentId reason : option string)
| SubmitToSwift.

Definition perform (db : Db) (op : Operation) (now : Z) : Db * Response :=
  match op with
  | VerifyPayment user paymentId => verifyPayment db user paymentId now
  | RejectPayment user paymentId reason =>
      rejectPayment db user paymentId reason now
  | SubmitToSwift => submitToSwift db now
  end.

(** The body of a request to one of the three POST routes. *)
Inductive Body : Type :=
| VerifyBody (paymentId : option string)
| RejectBody (paymentId reason : option string)
| SubmitBody.

Definition operation (user : Auth.User) (body : Body) : Operation :=
  match body with
  | VerifyBody paymentId => VerifyPayment user paymentId
  | RejectBody paymentId reason => RejectPayment user paymentId reason
  | SubmitBody => SubmitToSwift
  end.

Section Router.

Variable P : Jsonwebtoken.Primitives.
Variable env : Process.Env.

(** [router.use(authenticateToken); router.use(requireEmployee);] in front
    of the handlers. [requireEmployee] throws only without [req.user], which
    [authenticateToken] has set when it calls [next()]; the throw would go to
    the error handler of the application. *)
Definition handle (db : Db) (authorization : option string) (body : Body)
    (now : Z) : Db * Response :=
  match Auth.authenticateToken P env authorization now with
  | Auth.Respond status message =>
      (db, {| code := status; json := Failure message |})
  | Auth.Next user =>
      match Auth.requireEmployee (Some user) with
      | Ok Auth.Pass => perform db (operation user body) now
      | Ok (Auth.Deny status message) =>
          (db, {| code := status; json := Failure message |})
      | Throw _ => (db, {| code := 500; json := Failure "Internal server error" |})
      end
  end.

End Router.

(** A sequence of requests, each with its clock reading. The failure flags
    of the database are set anew by the environment before each request. *)
Fixpoint run (db : Db) (ops : list (Operation * Z * (bool * bool * bool)))
  : Db :=
  match ops with
  | [] => db
  | (op, now, (f, s, u)) :: rest =>
      run (perform {| payments := payments db; find_throws := f;
                      save_throws := s; update_throws := u |} op now).1 rest
  end.

(** The moves the workflow allows for the status of one payment. *)
Definition allowed (before after : Status) : bool :=
  status_eqb before after
  || match before, after with
     | Pending, Verified | Pending, Rejected | Verified, Submitted => true
     | _, _ => false
     end.

(** Where the status of a payment can get to in any number of moves. *)
Definition reachable (before after : Status) : bool :=
  status_eqb before after
  || match before, after with
     | Pending, Verified | Pending, Rejected | Pending, Submitted
     | Verified, Submitted => true
     | _, _ => false
     end.

(** What no request to the portal touches: the order as the customer
    placed it. *)
Definition same_order (p q : Payment) : Prop :=
  _id q = _id p /\ customerId q = customerId p
  /\ customerUsername q = customerUsername p /\ amount q = amount p
  /\ currency q = currency p /\ provider q = provider p
  /\ payeeFullName q = payeeFullName p
  /\ payeeAccountNumber q = payeeAccountNumber p
  /\ payeeBankName q = payeeBankName p /\ swiftCode q = swiftCode p
  /\ createdAt q = createdAt p.

End EmployeePortal.

(* ===================================================================== *)
(** ** [generateSecureToken] and [generatePasswordResetToken]            *)
(* ===================================================================== *)

Module SecureToken.

Import PasswordService.

Definition hex_digit (n : N) : ascii :=
  match String.get (N.to_nat n) "0123456789abcdef" with
  | Some c => c
  | None => "0"%char
  end.

(** [Buffer.toString('hex')] *)
Fixpoint hex (bytes : list byte) : string :=
  match bytes with
  | [] => ""
  | b :: rest =>
      let x := Byte.to_N b in
      String (hex_digit (x / 16)) (String (hex_digit (x mod 16)) (hex rest))
  end.

(** [generateSecureToken(length = 32)], the same in both password services. *)
Definition generateSecureToken (length : option nat) (e : Entropy) : string :=
  hex (randomBytes (default 32 length) e).

(** [generatePasswordResetToken()] of the enhanced service: the token and
    its expiry, one hour after the clock reading [now] (ms). *)
Definition generatePasswordResetToken (e : Entropy) (now : Z) : string * Z :=
  (generateSecureToken (Some 32) e, (now + 3600000)%Z).

Definition is_lower_hex (c : ascii) : bool :=
  let n := nat_of_ascii c in
  (Nat.leb 48 n && Nat.leb n 57) || (Nat.leb 97 n && Nat.leb n 102).

End SecureToken.

(* ===================================================================== *)
(** ** utils/validators.js: the password pattern and two detectors       *)
(* ===================================================================== *)

Module Patterns.

Local Open Scope N_scope.

(** Strings are sequences of UTF-16 code units here, as in [Sanitizer]. *)

Definition is_lower (c : N) : bool := (97 <=? c) && (c <=? 122).
Definition is_upper (c : N) : bool := (65 <=? c) && (c <=? 90).
Definition is_digit (c : N) : bool := (48 <=? c) && (c <=? 57).

(** The special characters of the password pattern. *)
Definition specials : list N :=
  Sanitizer.units "@$!%*?&#^()_+=-[]{}|\:;<>,.~`".

Definition is_special (c : N) : bool := existsb (N.eqb c) specials.

Definition is_password_char (c : N) : bool :=
  is_upper c || is_lower c || is_digit c || is_special c.

(** [patterns.password.test(password)]: the four lookaheads, then 8 to 100
    characters of the class. *)
Definition isValidPassword (password : list N) : bool :=
  existsb is_lower password && existsb is_upper password
  && existsb is_digit password && existsb is_special password
  && Nat.leb 8 (length password) && Nat.leb (length password) 100
  && forallb is_password_char password.

(** Case folding of a pattern with the [i] flag: only the ASCII letters
    have another case that is ASCII. *)
Definition fold_case (c : N) : N := if is_lower c then c - 32 else c.

Definition same (ignoreCase : bool) (p c : N) : bool :=
  if ignoreCase then fold_case p =? fold_case c else p =? c.

Fixpoint starts_with (ignoreCase : bool) (pattern s : list N) : bool :=
  match pattern, s with
  | [], _ => true
  | _ :: _, [] => false
  | p :: pattern', c :: s' =>
      same ignoreCase p c && starts_with ignoreCase pattern' s'
  end.

(** [/literal/.test(s)] and [/literal/i.test(s)]: the literal occurs
    somewhere in [s]. *)
Fixpoint occurs (ignoreCase : bool) (pattern s : list N) : bool :=
  starts_with ignoreCase pattern s
  || match s with
     | [] => false
     | _ :: s' => occurs ignoreCase pattern s'
     end.

(** The six patterns of [containsPathTraversal], each with its [i] flag. *)
Definition pathPatterns : list (bool * list N) :=
  [ (false, Sanitizer.units "..");
    (false, Sanitizer.units "..\");
    (false, Sanitizer.units "../");
    (true, Sanitizer.units "%2e%2e");
    (true, Sanitizer.units "..%2f");
    (true, Sanitizer.units "%2e%2e%2f") ].

Definition containsPathTraversal (input : list N) : bool :=
  existsb (fun p => occurs p.1 p.2 input) pathPatterns.

(** The twelve patterns of [containsNoSQLInjection], all with the [i] flag. *)
Definition noSqlPatterns : list (list N) :=
  map Sanitizer.units
    [ "$where"; "$ne"; "$gt"; "$gte"; "$lt"; "$lte"; "$regex"; "$or"; "$and";
      "$not"; "$nor"; "$exists" ].

Definition containsNoSQLInjection (input : list N) : bool :=
  existsb (fun p => occurs true p input) noSqlPatterns.

End Patterns.

(* ===================================================================== *)
(** ** services/passwordServiceEnhanced.js: [validatePasswordStrength]   *)
(* ===================================================================== *)

Module PasswordStrength.

Import Patterns.

Local Open Scope N_scope.

Definition is_alnum (c : N) : bool := is_lower c || is_upper c || is_digit c.
Definition is_letter (c : N) : bool := is_lower c || is_upper c.

(** [/^[class]+$/.test(s)] *)
Definition only (class : N -> bool) (s : list N) : bool :=
  negb (Nat.eqb (length s) 0) && forallb class s.

(** What [.] does not match. *)
Definition is_line_terminator (c : N) : bool :=
  (c =? 10) || (c =? 13) || (c =? 8232) || (c =? 8233).

(** [/(.)\1{2,}/.test(s)]: a character, not a line terminator, three times
    in a row. *)
Fixpoint has_triple (s : list N) : bool :=
  match s with
  | [] => false
  | a :: rest =>
      match rest with
      | b :: c :: _ =>
          (negb (is_line_terminator a) && (a =? b) && (b =? c))
          || has_triple rest
      | _ => false
      end
  end.

Record Strength : Type := {
  score : Z;
  rating : string;
  feedback : list string;
  isValid : bool
}.

Definition point (b : bool) : Z := if b then 1%Z else 0%Z.

Definition advice (b : bool) (text : string) : list string :=
  if b then [text] else [].

Definition validatePasswordStrength (password : list N) : Strength :=
  let len := length password in
  let score :=
    (point (Nat.leb 8 len) + point (Nat.leb 12 len) + point (Nat.leb 16 len)
     + point (existsb is_lower password)
     + point (existsb is_upper password)
     + point (existsb is_digit password)
     + point (existsb (fun c => negb (is_alnum c)) password)
     - 2 * point (only is_digit password)
     - point (only is_letter password)
     - point (has_triple password))%Z in
  {| score := score;
     rating := if (7 <=? score)%Z then "strong"
               else if (5 <=? score)%Z then "medium" else "weak";
     feedback :=
       advice (Nat.ltb len 12) "Use at least 12 characters"
       ++ advice (negb (existsb is_lower password)) "Add lowercase letters"
       ++ advice (negb (existsb is_upper password)) "Add uppercase letters"
       ++ advice (negb (existsb is_digit password)) "Add numbers"
       ++ advice (negb (existsb (fun c => negb (is_alnum c)) password))
            "Add special characters";
     isValid := (5 <=? score)%Z |}.

End PasswordStrength.

(* ===================================================================== *)
(** ** More concrete inputs                                              *)
(* ===================================================================== *)

Module Cases.

(** A request with another spelling of the username. *)
Definition with_username (req : CustomerAuth.Request) (u : string)
  : CustomerAuth.Request :=
  {| CustomerAuth.body_username := Body.Str u;
     CustomerAuth.body_accountNumber := CustomerAuth.body_accountNumber req;
     CustomerAuth.body_password := CustomerAuth.body_password req;
     CustomerAuth.ip := CustomerAuth.ip req;
     CustomerAuth.remoteAddress := CustomerAuth.remoteAddress req;
     CustomerAuth.user_agent := CustomerAuth.user_agent req |}.

(** The object [{ $gt: '' }] that the injection tests post in place of a
    string: its text is [[object Object]], it is truthy, the schema cannot
    cast it to a string, and as a condition it selects the texts above the
    empty one. *)
Definition operator : Body.value :=
  Body.Other
    {| Body.toText := Ok "[object Object]";
       Body.isTruthy := true;
       Body.castDocument := Throw "Cast to string failed";
       Body.castCondition := Ok (fun stored => negb (String.eqb stored "")) |}.

(** A login with that object as its account number. *)
Definition request_operator : CustomerAuth.Request :=
  {| CustomerAuth.body_username := Body.Str "TestUser";
     CustomerAuth.body_accountNumber := operator;
     CustomerAuth.body_password := Body.Str "Test@1234";
     CustomerAuth.ip := Some "203.0.113.7";
     CustomerAuth.remoteAddress := None;
     CustomerAuth.user_agent := Some "supertest" |}.

(** A login whose account number is not made of digits. *)
Definition request_malformed : CustomerAuth.Request :=
  Scenario.request "12345abcde" "Test@1234".

(** An employee of the seed script, with the password [Test@1234]. *)
Definition employee0 : EmployeeAuth.Employee :=
  {| EmployeeAuth._id := "507f191e810c19729de860ea";
     EmployeeAuth.fullName := "Staff Member";
     EmployeeAuth.username := "employee1";
     EmployeeAuth.passwordHash := PasswordService.hash Scenario.credential0;
     EmployeeAuth.passwordSalt := PasswordService.salt Scenario.credential0;
     EmployeeAuth.role := "Employee";
     EmployeeAuth.isActive := true;
     EmployeeAuth.lastLoginAt := None;
     EmployeeAuth.updatedAt := Some 1699990000000%Z |}.

Definition staff0 : EmployeeAuth.World :=
  {| EmployeeAuth.employees := [employee0];
     EmployeeAuth.auditLog :=
       {| AuditLog.documents := []; AuditLog.accepts_writes := true |};
     EmployeeAuth.findOne_throws := false;
     EmployeeAuth.save_throws := false |}.

(** The token the service issues for [payload0] at [now0], two hours long. *)
Definition token0 : string :=
  Jsonwebtoken.jws_sign JwtStub.primitives TokenService.HS256
    (TokenService.issuedClaims Scenario.payload0 Scenario.now0 7200000)
    "test_secret_key_for_testing_purposes_only_minimum_64_chars_required".

(** The token of [employee0], issued at [now0]. *)
Definition staff_token0 : string :=
  Jsonwebtoken.jws_sign JwtStub.primitives TokenService.HS256
    (TokenService.issuedClaims
       {| TokenService.p_userId := Some "507f191e810c19729de860ea";
          TokenService.p_username := Some "employee1";
          TokenService.p_userType := Some "employee" |}
       Scenario.now0 7200000)
    "test_secret_key_for_testing_purposes_only_minimum_64_chars_required".

(** A deployment without [JWT_SECRET]. *)
Definition env_no_secret : Process.Env :=
  {| Process.JWT_SECRET := None;
     Process.JWT_EXPIRE := Some "2h";
     Process.PASSWORD_PEPPER := None |}.

(** What the proofs use of the argon2 package: [argon2.verify] accepts the
    hashes [argon2.hash] makes. *)
Definition argon2_verifies_own_hashes
    (argon2_hash : string -> PasswordServiceEnhanced.Argon2Options
                   -> list byte -> result string)
    (argon2_verify : string -> string -> result bool) : Prop :=
  forall plain options salt h,
    argon2_hash plain options salt = Ok h -> argon2_verify h plain = Ok true.

(** A stand-in for the argon2 package, to run the enhanced service: the
    encoded hash names the variant, the salt and the text. *)
Definition argon2_hash (plain : string)
    (options : PasswordServiceEnhanced.Argon2Options) (salt : list byte)
  : result string :=
  Ok ("$argon2id$" +:+ Base64.encode salt +:+ "$" +:+ plain).

Definition argon2_verify (hash plain : string) : result bool :=
  Ok (String.eqb
        (String.substring (String.length hash - String.length plain)
           (String.length plain) hash)
        plain
      && String.prefix "$argon2id$" hash).

(** Three payments of [customer0] as the portal finds them. *)
Definition payment (id : string) (s : EmployeePortal.Status)
  : EmployeePortal.Payment :=
  {| EmployeePortal._id := id;
     EmployeePortal.customerId := "507f1f77bcf86cd799439011";
     EmployeePortal.customerUsername := "testuser";
     EmployeePortal.amount := 4652007308841189376;
     EmployeePortal.currency := "USD";
     EmployeePortal.provider := "SWIFT";
     EmployeePortal.payeeFullName := "Jane Payee";
     EmployeePortal.payeeAccountNumber := "9876543210";
     EmployeePortal.payeeBankName := "Payee Bank";
     EmployeePortal.swiftCode := "ABCDZAJJ";
     EmployeePortal.status := s;
     EmployeePortal.verifiedBy := None;
     EmployeePortal.verifiedByUsername := None;
     EmployeePortal.verifiedAt := None;
     EmployeePortal.submittedToSwiftAt := None;
     EmployeePortal.createdAt := 1699999000000 |}.

Definition ledger0 : EmployeePortal.Db :=
  {| EmployeePortal.payments :=
       [ payment "65a000000000000000000001" EmployeePortal.Pending;
         payment "65a000000000000000000002" EmployeePortal.Verified;
         payment "65a000000000000000000003" EmployeePortal.Rejected ];
     EmployeePortal.find_throws := false;
     EmployeePortal.save_throws := false;
     EmployeePortal.update_throws := false |}.

Definition clerk : Auth.User :=
  {| Auth.userId := Some "507f191e810c19729de860ea";
     Auth.username := Some "employee1";
     Auth.userType := Some "employee" |}.

Definition staff_request (username password : option string)
  : EmployeeAuth.Request :=
  {| EmployeeAuth.body_username := username;
     EmployeeAuth.body_password := password;
     EmployeeAuth.ip := Some "203.0.113.9";
     EmployeeAuth.remoteAddress := None;
     EmployeeAuth.user_agent := Some "supertest" |}.

End Cases.

(* ===================================================================== *)
(** * Properties                                                         *)
(* ===================================================================== *)

(** ** Strings *)

Module StringFacts.

Lemma append_nil (b : string) : "" +:+ b = b.
Proof. reflexivity. Qed.

Lemma append_cons (x : ascii) (a b : string) :
  String x a +:+ b = String x (a +:+ b).
Proof. reflexivity. Qed.

Ltac string_simpl := rewrite ?append_nil, ?append_cons; simpl.

Lemma append_assoc (a b c : string) : (a +:+ b) +:+ c = a +:+ (b +:+ c).
Proof.
  induction a as [|x a IH]; string_simpl; [reflexivity | now rewrite IH].
Qed.

Lemma length_append (a b : string) :
  String.length (a +:+ b) = String.length a + String.length b.
Proof.
  induction a as [|x a IH]; string_simpl; [reflexivity | now rewrite IH].
Qed.

Lemma substring_all (s : string) : String.substring 0 (String.length s) s = s.
Proof. induction s as [|x s IH]; simpl; [reflexivity | now rewrite IH]. Qed.

(** The first [length a] characters of [a +:+ b] are [a]. *)
Lemma substring_head (a b : string) :
  String.substring 0 (String.length a) (a +:+ b) = a.
Proof.
  induction a as [|x a IH]; string_simpl.
  - now destruct b.
  - now rewrite IH.
Qed.

(** Dropping [length a] characters from [a +:+ b] leaves [b]. *)
Lemma substring_tail (a b : string) (n : nat) :
  n = String.length b ->
  String.substring (String.length a) n (a +:+ b) = b.
Proof.
  intros ->. induction a as [|x a IH]; string_simpl.
  - apply substring_all.
  - exact IH.
Qed.

Lemma substring_idem (n : nat) (s : string) :
  String.substring 0 n (String.substring 0 n s) = String.substring 0 n s.
Proof.
  revert s. induction n as [|n IH]; intros [|x s]; simpl; try reflexivity.
  now rewrite IH.
Qed.

Lemma prefix_append (a b : string) : String.prefix a (a +:+ b) = true.
Proof. apply String.prefix_correct, substring_head. Qed.

(** A string that starts with [a] is [a] followed by the rest. *)
Lemma prefix_split (a s : string) :
  String.prefix a s = true ->
  s = a +:+ String.substring (String.length a) (String.length s - String.length a) s.
Proof.
  revert s. induction a as [|x a IH]; intros s Hp; string_simpl.
  - rewrite Nat.sub_0_r. now rewrite substring_all.
  - destruct s as [|y s]; simpl in Hp; [discriminate|].
    destruct (Ascii.ascii_dec x y) as [->|]; [|discriminate].
    simpl. f_equal. now apply IH.
Qed.

Lemma eqb_append_nonempty (a b : string) :
  a <> "" -> String.eqb (a +:+ b) "" = false.
Proof. destruct a; [congruence | reflexivity]. Qed.

End StringFacts.

(** ** The password service *)

Module PasswordServiceFacts.

Import PasswordService StringFacts.

Lemma truncate72_head (head rest : string) :
  String.length head = 72 -> truncate72 (head +:+ rest) = head.
Proof.
  intros H. unfold truncate72, BCRYPT_INPUT_LIMIT. rewrite <- H.
  apply substring_head.
Qed.

Lemma truncate72_idem (data : string) :
  truncate72 (truncate72 data) = truncate72 data.
Proof. apply substring_idem. Qed.

Section WithBcrypt.

Variable bcrypt_hash : string -> nat -> list byte -> result string.
Variable bcrypt_compare : string -> string -> result bool.

(** [verifyPassword] never throws: whatever bcrypt does, it returns a
    boolean, and an exception inside it becomes [false]. *)
Lemma verifyPassword_never_throws (password hash salt : string) :
  exists b, verifyPassword bcrypt_compare password hash salt = Ok b.
Proof.
  unfold verifyPassword, try_catch, bind.
  destruct (bcrypt_compare _ _); eauto.
Qed.

Lemma verifyPassword_false_on_error (password hash salt error : string) :
  bcrypt_compare (password +:+ salt) hash = Throw error ->
  verifyPassword bcrypt_compare password hash salt = Ok false.
Proof. intros H. unfold verifyPassword, try_catch, bind. now rewrite H. Qed.

(** What a returned credential is made of. *)
Lemma hashPassword_inv (password : string) (e : Entropy) (cred : Credential) :
  hashPassword bcrypt_hash password e = Ok cred ->
  salt cred = Base64.encode (randomBytes CUSTOM_SALT_SIZE e)
  /\ bcrypt_hash (password +:+ salt cred) SALT_ROUNDS (bcryptSalt e)
     = Ok (hash cred).
Proof.
  unfold hashPassword, try_catch, bind.
  destruct (bcrypt_hash _ _ _) as [h|err] eqn:Hh; [|discriminate].
  intros [= <-]. simpl. split; [reflexivity | exact Hh].
Qed.

(** [hashPassword] returns whenever bcrypt does. *)
Lemma hashPassword_returns (password : string) (e : Entropy) (h : string) :
  bcrypt_hash (password +:+ Base64.encode (randomBytes CUSTOM_SALT_SIZE e))
    SALT_ROUNDS (bcryptSalt e) = Ok h ->
  hashPassword bcrypt_hash password e
  = Ok {| hash := h; salt := Base64.encode (randomBytes CUSTOM_SALT_SIZE e) |}.
Proof. intros H. unfold hashPassword, try_catch, bind. now rewrite H. Qed.

End WithBcrypt.

(** The hashed text is the password followed by the returned salt. *)
Lemma hashedInput_spec (password : string) (e : Entropy) :
  hashedInput password e
  = Some (password +:+ Base64.encode (randomBytes CUSTOM_SALT_SIZE e),
          Base64.encode (randomBytes CUSTOM_SALT_SIZE e)).
Proof. reflexivity. Qed.

(** The stand-in honours both facts. *)
Lemma two_digits_length (n : nat) : String.length (BcryptStub.two_digits n) = 2.
Proof. reflexivity. Qed.

Lemma fixed_width_length (w : nat) (s : string) :
  String.length (BcryptStub.fixed_width w s) = w.
Proof.
  revert s. induction w as [|w IH]; intros s; simpl; [reflexivity|].
  destruct s; simpl; now rewrite IH.
Qed.

Lemma stub_drop (rounds : nat) (saltBytes : list byte) (digest : string) :
  BcryptStub.drop 29
    ("$2b$" +:+ BcryptStub.two_digits rounds +:+ "$"
       +:+ BcryptStub.fixed_width 22 (Base64.encode saltBytes) +:+ digest)
  = digest.
Proof.
  set (field := BcryptStub.fixed_width 22 (Base64.encode saltBytes)).
  assert (Hf : String.length field = 22) by apply fixed_width_length.
  replace ("$2b$" +:+ BcryptStub.two_digits rounds +:+ "$" +:+ field +:+ digest)
    with (("$2b$" +:+ BcryptStub.two_digits rounds +:+ "$" +:+ field) +:+ digest)
    by (now rewrite !append_assoc).
  set (head := "$2b$" +:+ BcryptStub.two_digits rounds +:+ "$" +:+ field).
  assert (Hh : String.length head = 29)
    by (unfold head; rewrite !length_append, Hf; reflexivity).
  unfold BcryptStub.drop. rewrite <- Hh at 1.
  apply substring_tail. rewrite length_append. lia.
Qed.

Lemma stub_verifies_own_hashes :
  bcrypt_verifies_own_hashes BcryptStub.hash BcryptStub.compare.
Proof.
  intros data rounds s h H.
  assert (E : h = "$2b$" +:+ BcryptStub.two_digits rounds +:+ "$"
                  +:+ BcryptStub.fixed_width 22 (Base64.encode s)
                  +:+ truncate72 data)
    by (unfold BcryptStub.hash in H; congruence).
  rewrite E. unfold BcryptStub.compare.
  rewrite stub_drop, String.eqb_refl. reflexivity.
Qed.

Lemma stub_reads_72_bytes : bcrypt_reads_72_bytes BcryptStub.compare.
Proof.
  intros data h. unfold BcryptStub.compare. now rewrite truncate72_idem.
Qed.

End PasswordServiceFacts.

(** ** Claims on the password service *)

Module PasswordServiceClaims.

Import PasswordService PasswordServiceFacts StringFacts.

(** C1. For every password P, once [hashPassword P] has returned
    [{hash, salt}], [verifyPassword P hash salt] returns [true]; bcrypt is
    any implementation that verifies the hashes it produces. *)
Theorem hashPassword_then_verifyPassword
    (bcrypt_hash : string -> nat -> list byte -> result string)
    (bcrypt_compare : string -> string -> result bool)
    (own_hashes : bcrypt_verifies_own_hashes bcrypt_hash bcrypt_compare)
    (password : string) (e : Entropy) (cred : Credential) :
  hashPassword bcrypt_hash password e = Ok cred ->
  verifyPassword bcrypt_compare password (hash cred) (salt cred) = Ok true.
Proof.
  intros H. apply hashPassword_inv in H as [_ H].
  unfold verifyPassword, try_catch, bind.
  rewrite (own_hashes _ _ _ _ H). reflexivity.
Qed.

Lemma hashPassword_then_verifyPassword_witness :
  hashPassword BcryptStub.hash "Test@1234" Scenario.entropy0
  = Ok Scenario.credential0
  /\ verifyPassword BcryptStub.compare "Test@1234"
       (hash Scenario.credential0) (salt Scenario.credential0) = Ok true.
Proof.
  assert (H : hashPassword BcryptStub.hash "Test@1234" Scenario.entropy0
              = Ok Scenario.credential0) by reflexivity.
  split; [exact H|].
  exact (hashPassword_then_verifyPassword BcryptStub.hash BcryptStub.compare
           stub_verifies_own_hashes "Test@1234" Scenario.entropy0
           Scenario.credential0 H).
Defined.

(** C2, as the code has it. [passwordService.hashPassword], the service the
    login routes import, hashes the password followed by the salt it returns
    for storage, which is the base64 text of 32 fresh random bytes: no pepper
    takes part. [passwordServiceEnhanced.hashPassword] hashes the password
    followed by the pepper of the environment, and returns only the salt. *)
Theorem hashPassword_appends_stored_salt
    (bcrypt_hash : string -> nat -> list byte -> result string)
    (argon2_hash : string -> PasswordServiceEnhanced.Argon2Options
                   -> list byte -> result string)
    (env : Process.Env)
    (password : string) (e : Entropy) :
  (forall cred,
      hashPassword bcrypt_hash password e = Ok cred ->
      salt cred = Base64.encode (randomBytes CUSTOM_SALT_SIZE e)
      /\ bcrypt_hash (password +:+ salt cred) SALT_ROUNDS (bcryptSalt e)
         = Ok (hash cred))
  /\ (forall cred,
      PasswordServiceEnhanced.hashPassword argon2_hash env password e = Ok cred ->
      salt cred = Base64.encode (randomBytes 32 e)
      /\ argon2_hash (password +:+ PasswordServiceEnhanced.pepper env)
           PasswordServiceEnhanced.argon2Options (randomBytes 32 e)
         = Ok (hash cred)).
Proof.
  split; intros cred H.
  - now apply hashPassword_inv.
  - unfold PasswordServiceEnhanced.hashPassword, try_catch, bind in H.
    destruct (argon2_hash _ _ _) as [h|err] eqn:Hh; [|discriminate].
    injection H as <-. simpl. split; reflexivity.
Qed.

Lemma hashPassword_appends_stored_salt_witness :
  salt Scenario.credential0
  = Base64.encode (randomBytes CUSTOM_SALT_SIZE Scenario.entropy0)
  /\ BcryptStub.hash ("Test@1234" +:+ salt Scenario.credential0) SALT_ROUNDS
       (bcryptSalt Scenario.entropy0)
     = Ok (hash Scenario.credential0).
Proof.
  exact (proj1 (hashPassword_appends_stored_salt BcryptStub.hash
                  (fun plain _ _ => Ok plain) Scenario.env0
                  "Test@1234" Scenario.entropy0)
           Scenario.credential0 eq_refl).
Defined.

(** C2, as the spec has it, fails for [passwordService.hashPassword]: what
    follows the password in the hashed text is the stored salt itself. *)
Lemma hashPassword_pepper_counterexample :
  ~ appends_pepper hashedInput.
Proof.
  intros [pepper H].
  destruct (H "Test@1234" Scenario.entropy0) as [s [Hobs Hne]].
  rewrite hashedInput_spec in Hobs.
  injection Hobs as H1 H2. apply String.app_inj in H1. congruence.
Qed.

(** C3, where the code departs from it. With a bcrypt that verifies its own
    hashes and reads 72 bytes of input, a password that shares its first 72
    bytes with the enrolled one is accepted, whatever follows. *)
Theorem verifyPassword_ignores_bytes_beyond_72
    (bcrypt_hash : string -> nat -> list byte -> result string)
    (bcrypt_compare : string -> string -> result bool)
    (own_hashes : bcrypt_verifies_own_hashes bcrypt_hash bcrypt_compare)
    (input_limit : bcrypt_reads_72_bytes bcrypt_compare)
    (head tailP tailQ : string) (e : Entropy) (cred : Credential) :
  String.length head = 72 ->
  hashPassword bcrypt_hash (head +:+ tailP) e = Ok cred ->
  verifyPassword bcrypt_compare (head +:+ tailQ) (hash cred) (salt cred)
  = Ok true.
Proof.
  intros Hlen H. apply hashPassword_inv in H as [_ H].
  apply own_hashes in H.
  unfold verifyPassword, try_catch, bind.
  rewrite input_limit, append_assoc, (truncate72_head _ _ Hlen).
  rewrite input_limit, append_assoc, (truncate72_head _ _ Hlen) in H.
  rewrite H. reflexivity.
Qed.

Lemma verifyPassword_ignores_bytes_beyond_72_witness :
  Scenario.longHead +:+ "x" <> Scenario.longHead +:+ "y"
  /\ exists cred,
      hashPassword BcryptStub.hash (Scenario.longHead +:+ "x") Scenario.entropy0
      = Ok cred
      /\ verifyPassword BcryptStub.compare (Scenario.longHead +:+ "y")
           (hash cred) (salt cred) = Ok true.
Proof.
  split; [intros H; apply String.app_inj in H; discriminate|].
  destruct (hashPassword BcryptStub.hash (Scenario.longHead +:+ "x")
              Scenario.entropy0) as [cred|err] eqn:H.
  - exists cred. split; [reflexivity|].
    exact (verifyPassword_ignores_bytes_beyond_72 BcryptStub.hash
             BcryptStub.compare stub_verifies_own_hashes stub_reads_72_bytes
             Scenario.longHead "x" "y" Scenario.entropy0 cred eq_refl H).
  - exfalso. discriminate H.
Defined.

End PasswordServiceClaims.

(** ** The token service *)

Module TokenServiceFacts.

Import Jsonwebtoken TokenService StringFacts.

Local Open Scope Z_scope.

Lemma dot_append (s : string) : "." +:+ s = String dot s.
Proof. reflexivity. Qed.

Lemma split_dots_cons_dot (s : string) :
  split_dots (String dot s) = "" :: split_dots s.
Proof. reflexivity. Qed.

Lemma split_dots_not_nil (s : string) : split_dots s <> [].
Proof.
  induction s as [|c s IH]; simpl; [discriminate|].
  destruct (Ascii.eqb c dot); [discriminate|].
  destruct (split_dots s); [contradiction | discriminate].
Qed.

Lemma split_dots_no_dot (s : string) :
  has_dot s = false -> split_dots s = [s].
Proof.
  induction s as [|c s IH]; simpl; [reflexivity|].
  destruct (Ascii.eqb c dot); simpl; [discriminate|].
  intros H. now rewrite IH.
Qed.

Lemma split_dots_append (a r : string) :
  has_dot a = false ->
  split_dots (a +:+ "." +:+ r) = a :: split_dots r.
Proof.
  induction a as [|c a IH].
  - intros _. now rewrite append_nil, dot_append, split_dots_cons_dot.
  - rewrite append_cons. simpl.
    destruct (Ascii.eqb c dot) eqn:E; simpl; [discriminate|].
    intros H. now rewrite IH.
Qed.

Lemma split_dots_with_dot (s : string) :
  has_dot s = true -> (2 <= length (split_dots s))%nat.
Proof.
  induction s as [|c s IH]; simpl; [discriminate|].
  destruct (Ascii.eqb c dot); simpl.
  - intros _. pose proof (split_dots_not_nil s).
    destruct (split_dots s); [contradiction | simpl; lia].
  - intros H. specialize (IH H).
    destruct (split_dots s); simpl in *; lia.
Qed.

(** The three segments of a signed token. *)
Lemma split_dots_token (h p s : string) :
  has_dot h = false -> has_dot p = false -> has_dot s = false ->
  split_dots ((h +:+ "." +:+ p) +:+ "." +:+ s) = [h; p; s].
Proof.
  intros Hh Hp Hs.
  rewrite append_assoc, (append_assoc "." p).
  rewrite split_dots_append by assumption.
  rewrite split_dots_append by assumption.
  now rewrite split_dots_no_dot.
Qed.

Lemma or_else_some (s d : string) : s <> "" -> or_else (Some s) d = s.
Proof.
  intros H. unfold or_else.
  now destruct (String.eqb_spec s "").
Qed.

Lemma truthy_some (s : string) : s <> "" -> truthy (Some s) = true.
Proof.
  intros H. unfold truthy.
  now destruct (String.eqb_spec s "").
Qed.

Section WithPrimitives.

Variable P : Primitives.
Variable env : Process.Env.

(** *** Rejections: they hold for any primitives. *)

Lemma verifyToken_malformed (token : string) (now : Z) :
  length (split_dots token) <> 3%nat -> verifyToken P env token now = None.
Proof.
  intros H. unfold verifyToken, verify.
  destruct (String.eqb token ""); [reflexivity|].
  destruct (split_dots token) as [|a [|b [|c [|d l]]]]; try reflexivity.
  now contradiction H.
Qed.

Lemma verifyToken_undecodable (token h p s : string) (now : Z) :
  split_dots token = [h; p; s] ->
  decodeHeader P h = None \/ decodeClaims P p = None ->
  verifyToken P env token now = None.
Proof.
  intros Hs Hd. unfold verifyToken, verify.
  destruct (String.eqb token ""); [reflexivity|]. rewrite Hs.
  destruct Hd as [-> | ->]; [reflexivity|].
  now destruct (decodeHeader P h).
Qed.

Lemma verifyToken_bad_signature (token h p s : string) (now : Z) :
  split_dots token = [h; p; s] ->
  (forall header,
      decodeHeader P h = Some header ->
      s <> hmac P (alg header) (or_else (Process.JWT_SECRET env) "")
             (h +:+ "." +:+ p)) ->
  verifyToken P env token now = None.
Proof.
  intros Hs Hsig. unfold verifyToken, verify.
  destruct (String.eqb token ""); [reflexivity|]. rewrite Hs.
  destruct (decodeHeader P h) as [header|] eqn:Hh; [|reflexivity].
  destruct (decodeClaims P p) as [payload|]; [|reflexivity].
  specialize (Hsig header eq_refl).
  apply String.eqb_neq in Hsig. rewrite Hsig. simpl.
  repeat match goal with
         | |- context [if ?b then _ else _] => destruct b; try reflexivity
         end.
Qed.

Lemma verifyToken_expired (token h p s : string) (c : Claims) (t now : Z) :
  split_dots token = [h; p; s] ->
  decodeClaims P p = Some c ->
  exp c = Some t ->
  t <= now / 1000 ->
  verifyToken P env token now = None.
Proof.
  intros Hs Hc He Ht. unfold verifyToken, verify.
  destruct (String.eqb token ""); [reflexivity|]. rewrite Hs, Hc, He.
  destruct (decodeHeader P h) as [header|]; [|reflexivity].
  apply Z.leb_le in Ht. rewrite Ht.
  repeat match goal with
         | |- context [if ?b then _ else _] => destruct b; try reflexivity
         end.
Qed.

Lemma verifyToken_wrong_issuer_or_audience
    (token h p s : string) (c : Claims) (now : Z) :
  split_dots token = [h; p; s] ->
  decodeClaims P p = Some c ->
  iss c <> Some ISSUER \/ aud c <> Some AUDIENCE ->
  verifyToken P env token now = None.
Proof.
  intros Hs Hc Hw. unfold verifyToken, verify.
  destruct (String.eqb token ""); [reflexivity|]. rewrite Hs, Hc.
  destruct (decodeHeader P h) as [header|]; [|reflexivity].
  assert (Hchk :
    negb match aud c with Some a => String.eqb a AUDIENCE | None => false end
    = true
    \/ negb match iss c with Some i => String.eqb i ISSUER | None => false end
       = true).
  { destruct Hw as [Hi | Ha]; [right | left].
    - destruct (iss c) as [i|]; [|reflexivity].
      destruct (String.eqb_spec i ISSUER); [congruence | reflexivity].
    - destruct (aud c) as [a|]; [|reflexivity].
      destruct (String.eqb_spec a AUDIENCE); [congruence | reflexivity]. }
  repeat match goal with
         | |- context [if ?b then _ else _] =>
             destruct b eqn:?; try reflexivity
         end.
  destruct Hchk; congruence.
Qed.

(** *** Issuing *)

Lemma generateToken_returns (secret : string) (milliseconds : Z)
    (payload : Payload) (now : Z) :
  Process.JWT_SECRET env = Some secret -> secret <> "" ->
  ms P (or_else (Process.JWT_EXPIRE env) "2h") = Some milliseconds ->
  generateToken P env payload now
  = Ok (jws_sign P HS256 (issuedClaims payload now milliseconds) secret).
Proof.
  intros Hs Hne Hms. unfold generateToken, sign. rewrite Hs.
  apply String.eqb_neq in Hne. rewrite Hne. simpl.
  assert (He : String.eqb (or_else (Process.JWT_EXPIRE env) "2h") "" = false).
  { unfold or_else. destruct (Process.JWT_EXPIRE env) as [x|]; [|reflexivity].
    destruct (String.eqb x "") eqn:E; [reflexivity | exact E]. }
  rewrite He, Hms.
  unfold issuedClaims, HS256.
  now destruct (now / 1000 =? 0).
Qed.

Lemma generateToken_inv (payload : Payload) (now : Z) (token : string) :
  generateToken P env payload now = Ok token ->
  exists secret milliseconds,
    Process.JWT_SECRET env = Some secret /\ secret <> ""
    /\ ms P (or_else (Process.JWT_EXPIRE env) "2h") = Some milliseconds
    /\ token = jws_sign P HS256 (issuedClaims payload now milliseconds) secret.
Proof.
  intros H.
  destruct (Process.JWT_SECRET env) as [secret|] eqn:Hs;
    [|unfold generateToken, sign in H; rewrite Hs in H; discriminate].
  destruct (String.eqb_spec secret "") as [->|Hne];
    [unfold generateToken, sign in H; rewrite Hs in H; discriminate|].
  destruct (ms P (or_else (Process.JWT_EXPIRE env) "2h")) as [m|] eqn:Hms.
  - exists secret, m. repeat split; try assumption.
    rewrite (generateToken_returns secret m payload now Hs Hne Hms) in H.
    congruence.
  - exfalso. unfold generateToken, sign in H. rewrite Hs in H.
    apply String.eqb_neq in Hne. rewrite Hne in H. simpl in H.
    rewrite Hms in H.
    destruct (String.eqb (or_else (Process.JWT_EXPIRE env) "2h") "");
      discriminate.
Qed.

Hypothesis ok : PrimitivesOk P.

Lemma split_dots_signed (header : Header) (claims : Claims) (secret : string) :
  split_dots (jws_sign P header claims secret)
  = [encodeHeader P header; encodeClaims P claims;
     hmac P (alg header) secret (securedInput P header claims)].
Proof.
  unfold jws_sign, securedInput.
  apply split_dots_token; [apply ok | apply ok | apply ok].
Qed.

Lemma decode_signed (header : Header) (claims : Claims) (secret : string) :
  decode P (jws_sign P header claims secret) = Some claims.
Proof.
  unfold decode. rewrite split_dots_signed. apply ok.
Qed.

Lemma jws_sign_nonempty (header : Header) (claims : Claims) (secret : string) :
  String.eqb (jws_sign P header claims secret) "" = false.
Proof.
  destruct (String.eqb_spec (jws_sign P header claims secret) "") as [E|];
    [|reflexivity].
  pose proof (split_dots_signed header claims secret) as H.
  rewrite E in H. discriminate.
Qed.

(** A token signed with the configured secret, for this issuer and
    audience, not expired and already active, verifies to its claims. *)
Lemma verifyToken_signed (secret : string) (header : Header) (claims : Claims)
    (now : Z) :
  Process.JWT_SECRET env = Some secret -> secret <> "" ->
  mem_string (alg header) HS_SUPPORTED_ALGS = true ->
  nbf claims = None ->
  (forall t, exp claims = Some t -> now / 1000 < t) ->
  iss claims = Some ISSUER -> aud claims = Some AUDIENCE ->
  verifyToken P env (jws_sign P header claims secret) now = Some claims.
Proof.
  intros Hs Hne Halg Hnbf Hexp Hiss Haud.
  unfold verifyToken, verify.
  rewrite jws_sign_nonempty, split_dots_signed.
  rewrite (decode_encode_header P ok), (decode_encode_claims P ok).
  rewrite (hmac_not_blank P ok), Hs, (truthy_some _ Hne), (or_else_some _ _ Hne).
  cbn [negb andb]. rewrite Halg. cbn [negb].
  unfold securedInput. rewrite String.eqb_refl. cbn [negb].
  rewrite Hnbf, Hiss, Haud, !String.eqb_refl. cbn [negb].
  destruct (exp claims) as [t|]; [|reflexivity].
  specialize (Hexp t eq_refl).
  destruct (Z.leb_spec t (now / 1000)); [lia | reflexivity].
Qed.

Lemma issued_exp (payload : Payload) (now milliseconds : Z) :
  exp (issuedClaims payload now milliseconds)
  = Some (now / 1000 + milliseconds / 1000).
Proof.
  unfold issuedClaims. simpl. f_equal.
  rewrite Z.div_add_l by lia. reflexivity.
Qed.

(** A token of the service verifies until its expiry. *)
Lemma verifyToken_issued (secret : string) (milliseconds : Z)
    (payload : Payload) (now now' : Z) :
  Process.JWT_SECRET env = Some secret -> secret <> "" ->
  now' / 1000 < now / 1000 + milliseconds / 1000 ->
  verifyToken P env
    (jws_sign P HS256 (issuedClaims payload now milliseconds) secret) now'
  = Some (issuedClaims payload now milliseconds).
Proof.
  intros Hs Hne Hfresh.
  apply verifyToken_signed; try assumption; try reflexivity.
  intros t Ht. rewrite issued_exp in Ht. congruence.
Qed.

End WithPrimitives.

(** The stand-ins behave as documented. *)

Lemma unbits_bits (p : positive) : JwtStub.unbits (JwtStub.bits p) = Some p.
Proof. induction p as [p IH | p IH |]; simpl; now rewrite ?IH. Qed.

Lemma bits_no_dot (p : positive) : has_dot (JwtStub.bits p) = false.
Proof. induction p as [p IH | p IH |]; simpl; now rewrite ?IH. Qed.

Lemma stub_ok : PrimitivesOk JwtStub.primitives.
Proof.
  split; simpl.
  - intros [a t]. unfold JwtStub.decodeHeader, JwtStub.encodeHeader.
    rewrite unbits_bits. simpl. now rewrite decode_encode.
  - intros c. unfold JwtStub.decodeClaims, JwtStub.encodeClaims.
    rewrite unbits_bits. simpl. rewrite decode_encode. now destruct c.
  - intros h. apply bits_no_dot.
  - intros c. apply bits_no_dot.
  - intros a k m. unfold JwtStub.hmac. simpl. apply bits_no_dot.
  - intros a k m. reflexivity.
  - reflexivity.
Qed.

End TokenServiceFacts.

(** ** Claims on the token service *)

Module TokenServiceClaims.

Import Jsonwebtoken TokenService TokenServiceFacts StringFacts.

Local Open Scope Z_scope.

(** C4. A token issued for a subject verifies, until its expiry, to claims
    that carry that subject id; and [verifyToken] answers [null] for a token
    whose signature is not the MAC of its first two segments (a), whose
    expiry has passed (b), whose issuer or audience is not the service's
    (c), or which does not have three decodable segments (d). *)
Theorem verifyToken_roundtrip_and_rejections
    (P : Primitives) (env : Process.Env) (ok : PrimitivesOk P) :
  (forall secret milliseconds payload now now',
      Process.JWT_SECRET env = Some secret -> secret <> "" ->
      ms P (or_else (Process.JWT_EXPIRE env) "2h") = Some milliseconds ->
      now' / 1000 < now / 1000 + milliseconds / 1000 ->
      exists token c,
        generateToken P env payload now = Ok token
        /\ verifyToken P env token now' = Some c
        /\ userId c = p_userId payload)
  /\ (forall token h p s now,
        split_dots token = [h; p; s] ->
        (forall header,
            decodeHeader P h = Some header ->
            s <> hmac P (alg header) (or_else (Process.JWT_SECRET env) "")
                   (h +:+ "." +:+ p)) ->
        verifyToken P env token now = None)
  /\ (forall token h p s c t now,
        split_dots token = [h; p; s] ->
        decodeClaims P p = Some c ->
        exp c = Some t -> t <= now / 1000 ->
        verifyToken P env token now = None)
  /\ (forall token h p s c now,
        split_dots token = [h; p; s] ->
        decodeClaims P p = Some c ->
        iss c <> Some ISSUER \/ aud c <> Some AUDIENCE ->
        verifyToken P env token now = None)
  /\ (forall token now,
        length (split_dots token) <> 3%nat ->
        verifyToken P env token now = None)
  /\ (forall token h p s now,
        split_dots token = [h; p; s] ->
        decodeHeader P h = None \/ decodeClaims P p = None ->
        verifyToken P env token now = None).
Proof.
  repeat split.
  - intros secret m payload now now' Hs Hne Hms Hfresh.
    exists (jws_sign P HS256 (issuedClaims payload now m) secret),
      (issuedClaims payload now m).
    split; [now apply generateToken_returns|].
    split; [now apply verifyToken_issued | reflexivity].
  - intros. eapply verifyToken_bad_signature; eassumption.
  - intros. eapply verifyToken_expired; eassumption.
  - intros. eapply verifyToken_wrong_issuer_or_audience; eassumption.
  - intros. now apply verifyToken_malformed.
  - intros. eapply verifyToken_undecodable; eassumption.
Qed.

Lemma verifyToken_roundtrip_and_rejections_witness :
  exists token c,
    generateToken JwtStub.primitives Scenario.env0 Scenario.payload0
      Scenario.now0 = Ok token
    /\ verifyToken JwtStub.primitives Scenario.env0 token
         (Scenario.now0 + 60000) = Some c
    /\ userId c = Some "507f1f77bcf86cd799439011".
Proof.
  refine (proj1 (verifyToken_roundtrip_and_rejections JwtStub.primitives
                   Scenario.env0 stub_ok)
            "test_secret_key_for_testing_purposes_only_minimum_64_chars_required"
            7200000 Scenario.payload0 Scenario.now0 (Scenario.now0 + 60000)
            eq_refl _ eq_refl eq_refl).
  discriminate.
Defined.

(** A token of the service whose signature was replaced is rejected. *)
Lemma verifyToken_tampered_signature
    (P : Primitives) (env : Process.Env) (ok : PrimitivesOk P)
    (secret : string) (payload : Payload) (now now' milliseconds : Z)
    (signature : string) :
  Process.JWT_SECRET env = Some secret -> secret <> "" ->
  signature
  <> hmac P "HS256" secret
       (securedInput P HS256 (issuedClaims payload now milliseconds)) ->
  verifyToken P env
    (securedInput P HS256 (issuedClaims payload now milliseconds)
       +:+ "." +:+ signature) now' = None.
Proof.
  intros Hs Hne Hsig.
  destruct (has_dot signature) eqn:Hd.
  - apply verifyToken_malformed. unfold securedInput.
    rewrite append_assoc, (append_assoc "." _).
    rewrite !split_dots_append by apply ok.
    pose proof (split_dots_with_dot signature Hd). simpl. lia.
  - eapply verifyToken_bad_signature.
    + unfold securedInput. apply split_dots_token; [apply ok | apply ok | exact Hd].
    + intros header Hh. rewrite (decode_encode_header P ok) in Hh.
      injection Hh as <-. rewrite Hs, (or_else_some _ _ Hne). exact Hsig.
Qed.

(** C5, as the code has it. The expiry of an issued token is its issued-at
    time plus the configured lifetime [JWT_EXPIRE], read by [ms]; the
    lifetime is two hours when [JWT_EXPIRE] is unset, empty or [2h]. *)
Theorem generateToken_expiry
    (P : Primitives) (env : Process.Env) (ok : PrimitivesOk P)
    (payload : Payload) (now : Z) (token : string) :
  generateToken P env payload now = Ok token ->
  exists milliseconds c,
    ms P (or_else (Process.JWT_EXPIRE env) "2h") = Some milliseconds
    /\ decode P token = Some c
    /\ iat c = Some (now / 1000)
    /\ exp c = Some (now / 1000 + milliseconds / 1000)
    /\ (Process.JWT_EXPIRE env = None \/ Process.JWT_EXPIRE env = Some ""
        \/ Process.JWT_EXPIRE env = Some "2h" ->
        exp c = Some (now / 1000 + 7200)).
Proof.
  intros H. apply generateToken_inv in H as (secret & m & Hs & Hne & Hms & ->).
  exists m, (issuedClaims payload now m).
  split; [exact Hms|]. split; [now apply decode_signed|].
  split; [reflexivity|]. split; [now apply issued_exp|].
  intros Hdef.
  assert (E : or_else (Process.JWT_EXPIRE env) "2h" = "2h")
    by (destruct Hdef as [-> | [-> | ->]]; reflexivity).
  rewrite E, (ms_two_hours P ok) in Hms. injection Hms as <-.
  now rewrite issued_exp.
Qed.

Lemma generateToken_expiry_witness :
  exists milliseconds c,
    ms JwtStub.primitives (or_else (Process.JWT_EXPIRE Scenario.env0) "2h")
    = Some milliseconds
    /\ decode JwtStub.primitives
         (jws_sign JwtStub.primitives HS256
            (issuedClaims Scenario.payload0 Scenario.now0 7200000)
            "test_secret_key_for_testing_purposes_only_minimum_64_chars_required")
       = Some c
    /\ iat c = Some (Scenario.now0 / 1000)
    /\ exp c = Some (Scenario.now0 / 1000 + milliseconds / 1000)
    /\ (Process.JWT_EXPIRE Scenario.env0 = None
        \/ Process.JWT_EXPIRE Scenario.env0 = Some ""
        \/ Process.JWT_EXPIRE Scenario.env0 = Some "2h" ->
        exp c = Some (Scenario.now0 / 1000 + 7200)).
Proof.
  refine (generateToken_expiry JwtStub.primitives Scenario.env0 stub_ok
            Scenario.payload0 Scenario.now0 _ _).
  apply generateToken_returns; [reflexivity | discriminate | reflexivity].
Defined.

(** C5, as the spec has it, fails: with [JWT_EXPIRE=1h] a token expires one
    hour after it was issued. *)
Lemma two_hour_expiry_counterexample :
  ~ two_hour_expiry JwtStub.primitives Scenario.env_1h.
Proof.
  intros H.
  assert (Hg : generateToken JwtStub.primitives Scenario.env_1h
                 Scenario.payload0 Scenario.now0
               = Ok (jws_sign JwtStub.primitives HS256
                       (issuedClaims Scenario.payload0 Scenario.now0 3600000)
                       "test_secret_key_for_testing_purposes_only_minimum_64_chars_required"))
    by (apply generateToken_returns; [reflexivity | discriminate | reflexivity]).
  destruct (H _ _ _ _ Hg (decode_signed _ stub_ok _ _ _)) as [t [Hi He]].
  injection Hi as <-. discriminate He.
Qed.

(** C6, as the spec has it, fails: the helper checks the prefix only, so a
    header with a second blank after [Bearer], or with nothing after
    [Bearer ], is not answered [null]. *)
Lemma extractTokenFromHeader_counterexample :
  extractTokenFromHeader (Some "Bearer  abc") = Some " abc"
  /\ extractTokenFromHeader (Some "Bearer ") = Some ""
  /\ ~ null_unless_bearer_shape extractTokenFromHeader.
Proof.
  split; [reflexivity|]. split; [reflexivity|].
  intros H.
  destruct (proj1 (H (Some "Bearer  abc") " abc") eq_refl)
    as (header & _ & _ & _ & Hw).
  discriminate Hw.
Qed.

(** C6, as the code has it. [extractTokenFromHeader] returns [null] exactly
    when the header is missing or does not start with the seven
    case-sensitive characters [Bearer ] (the empty header among them); for
    every other header it returns all that follows the prefix, unchanged:
    the result is [token] exactly when the header is [Bearer ] followed by
    [token], whatever [token] is. Nothing is trimmed or checked after the
    prefix, so the token returned is empty for the header [Bearer ] and
    begins with a blank when two blanks follow [Bearer]; a header of the
    exact shape [Bearer <token>] gives its token. *)
Theorem extractTokenFromHeader_spec (authHeader : option string) (token : string) :
  (extractTokenFromHeader authHeader = Some token
   <-> authHeader = Some ("Bearer " +:+ token))
  /\ (extractTokenFromHeader authHeader = None
      <-> authHeader = None
          \/ exists header,
              authHeader = Some header
              /\ String.prefix "Bearer " header = false)
  /\ (forall header,
        bearer_shape header token ->
        extractTokenFromHeader (Some header) = Some token)
  /\ extractTokenFromHeader (Some "Bearer ") = Some ""
  /\ extractTokenFromHeader (Some ("Bearer  " +:+ token))
     = Some (" " +:+ token).
Proof.
  assert (Hgo : forall t,
             extractTokenFromHeader (Some ("Bearer " +:+ t)) = Some t).
  { intros t. unfold extractTokenFromHeader.
    rewrite eqb_append_nonempty by discriminate.
    rewrite prefix_append. simpl. f_equal.
    apply (substring_tail "Bearer " t).
    rewrite length_append. simpl. lia. }
  split; [|split; [|split; [|split]]].
  - split.
    + unfold extractTokenFromHeader.
      destruct authHeader as [h|]; [|discriminate].
      destruct (String.eqb h ""); simpl; [discriminate|].
      destruct (String.prefix "Bearer " h) eqn:Hp; simpl; [|discriminate].
      intros [= <-]. f_equal. exact (prefix_split "Bearer " h Hp).
    + intros ->. apply Hgo.
  - unfold extractTokenFromHeader. destruct authHeader as [h|].
    + destruct (String.eqb h "") eqn:He.
      * apply String.eqb_eq in He. subst h. cbn [orb]. split; [|reflexivity].
        intros _. right. exists "". split; reflexivity.
      * cbn [orb]. destruct (String.prefix "Bearer " h) eqn:Hp; cbn [negb].
        -- split; [discriminate|].
           intros [E | (header & [= <-] & E)]; congruence.
        -- split; [|reflexivity]. intros _. right. exists h. auto.
    + split; [now left | reflexivity].
  - intros header (-> & _ & _). apply Hgo.
  - reflexivity.
  - exact (Hgo (" " +:+ token)).
Qed.

(** The prefix is case sensitive and no blank is skipped. *)
Example extractTokenFromHeader_examples :
  extractTokenFromHeader (Some "Bearer abc.def.ghi") = Some "abc.def.ghi"
  /\ extractTokenFromHeader (Some "bearer abc.def.ghi") = None
  /\ extractTokenFromHeader (Some " Bearer abc.def.ghi") = None
  /\ extractTokenFromHeader (Some "Bearer") = None
  /\ extractTokenFromHeader (Some "InvalidFormat token") = None
  /\ extractTokenFromHeader (Some "") = None
  /\ extractTokenFromHeader None = None
  /\ extractTokenFromHeader (Some "Bearer  abc") = Some " abc".
Proof. repeat split; reflexivity. Qed.

End TokenServiceClaims.

(** ** The audit log and the login route *)

Module CustomerAuthFacts.

Import CustomerAuth StringFacts.

Lemma or_else_nonempty (a : option string) (d : string) :
  d <> "" -> or_else a d <> "".
Proof.
  intros H. unfold or_else. destruct a as [s|]; [|exact H].
  now destruct (String.eqb_spec s "").
Qed.

Lemma with_audit_id (w : World) : with_audit w (auditLog w) = w.
Proof. now destruct w. Qed.

(** The client address the route logs is never empty. *)
Lemma ipAddress_truthy (req : Request) :
  truthy (Some (or_else (ip req) (or_else (remoteAddress req) "unknown")))
  = true.
Proof.
  unfold truthy. apply negb_true_iff, String.eqb_neq.
  apply or_else_nonempty, or_else_nonempty. discriminate.
Qed.

(** *** Values of the body *)

Lemma plain_recordable (v : Body.value) :
  Body.plain v = true -> Body.recordable v = true.
Proof. destruct v; [reflexivity | reflexivity | discriminate]. Qed.

Lemma recordable_inv (v : Body.value) :
  Body.recordable v = true ->
  exists t stored, Body.text v = Ok t /\ Body.castString v = Ok stored.
Proof.
  unfold Body.recordable. intros H. apply andb_true_iff in H as [H1 H2].
  destruct (Body.text v) as [t|]; [|discriminate].
  destruct (Body.castString v) as [stored|]; [|discriminate]. eauto.
Qed.

Lemma recordable_or_else (v : Body.value) (d : string) :
  Body.recordable v = true -> Body.recordable (Body.or_else v d) = true.
Proof. unfold Body.or_else. now destruct (Body.truthy v). Qed.

Lemma recordable_or_null (v : Body.value) :
  Body.recordable v = true -> Body.recordable (Body.or_null v) = true.
Proof. unfold Body.or_null. now destruct (Body.truthy v). Qed.

(** *** What one call of the audit log does *)

Lemma create_appends (c : AuditLog.Collection) (f : AuditLog.Fields) (now : Z)
    (name account : option string) :
  AuditLog.accepts_writes c = true ->
  Body.castString (AuditLog.f_username f) = Ok name ->
  Body.castString (AuditLog.f_accountNumber f) = Ok account ->
  Jsonwebtoken.mem_string (AuditLog.f_userType f)
    ["customer"; "employee"; "unknown"] = true ->
  truthy (AuditLog.f_ipAddress f) = true ->
  AuditLog.f_message f <> "" ->
  exists ev,
    AuditLog.create c f now
    = Ok {| AuditLog.documents := AuditLog.documents c ++ [ev];
            AuditLog.accepts_writes := AuditLog.accepts_writes c |}
    /\ AuditLog.eventType ev = AuditLog.f_eventType f
    /\ AuditLog.severity ev = AuditLog.f_severity f
    /\ AuditLog.failureReason ev = AuditLog.f_failureReason f
    /\ AuditLog.ipAddress ev = AuditLog.f_ipAddress f
    /\ AuditLog.timestamp ev = now
    /\ AuditLog.username ev = default "unknown" name.
Proof.
  intros Hw Hn Ha Ht Hi Hm. unfold AuditLog.create, AuditLog.cast.
  rewrite Hn, Ha. cbn [bind]. unfold AuditLog.validates.
  cbn [AuditLog.userType AuditLog.ipAddress AuditLog.message].
  rewrite Ht, Hi. apply String.eqb_neq in Hm. rewrite Hm. cbn [andb negb].
  rewrite Hw. eexists. split; [reflexivity|]. repeat split.
Qed.

Lemma create_rejected (c : AuditLog.Collection) (f : AuditLog.Fields) (now : Z) :
  AuditLog.accepts_writes c = false ->
  returns (AuditLog.create c f now) = false.
Proof.
  intros Hw. unfold AuditLog.create.
  destruct (AuditLog.cast f now) as [doc|]; [|reflexivity]. cbn [bind].
  rewrite Hw. now destruct (negb (AuditLog.validates doc)).
Qed.

Lemma create_uncastable (c : AuditLog.Collection) (f : AuditLog.Fields)
    (now : Z) (error : string) :
  Body.castString (AuditLog.f_accountNumber f) = Throw error ->
  returns (AuditLog.create c f now) = false.
Proof.
  intros Ha. unfold AuditLog.create, AuditLog.cast. rewrite Ha.
  now destruct (Body.castString (AuditLog.f_username f)).
Qed.

Lemma logFailedLogin_appends (c : AuditLog.Collection)
    (data : AuditLog.LoginData) (now : Z) :
  AuditLog.accepts_writes c = true ->
  Jsonwebtoken.mem_string (or_else (AuditLog.d_userType data) "unknown")
    ["customer"; "employee"; "unknown"] = true ->
  truthy (AuditLog.d_ipAddress data) = true ->
  Body.recordable (AuditLog.d_username data) = true ->
  Body.recordable (AuditLog.d_accountNumber data) = true ->
  exists ev,
    AuditLog.documents (AuditLog.logFailedLogin c data now)
    = AuditLog.documents c ++ [ev]
    /\ AuditLog.eventType ev = AuditLog.login_failed
    /\ AuditLog.severity ev = AuditLog.warning
    /\ AuditLog.failureReason ev = AuditLog.d_failureReason data
    /\ AuditLog.ipAddress ev = AuditLog.d_ipAddress data
    /\ AuditLog.timestamp ev = now.
Proof.
  intros Hw Ht Hi Hu Ha. unfold AuditLog.logFailedLogin.
  assert (Hs : exists subject,
             Body.text (if Body.truthy (AuditLog.d_username data)
                        then AuditLog.d_username data
                        else AuditLog.d_accountNumber data) = Ok subject).
  { destruct (Body.truthy (AuditLog.d_username data)).
    - destruct (recordable_inv _ Hu) as (t & _ & -> & _). eauto.
    - destruct (recordable_inv _ Ha) as (t & _ & -> & _). eauto. }
  destruct Hs as [subject ->]. cbn [bind].
  destruct (recordable_inv _ (recordable_or_else _ "unknown" Hu))
    as (_ & name & _ & Hn).
  destruct (recordable_inv _ (recordable_or_null _ Ha))
    as (_ & account & _ & Hc).
  edestruct (create_appends c) as (ev & -> & He & Hsev & Hr & Hip & Hts & _);
    [exact Hw | exact Hn | exact Hc | exact Ht | exact Hi | |].
  { cbn [AuditLog.f_message]. intros E.
    apply (f_equal (fun s => String.eqb s "")) in E.
    rewrite eqb_append_nonempty in E by discriminate. discriminate. }
  exists ev. cbn [AuditLog.documents]. auto 10.
Qed.

Lemma logFailedLogin_swallowed (c : AuditLog.Collection)
    (data : AuditLog.LoginData) (now : Z) :
  AuditLog.accepts_writes c = false ->
  AuditLog.logFailedLogin c data now = c.
Proof.
  intros Hw. unfold AuditLog.logFailedLogin.
  destruct (Body.text _) as [subject|]; [|reflexivity]. cbn [bind].
  pose proof (create_rejected c) as H.
  match goal with
  | |- match AuditLog.create c ?f now with _ => _ end = c =>
      specialize (H f now Hw); destruct (AuditLog.create c f now)
  end; [discriminate | reflexivity].
Qed.

Lemma logFailedLogin_uncastable (c : AuditLog.Collection)
    (data : AuditLog.LoginData) (now : Z) (error : string) :
  Body.truthy (AuditLog.d_accountNumber data) = true ->
  Body.castString (AuditLog.d_accountNumber data) = Throw error ->
  AuditLog.logFailedLogin c data now = c.
Proof.
  intros Ht Hc. unfold AuditLog.logFailedLogin.
  destruct (Body.text _) as [subject|]; [|reflexivity]. cbn [bind].
  match goal with
  | |- match AuditLog.create c ?f now with _ => _ end = c =>
      pose proof (create_uncastable c f now error) as H;
      destruct (AuditLog.create c f now)
  end; [|reflexivity].
  cbn [AuditLog.f_accountNumber] in H. unfold Body.or_null in H.
  rewrite Ht in H. specialize (H Hc). discriminate.
Qed.

Lemma logSuccessfulLogin_appends (c : AuditLog.Collection)
    (data : AuditLog.LoginData) (name : string) (now : Z) :
  AuditLog.accepts_writes c = true ->
  Jsonwebtoken.mem_string (or_else (AuditLog.d_userType data) "unknown")
    ["customer"; "employee"; "unknown"] = true ->
  truthy (AuditLog.d_ipAddress data) = true ->
  AuditLog.d_username data = Body.Str name ->
  Body.recordable (AuditLog.d_accountNumber data) = true ->
  exists ev,
    AuditLog.documents (AuditLog.logSuccessfulLogin c data now)
    = AuditLog.documents c ++ [ev]
    /\ AuditLog.eventType ev = AuditLog.login_success
    /\ AuditLog.severity ev = AuditLog.info
    /\ AuditLog.username ev = name
    /\ AuditLog.ipAddress ev = AuditLog.d_ipAddress data
    /\ AuditLog.timestamp ev = now.
Proof.
  intros Hw Ht Hi Hu Ha. unfold AuditLog.logSuccessfulLogin.
  rewrite Hu. cbn [Body.text bind].
  destruct (recordable_inv _ (recordable_or_null _ Ha))
    as (_ & account & _ & Hc).
  edestruct (create_appends c) as (ev & -> & He & Hsev & _ & Hip & Hts & Hn);
    [exact Hw | reflexivity | exact Hc | exact Ht | exact Hi | |].
  { cbn [AuditLog.f_message]. intros E.
    apply (f_equal (fun s => String.eqb s "")) in E.
    rewrite eqb_append_nonempty in E by discriminate. discriminate. }
  exists ev. cbn [AuditLog.documents]. auto 10.
Qed.

Lemma logSuccessfulLogin_swallowed (c : AuditLog.Collection)
    (data : AuditLog.LoginData) (now : Z) :
  AuditLog.accepts_writes c = false ->
  AuditLog.logSuccessfulLogin c data now = c.
Proof.
  intros Hw. unfold AuditLog.logSuccessfulLogin.
  destruct (Body.text _) as [subject|]; [|reflexivity]. cbn [bind].
  pose proof (create_rejected c) as H.
  match goal with
  | |- match AuditLog.create c ?f now with _ => _ end = c =>
      specialize (H f now Hw); destruct (AuditLog.create c f now)
  end; [discriminate | reflexivity].
Qed.

Lemma logSuccessfulLogin_uncastable (c : AuditLog.Collection)
    (data : AuditLog.LoginData) (now : Z) (error : string) :
  Body.truthy (AuditLog.d_accountNumber data) = true ->
  Body.castString (AuditLog.d_accountNumber data) = Throw error ->
  AuditLog.logSuccessfulLogin c data now = c.
Proof.
  intros Ht Hc. unfold AuditLog.logSuccessfulLogin.
  destruct (Body.text _) as [subject|]; [|reflexivity]. cbn [bind].
  match goal with
  | |- match AuditLog.create c ?f now with _ => _ end = c =>
      pose proof (create_uncastable c f now error) as H;
      destruct (AuditLog.create c f now)
  end; [|reflexivity].
  cbn [AuditLog.f_accountNumber] in H. unfold Body.or_null in H.
  rewrite Ht in H. specialize (H Hc). discriminate.
Qed.

Section Route.

Variable bcrypt_compare : string -> string -> result bool.
Variable P : Jsonwebtoken.Primitives.
Variable env : Process.Env.

Local Abbreviation login := (CustomerAuth.login bcrypt_compare P env).
Local Abbreviation verify := (CustomerAuth.verify bcrypt_compare).

(** *** What one audit call of the route does *)

Lemma failed_appends (w : World) (req : Request) (userAgent : string)
    (username : Body.value) (reason : string) (now : Z) :
  AuditLog.accepts_writes (auditLog w) = true ->
  Body.recordable username = true ->
  Body.recordable (body_accountNumber req) = true ->
  exists ev,
    AuditLog.documents
      (auditLog
         (failed w req
            (or_else (ip req) (or_else (remoteAddress req) "unknown"))
            userAgent username reason now))
    = AuditLog.documents (auditLog w) ++ [ev]
    /\ AuditLog.eventType ev = AuditLog.login_failed
    /\ AuditLog.severity ev = AuditLog.warning
    /\ AuditLog.failureReason ev = Some reason
    /\ AuditLog.ipAddress ev
       = Some (or_else (ip req) (or_else (remoteAddress req) "unknown"))
    /\ AuditLog.timestamp ev = now.
Proof.
  intros Hw Hu Ha. unfold failed. cbn [with_audit auditLog].
  apply logFailedLogin_appends; cbn; auto. apply ipAddress_truthy.
Qed.

Lemma failed_swallowed (w : World) (req : Request) (ipAddress userAgent : string)
    (username : Body.value) (reason : string) (now : Z) :
  AuditLog.accepts_writes (auditLog w) = false ->
  failed w req ipAddress userAgent username reason now = w.
Proof.
  intros Hw. unfold failed. rewrite logFailedLogin_swallowed by exact Hw.
  apply with_audit_id.
Qed.

Lemma failed_uncastable (w : World) (req : Request) (ipAddress userAgent : string)
    (username : Body.value) (reason : string) (now : Z) (error : string) :
  Body.truthy (body_accountNumber req) = true ->
  Body.castString (body_accountNumber req) = Throw error ->
  failed w req ipAddress userAgent username reason now = w.
Proof.
  intros Ht Hc. unfold failed.
  rewrite (logFailedLogin_uncastable _ _ _ error) by assumption.
  apply with_audit_id.
Qed.

Lemma succeeded_appends (c : AuditLog.Collection) (req : Request)
    (userAgent username : string) (now : Z) :
  AuditLog.accepts_writes c = true ->
  Body.recordable (body_accountNumber req) = true ->
  exists ev,
    AuditLog.documents
      (AuditLog.logSuccessfulLogin c
         {| AuditLog.d_userType := Some "customer";
            AuditLog.d_username := Body.Str username;
            AuditLog.d_accountNumber := body_accountNumber req;
            AuditLog.d_ipAddress :=
              Some (or_else (ip req) (or_else (remoteAddress req) "unknown"));
            AuditLog.d_userAgent := Some userAgent;
            AuditLog.d_failureReason := None;
            AuditLog.d_metadata := None |}
         now)
    = AuditLog.documents c ++ [ev]
    /\ AuditLog.eventType ev = AuditLog.login_success
    /\ AuditLog.severity ev = AuditLog.info
    /\ AuditLog.username ev = username.
Proof.
  intros Hw Ha.
  edestruct (logSuccessfulLogin_appends c) as (ev & Hd & He & Hs & Hn & _);
    [exact Hw | | | | | exists ev; eauto]; cbn; auto.
  apply ipAddress_truthy.
Qed.

(** *** The route after its two whitelist checks *)

Lemma well_formed_checks (req : Request) :
  well_formed req = true ->
  Body.test Validators.isValidAccountNumber (body_accountNumber req) = Ok true
  /\ (if Body.truthy (body_username req)
      then Body.test Validators.isValidUsername (body_username req)
      else Ok true) = Ok true.
Proof.
  unfold well_formed, validation.
  destruct (Body.test Validators.isValidAccountNumber _) as [[|]|];
    cbn [bind negb]; try discriminate.
  destruct (if Body.truthy (body_username req) then _ else _) as [[|]|];
    try discriminate. auto.
Qed.

Lemma login_not_found (w : World) (req : Request) (now : Z) :
  well_formed req = true ->
  lookup w req = Ok None ->
  login w req now
  = (failed w req (or_else (ip req) (or_else (remoteAddress req) "unknown"))
       (or_else (user_agent req) "unknown")
       (Body.or_else (body_username req) "not-provided")
       "Account not found or inactive" now,
     {| status := 401; json := Failure "Invalid credentials." |}).
Proof.
  intros Hwf Hf. apply well_formed_checks in Hwf as [H1 H2].
  unfold CustomerAuth.login. now rewrite H1, H2, Hf.
Qed.

Lemma login_wrong_password (w : World) (req : Request) (now : Z)
    (customer : Customer) :
  well_formed req = true ->
  lookup w req = Ok (Some customer) ->
  verify (body_password req) (passwordHash customer) (passwordSalt customer)
  = Ok false ->
  login w req now
  = (failed w req (or_else (ip req) (or_else (remoteAddress req) "unknown"))
       (or_else (user_agent req) "unknown")
       (Body.Str (username customer)) "Invalid password" now,
     {| status := 401; json := Failure "Invalid credentials." |}).
Proof.
  intros Hwf Hf Hv. apply well_formed_checks in Hwf as [H1 H2].
  unfold CustomerAuth.login. now rewrite H1, H2, Hf, Hv.
Qed.

Lemma login_success (w : World) (req : Request) (now : Z)
    (customer : Customer) (token : string) :
  well_formed req = true ->
  lookup w req = Ok (Some customer) ->
  verify (body_password req) (passwordHash customer) (passwordSalt customer)
  = Ok true ->
  save_throws w = false ->
  TokenService.generateToken P env
    {| TokenService.p_userId := Some (_id customer);
       TokenService.p_username := Some (username customer);
       TokenService.p_userType := Some "customer" |} now = Ok token ->
  (login w req now).2
  = {| status := 200;
       json := LoggedIn token (username customer) (fullName customer) |}
  /\ auditLog (login w req now).1
     = AuditLog.logSuccessfulLogin (auditLog w)
         {| AuditLog.d_userType := Some "customer";
            AuditLog.d_username := Body.Str (username customer);
            AuditLog.d_accountNumber := body_accountNumber req;
            AuditLog.d_ipAddress :=
              Some (or_else (ip req) (or_else (remoteAddress req) "unknown"));
            AuditLog.d_userAgent := Some (or_else (user_agent req) "unknown");
            AuditLog.d_failureReason := None;
            AuditLog.d_metadata := None |}
         now.
Proof.
  intros Hwf Hf Hv Hs Ht. apply well_formed_checks in Hwf as [H1 H2].
  unfold CustomerAuth.login. rewrite H1, H2, Hf, Hv.
  unfold save. rewrite Hs, Ht. split; reflexivity.
Qed.

(** *** Every attempt that does not end in an internal error *)

Lemma login_one_event (w : World) (req : Request) (now : Z) :
  AuditLog.accepts_writes (auditLog w) = true ->
  Body.recordable (body_accountNumber req) = true ->
  Body.recordable (body_username req) = true ->
  status (login w req now).2 <> 500 ->
  exists ev,
    AuditLog.documents (auditLog (login w req now).1)
    = AuditLog.documents (auditLog w) ++ [ev]
    /\ match json (login w req now).2 with
       | LoggedIn _ _ _ =>
           AuditLog.eventType ev = AuditLog.login_success
           /\ AuditLog.severity ev = AuditLog.info
       | Failure _ =>
           AuditLog.eventType ev = AuditLog.login_failed
           /\ AuditLog.severity ev = AuditLog.warning
           /\ is_Some (AuditLog.failureReason ev)
       end.
Proof.
  intros Hw Ha Hu. unfold CustomerAuth.login.
  assert (Hfail : forall username reason,
             Body.recordable username = true ->
             exists ev,
               AuditLog.documents
                 (auditLog
                    (failed w req
                       (or_else (ip req) (or_else (remoteAddress req) "unknown"))
                       (or_else (user_agent req) "unknown") username reason
                       now))
               = AuditLog.documents (auditLog w) ++ [ev]
               /\ AuditLog.eventType ev = AuditLog.login_failed
               /\ AuditLog.severity ev = AuditLog.warning
               /\ is_Some (AuditLog.failureReason ev)).
  { intros username reason Hr.
    destruct (failed_appends w req (or_else (user_agent req) "unknown")
                username reason now Hw Hr Ha)
      as (ev & Hd & He & Hs & Hf & _).
    exists ev. rewrite Hf. eauto. }
  destruct (Body.test Validators.isValidAccountNumber _) as [[|]|err];
    [| intros _; cbn [fst snd json];
       apply Hfail, recordable_or_else, Hu
     | cbn [fst snd status internal_error]; congruence].
  destruct (if Body.truthy (body_username req) then _ else _) as [[|]|err];
    [| intros _; cbn [fst snd json]; apply Hfail, Hu
     | cbn [fst snd status internal_error]; congruence].
  destruct (lookup w req) as [[customer|]|err];
    [| intros _; cbn [fst snd json];
       apply Hfail, recordable_or_else, Hu
     | cbn [fst snd status internal_error]; congruence].
  destruct (CustomerAuth.verify _ _ _ _) as [[|]|err];
    [| intros _; cbn [fst snd json]; now apply Hfail
     | cbn [fst snd status internal_error]; congruence].
  unfold save. destruct (save_throws w);
    [cbn [fst snd status internal_error]; congruence|].
  destruct (TokenService.generateToken _ _ _ _) as [token|err];
    [|cbn [fst snd status internal_error]; congruence].
  intros _. cbn [fst snd json with_audit auditLog].
  destruct (succeeded_appends (auditLog w) req
              (or_else (user_agent req) "unknown") (username customer) now
              Hw Ha)
    as (ev & Hd & He & Hs & _).
  exists ev. eauto.
Qed.

(** *** The audit collection has no say in the response *)

Lemma login_response_ignores_audit (w : World) (a : AuditLog.Collection)
    (req : Request) (now : Z) :
  (login (with_audit w a) req now).2 = (login w req now).2.
Proof.
  unfold CustomerAuth.login.
  destruct (Body.test Validators.isValidAccountNumber _) as [[|]|err];
    [|reflexivity|reflexivity].
  destruct (if Body.truthy (body_username req) then _ else _) as [[|]|err];
    [|reflexivity|reflexivity].
  change (lookup (with_audit w a) req) with (lookup w req).
  destruct (lookup w req) as [[customer|]|err];
    [|reflexivity|reflexivity].
  destruct (CustomerAuth.verify _ _ _ _) as [[|]|err];
    [|reflexivity|reflexivity].
  unfold save. cbn [save_throws with_audit].
  destruct (save_throws w); [reflexivity|].
  destruct (TokenService.generateToken _ _ _ _); reflexivity.
Qed.

(** The audit collection after a request, when every audit call of the
    route leaves it as it is. *)
Lemma login_without_audit (w : World) (req : Request) (now : Z) :
  (forall username reason,
      failed w req (or_else (ip req) (or_else (remoteAddress req) "unknown"))
        (or_else (user_agent req) "unknown") username reason now = w) ->
  (forall data, AuditLog.d_accountNumber data = body_accountNumber req ->
                AuditLog.logSuccessfulLogin (auditLog w) data now
                = auditLog w) ->
  auditLog (login w req now).1 = auditLog w.
Proof.
  intros Hfail Hok. unfold CustomerAuth.login.
  destruct (Body.test Validators.isValidAccountNumber _) as [[|]|err];
    [|cbn [fst]; now rewrite Hfail|reflexivity].
  destruct (if Body.truthy (body_username req) then _ else _) as [[|]|err];
    [|cbn [fst]; now rewrite Hfail|reflexivity].
  destruct (lookup w req) as [[customer|]|err];
    [|cbn [fst]; now rewrite Hfail|reflexivity].
  destruct (CustomerAuth.verify _ _ _ _) as [[|]|err];
    [|cbn [fst]; now rewrite Hfail|reflexivity].
  unfold save. destruct (save_throws w); [reflexivity|].
  destruct (TokenService.generateToken _ _ _ _);
    cbn [fst with_audit auditLog]; now apply Hok.
Qed.

Lemma login_audit_write_swallowed (w : World) (req : Request) (now : Z) :
  AuditLog.accepts_writes (auditLog w) = false ->
  auditLog (login w req now).1 = auditLog w.
Proof.
  intros Hw. apply login_without_audit.
  - intros. now apply failed_swallowed.
  - intros. now apply logSuccessfulLogin_swallowed.
Qed.

(** A truthy account number that the schema cannot cast is in every audit
    document the route builds: none is written. *)
Lemma login_audit_uncastable (w : World) (req : Request) (now : Z)
    (error : string) :
  Body.truthy (body_accountNumber req) = true ->
  Body.castString (body_accountNumber req) = Throw error ->
  auditLog (login w req now).1 = auditLog w.
Proof.
  intros Ht Hc. apply login_without_audit.
  - intros. now apply (failed_uncastable _ _ _ _ _ _ _ error).
  - intros data Hd. apply (logSuccessfulLogin_uncastable _ _ _ error);
      now rewrite Hd.
Qed.

(** An inactive account is never found by the route's query. *)
Lemma findOne_active (w : World) (req : Request) (customer : Customer) :
  lookup w req = Ok (Some customer) -> isActive customer = true.
Proof.
  unfold lookup, findOne.
  destruct (loginQuery req) as [q|] eqn:Hq; [|discriminate]. cbn [bind].
  destruct (findOne_throws w); [discriminate|].
  destruct (Body.condition (q_accountNumber q)) as [selects|]; [|discriminate].
  cbn [bind]. intros [= H]. apply find_some in H as [_ H].
  unfold matches in H.
  apply andb_true_iff in H as [H _]. apply andb_true_iff in H as [_ H].
  assert (q_isActive q = true) as E.
  { unfold loginQuery in Hq.
    destruct (Body.truthy (body_username req));
      [destruct (toLowerCase (body_username req)); [|discriminate]|];
      cbn [bind] in Hq; injection Hq as <-; reflexivity. }
  rewrite E in H. now destruct (isActive customer).
Qed.

End Route.

End CustomerAuthFacts.

(** ** Claims on the login route *)

Module CustomerAuthClaims.

Import CustomerAuth CustomerAuthFacts.

(** C8. A login that finds no active account for the identity and a login
    that finds the account but not the password answer with the same
    response: status 401 and the message [Invalid credentials.] *)
Theorem login_failures_indistinguishable
    (bcrypt_compare : string -> string -> result bool)
    (P : Jsonwebtoken.Primitives) (env : Process.Env)
    (w1 w2 : World) (req1 req2 : Request) (now1 now2 : Z) (customer : Customer) :
  well_formed req1 = true ->
  lookup w1 req1 = Ok None ->
  well_formed req2 = true ->
  lookup w2 req2 = Ok (Some customer) ->
  verify bcrypt_compare (body_password req2) (passwordHash customer)
    (passwordSalt customer) = Ok false ->
  (login bcrypt_compare P env w1 req1 now1).2
  = (login bcrypt_compare P env w2 req2 now2).2
  /\ (login bcrypt_compare P env w1 req1 now1).2
     = {| status := 401; json := Failure "Invalid credentials." |}.
Proof.
  intros Hwf1 Hf1 Hwf2 Hf2 Hv.
  rewrite (login_not_found _ _ _ _ _ _ Hwf1 Hf1).
  rewrite (login_wrong_password _ _ _ _ _ _ _ Hwf2 Hf2 Hv).
  split; reflexivity.
Qed.

(** The runs: the right password for a deactivated account, and a wrong
    password for the active one. *)
Lemma login_failures_indistinguishable_witness :
  (login BcryptStub.compare JwtStub.primitives Scenario.env0
     Scenario.world_inactive Scenario.request_ok Scenario.now0).2
  = (login BcryptStub.compare JwtStub.primitives Scenario.env0
       Scenario.world0 Scenario.request_wrong_password (Scenario.now0 + 5000)).2
  /\ (login BcryptStub.compare JwtStub.primitives Scenario.env0
        Scenario.world_inactive Scenario.request_ok Scenario.now0).2
     = {| status := 401; json := Failure "Invalid credentials." |}.
Proof.
  exact (login_failures_indistinguishable BcryptStub.compare
           JwtStub.primitives Scenario.env0
           Scenario.world_inactive Scenario.world0
           Scenario.request_ok Scenario.request_wrong_password
           Scenario.now0 (Scenario.now0 + 5000) Scenario.customer0
           eq_refl eq_refl eq_refl eq_refl eq_refl).
Defined.

(** C9, as the code has it. While the audit collection accepts writes and
    the account number and the username of the body are values the audit
    schema can store (strings, or absent), a login attempt that does not end
    in an internal error records exactly one event: [login_success] with
    severity [info] beside the token, and [login_failed] with severity
    [warning] and a failure reason beside a 400 or 401 answer; the right
    password gives the token, a wrong password the generic 401 with the
    reason [Invalid password]. The response does not depend on the audit
    collection, and a failed audit write is swallowed: nothing is recorded
    when the collection refuses the write, nor when the account number is a
    value the schema cannot cast to a string. *)
Theorem login_audit_trail
    (bcrypt_compare : string -> string -> result bool)
    (P : Jsonwebtoken.Primitives) (env : Process.Env) :
  (forall w req now,
      AuditLog.accepts_writes (auditLog w) = true ->
      Body.recordable (body_accountNumber req) = true ->
      Body.recordable (body_username req) = true ->
      status (login bcrypt_compare P env w req now).2 <> 500 ->
      exists ev,
        AuditLog.documents (auditLog (login bcrypt_compare P env w req now).1)
        = AuditLog.documents (auditLog w) ++ [ev]
        /\ match json (login bcrypt_compare P env w req now).2 with
           | LoggedIn _ _ _ =>
               AuditLog.eventType ev = AuditLog.login_success
               /\ AuditLog.severity ev = AuditLog.info
           | Failure _ =>
               AuditLog.eventType ev = AuditLog.login_failed
               /\ AuditLog.severity ev = AuditLog.warning
               /\ is_Some (AuditLog.failureReason ev)
           end)
  /\ (forall w req now customer token,
        AuditLog.accepts_writes (auditLog w) = true ->
        Body.recordable (body_accountNumber req) = true ->
        well_formed req = true ->
        lookup w req = Ok (Some customer) ->
        verify bcrypt_compare (body_password req) (passwordHash customer)
          (passwordSalt customer) = Ok true ->
        save_throws w = false ->
        TokenService.generateToken P env
          {| TokenService.p_userId := Some (_id customer);
             TokenService.p_username := Some (username customer);
             TokenService.p_userType := Some "customer" |} now = Ok token ->
        (login bcrypt_compare P env w req now).2
        = {| status := 200;
             json := LoggedIn token (username customer) (fullName customer) |}
        /\ exists ev,
            AuditLog.documents (auditLog (login bcrypt_compare P env w req now).1)
            = AuditLog.documents (auditLog w) ++ [ev]
            /\ AuditLog.eventType ev = AuditLog.login_success
            /\ AuditLog.severity ev = AuditLog.info)
  /\ (forall w req now customer,
        AuditLog.accepts_writes (auditLog w) = true ->
        Body.recordable (body_accountNumber req) = true ->
        well_formed req = true ->
        lookup w req = Ok (Some customer) ->
        verify bcrypt_compare (body_password req) (passwordHash customer)
          (passwordSalt customer) = Ok false ->
        (login bcrypt_compare P env w req now).2
        = {| status := 401; json := Failure "Invalid credentials." |}
        /\ exists ev,
            AuditLog.documents (auditLog (login bcrypt_compare P env w req now).1)
            = AuditLog.documents (auditLog w) ++ [ev]
            /\ AuditLog.eventType ev = AuditLog.login_failed
            /\ AuditLog.severity ev = AuditLog.warning
            /\ AuditLog.failureReason ev = Some "Invalid password")
  /\ (forall w a req now,
        (login bcrypt_compare P env (with_audit w a) req now).2
        = (login bcrypt_compare P env w req now).2)
  /\ (forall w req now,
        AuditLog.accepts_writes (auditLog w) = false ->
        auditLog (login bcrypt_compare P env w req now).1 = auditLog w)
  /\ (forall w req now error,
        Body.truthy (body_accountNumber req) = true ->
        Body.castString (body_accountNumber req) = Throw error ->
        auditLog (login bcrypt_compare P env w req now).1 = auditLog w).
Proof.
  split; [|split; [|split; [|split; [|split]]]].
  - intros. now apply login_one_event.
  - intros w req now customer token Hw Ha Hwf Hf Hv Hs Ht.
    destruct (login_success bcrypt_compare P env w req now customer token
                Hwf Hf Hv Hs Ht) as [Hr Hl].
    split; [exact Hr|]. rewrite Hl.
    destruct (succeeded_appends (auditLog w) req
                (or_else (user_agent req) "unknown") (username customer) now
                Hw Ha)
      as (ev & Hd & He & Hsev & _).
    exists ev. auto.
  - intros w req now customer Hw Ha Hwf Hf Hv.
    rewrite (login_wrong_password _ _ _ _ _ _ _ Hwf Hf Hv).
    split; [reflexivity|]. cbn [fst].
    destruct (failed_appends w req (or_else (user_agent req) "unknown")
                (Body.Str (username customer)) "Invalid password" now Hw
                eq_refl Ha)
      as (ev & Hd & He & Hsev & Hr & _).
    exists ev. auto.
  - intros. apply login_response_ignores_audit.
  - intros. now apply login_audit_write_swallowed.
  - intros w req now error Ht Hc.
    now apply (login_audit_uncastable _ _ _ _ _ _ error).
Qed.

Lemma login_audit_trail_witness :
  (login BcryptStub.compare JwtStub.primitives Scenario.env0
     Scenario.world0 Scenario.request_wrong_password Scenario.now0).2
  = {| status := 401; json := Failure "Invalid credentials." |}
  /\ exists ev,
      AuditLog.documents
        (auditLog (login BcryptStub.compare JwtStub.primitives Scenario.env0
                     Scenario.world0 Scenario.request_wrong_password
                     Scenario.now0).1)
      = AuditLog.documents (auditLog Scenario.world0) ++ [ev]
      /\ AuditLog.eventType ev = AuditLog.login_failed
      /\ AuditLog.severity ev = AuditLog.warning
      /\ AuditLog.failureReason ev = Some "Invalid password".
Proof.
  exact (proj1 (proj2 (proj2 (login_audit_trail BcryptStub.compare
                                JwtStub.primitives Scenario.env0)))
           Scenario.world0 Scenario.request_wrong_password Scenario.now0
           Scenario.customer0 eq_refl eq_refl eq_refl eq_refl eq_refl).
Defined.

(** The right password, end to end: a token and one [login_success] event. *)
Lemma login_audit_trail_success_example :
  status (login BcryptStub.compare JwtStub.primitives Scenario.env0
            Scenario.world0 Scenario.request_ok Scenario.now0).2 = 200
  /\ map (fun ev => (AuditLog.eventType ev, AuditLog.severity ev))
       (AuditLog.documents
          (auditLog (login BcryptStub.compare JwtStub.primitives Scenario.env0
                       Scenario.world0 Scenario.request_ok Scenario.now0).1))
     = [(AuditLog.login_success, AuditLog.info)].
Proof. split; vm_compute; reflexivity. Qed.

(** Three runs that record nothing. When the audit collection refuses the
    write, the right password still gives the token; when the customer
    lookup throws, the route answers 500; and an account number that is the
    object [{ $gt: '' }] is answered 400 while the schema rejects the event.
    C9, as the spec has it, fails on each. *)
Lemma login_runs_without_event :
  (status (login BcryptStub.compare JwtStub.primitives Scenario.env0
             Scenario.world_audit_down Scenario.request_ok Scenario.now0).2
   = 200
   /\ AuditLog.documents
        (auditLog (login BcryptStub.compare JwtStub.primitives Scenario.env0
                     Scenario.world_audit_down Scenario.request_ok
                     Scenario.now0).1) = [])
  /\ (status (login BcryptStub.compare JwtStub.primitives Scenario.env0
                Scenario.world_lookup_down Scenario.request_ok Scenario.now0).2
      = 500
      /\ AuditLog.documents
           (auditLog (login BcryptStub.compare JwtStub.primitives Scenario.env0
                        Scenario.world_lookup_down Scenario.request_ok
                        Scenario.now0).1) = [])
  /\ (status (login BcryptStub.compare JwtStub.primitives Scenario.env0
                Scenario.world0 Cases.request_operator Scenario.now0).2
      = 400
      /\ AuditLog.documents
           (auditLog (login BcryptStub.compare JwtStub.primitives Scenario.env0
                        Scenario.world0 Cases.request_operator
                        Scenario.now0).1) = []).
Proof. repeat split; vm_compute; reflexivity. Qed.

Lemma login_audit_trail_counterexample :
  ~ one_event_per_attempt
      (login BcryptStub.compare JwtStub.primitives Scenario.env0).
Proof.
  intros H.
  destruct (H Scenario.world_audit_down Scenario.request_ok Scenario.now0)
    as [ev Hev].
  rewrite (proj2 (proj1 login_runs_without_event)) in Hev.
  discriminate Hev.
Qed.

End CustomerAuthClaims.

(** ** The abuse guard *)

Module AbuseGuardFacts.

Import AbuseGuard.

Local Open Scope Z_scope.

Section Guard.

Variable cfg : Config.
Variable scopeKey : string.











End Guard.

End AbuseGuardFacts.

(** ** Claim on the abuse guard *)

Module AbuseGuardClaims.

Import AbuseGuard AbuseGuardFacts.

Local Open Scope Z_scope.



End AbuseGuardClaims.

(** ** The sanitizer *)

Module SanitizerFacts.

Import Sanitizer.

Local Open Scope N_scope.

Lemma forbidden_not_white (c : N) : forbidden c = true -> is_white c = false.
Proof.
  unfold forbidden, LT, GT, AMP, LPAREN, RPAREN.
  intros H. repeat (apply orb_true_iff in H as [H | H]);
    apply N.eqb_eq in H; subst; reflexivity.
Qed.

Lemma strip_angles_clean (s : list N) :
  Forall (fun c => (c =? LT) || (c =? GT) = false) (strip_angles s).
Proof.
  apply Forall_forall. intros c Hc. unfold strip_angles in Hc.
  apply list_elem_of_In, filter_In in Hc as [_ Hc].
  now apply negb_true_iff in Hc.
Qed.

Lemma strip_amp_parens_clean (s : list N) :
  Forall (fun c => (c =? LT) || (c =? GT) = false) s ->
  Forall (fun c => forbidden c = false) (strip_amp_parens s).
Proof.
  intros Hs. apply Forall_forall. intros c Hc. unfold strip_amp_parens in Hc.
  apply list_elem_of_In, filter_In in Hc as [Hin Hc].
  apply negb_true_iff in Hc.
  rewrite Forall_forall in Hs. specialize (Hs c).
  rewrite list_elem_of_In in Hs. specialize (Hs Hin).
  unfold forbidden.
  apply orb_false_iff in Hs as [-> ->].
  apply orb_false_iff in Hc as [Hc ->].
  apply orb_false_iff in Hc as [-> ->]. reflexivity.
Qed.

(** [trimStart] keeps a suffix. *)
Lemma trimStart_suffix (s : list N) : exists dropped, s = dropped ++ trimStart s.
Proof.
  induction s as [|c s [d IH]]; simpl.
  - now exists [].
  - destruct (is_white c).
    + exists (c :: d). simpl. now f_equal.
    + now exists [].
Qed.

Lemma trimStart_head (s : list N) (c : N) :
  head (trimStart s) = Some c -> is_white c = false.
Proof.
  induction s as [|x s IH]; simpl; [discriminate|].
  destruct (is_white x) eqn:E; [exact IH|].
  simpl. congruence.
Qed.

(** [trimEnd] keeps a prefix. *)
Lemma trimEnd_prefix (s : list N) : exists dropped, s = trimEnd s ++ dropped.
Proof.
  unfold trimEnd. destruct (trimStart_suffix (reverse s)) as [d Hd].
  exists (reverse d).
  rewrite <- reverse_app, <- Hd. now rewrite reverse_involutive.
Qed.

Lemma trimEnd_last (s : list N) (c : N) :
  last (trimEnd s) = Some c -> is_white c = false.
Proof.
  unfold trimEnd. rewrite last_reverse. apply trimStart_head.
Qed.

Lemma trim_head (s : list N) (c : N) :
  head (trim s) = Some c -> is_white c = false.
Proof.
  unfold trim. intros H.
  destruct (trimEnd_prefix (trimStart s)) as [d Hd].
  apply (trimStart_head s). rewrite Hd.
  destruct (trimEnd (trimStart s)); [discriminate | exact H].
Qed.

Lemma trim_last (s : list N) (c : N) :
  last (trim s) = Some c -> is_white c = false.
Proof. apply trimEnd_last. Qed.

Lemma trim_sublist (s : list N) (Q : N -> Prop) :
  Forall Q s -> Forall Q (trim s).
Proof.
  intros H. unfold trim.
  destruct (trimStart_suffix s) as [d1 H1].
  destruct (trimEnd_prefix (trimStart s)) as [d2 H2].
  rewrite H1 in H. apply Forall_app in H as [_ H].
  rewrite H2 in H. now apply Forall_app in H as [H _].
Qed.

End SanitizerFacts.

(** ** Claim on the sanitizer *)

Module SanitizerClaims.

Import Sanitizer SanitizerFacts.

(** C10. [sanitizeInput] is a total function: it returns the empty string
    for an input that is not a string, and for a string a result that holds
    none of the characters [<], [>], [&], [(], [)] and neither starts nor
    ends with white space. *)
Theorem sanitizeInput_spec (input : value) :
  match input with
  | VString s =>
      Forall (fun c => forbidden c = false) (sanitizeInput input)
      /\ (forall c, head (sanitizeInput input) = Some c -> is_white c = false)
      /\ (forall c, last (sanitizeInput input) = Some c -> is_white c = false)
  | _ => sanitizeInput input = []
  end.
Proof.
  destruct input as [| | b | n | s |]; try reflexivity.
  unfold sanitizeInput. split; [|split].
  - apply trim_sublist, strip_amp_parens_clean, strip_angles_clean.
  - intros c. apply trim_head.
  - intros c. apply trim_last.
Qed.

(** The examples of the test suite, and what the first [replace] does to a
    tag. *)
Example sanitizeInput_examples :
  sanitizeInput (VString (units "Normal text")) = units "Normal text"
  /\ sanitizeInput (VString (units "Hello & goodbye")) = units "Hello  goodbye"
  /\ sanitizeInput (VString (units "Test (parentheses)"))
     = units "Test parentheses"
  /\ sanitizeInput (VString (units "  <b>bold</b> a < b  ")) = units "bold a  b"
  /\ sanitizeInput (VString (units "<script>alert(1)</script>")) = units "alert1"
  /\ sanitizeInput VNull = []
  /\ sanitizeInput VUndefined = []
  /\ sanitizeInput (VNumber 123) = [].
Proof. repeat split; reflexivity. Qed.

End SanitizerClaims.

(** ** The authentication middleware *)

Module AuthFacts.

Import Auth StringFacts TokenServiceFacts.

Lemma extract_bearer (token : string) :
  TokenService.extractTokenFromHeader (Some ("Bearer " +:+ token)) = Some token.
Proof.
  unfold TokenService.extractTokenFromHeader.
  rewrite eqb_append_nonempty by discriminate.
  rewrite prefix_append. simpl. f_equal.
  apply (substring_tail "Bearer " token).
  rewrite length_append. simpl. lia.
Qed.

Lemma extract_inv (authorization : option string) (token : string) :
  TokenService.extractTokenFromHeader authorization = Some token ->
  authorization = Some ("Bearer " +:+ token).
Proof.
  unfold TokenService.extractTokenFromHeader.
  destruct authorization as [h|]; [|discriminate].
  destruct (String.eqb h ""); simpl; [discriminate|].
  destruct (String.prefix "Bearer " h) eqn:Hp; simpl; [|discriminate].
  intros [= <-]. f_equal. exact (prefix_split "Bearer " h Hp).
Qed.

Lemma has_type_spec (role : string) (u : User) :
  has_type role u = true <-> userType u = Some role.
Proof.
  unfold has_type. destruct (userType u) as [t|]; [|split; discriminate].
  destruct (String.eqb_spec t role); split; congruence.
Qed.

Section WithPrimitives.

Variable P : Jsonwebtoken.Primitives.
Variable env : Process.Env.

(** A bearer header with a token that verifies is let through. *)
Lemma authenticateToken_next (token : string) (decoded : Jsonwebtoken.Claims)
    (now : Z) :
  token <> "" ->
  TokenService.verifyToken P env token now = Some decoded ->
  authenticateToken P env (Some ("Bearer " +:+ token)) now
  = Next {| userId := Jsonwebtoken.userId decoded;
            username := Jsonwebtoken.username decoded;
            userType := Jsonwebtoken.userType decoded |}.
Proof.
  intros Hne Hv. unfold authenticateToken. rewrite extract_bearer.
  apply String.eqb_neq in Hne. now rewrite Hne, Hv.
Qed.

Hypothesis ok : Jsonwebtoken.PrimitivesOk P.

(** The bearer header of a token of the service, before its expiry. *)
Lemma authenticateToken_issued (secret : string) (milliseconds : Z)
    (payload : TokenService.Payload) (now now' : Z) :
  Process.JWT_SECRET env = Some secret -> secret <> "" ->
  (now' / 1000 < now / 1000 + milliseconds / 1000)%Z ->
  authenticateToken P env
    (Some ("Bearer "
             +:+ Jsonwebtoken.jws_sign P TokenService.HS256
                   (TokenService.issuedClaims payload now milliseconds) secret))
    now'
  = Next {| userId := TokenService.p_userId payload;
            username := TokenService.p_username payload;
            userType := TokenService.p_userType payload |}.
Proof.
  intros Hs Hne Hfresh.
  rewrite (authenticateToken_next _ (TokenService.issuedClaims payload now milliseconds)).
  - reflexivity.
  - intros E. pose proof (jws_sign_nonempty P ok TokenService.HS256
                            (TokenService.issuedClaims payload now milliseconds)
                            secret) as H.
    rewrite E in H. discriminate.
  - now apply verifyToken_issued.
Qed.

End WithPrimitives.

End AuthFacts.

Module AuthProperties.

Import Auth AuthFacts TokenServiceFacts.

(** X1. [authenticateToken] calls [next()] only for a header that is
    [Bearer ] followed by a non-empty token which [verifyToken] accepts, and
    then [req.user] holds the decoded [userId], [username] and [userType];
    every other request is answered 401, with [Access denied. No token
    provided.] when the header gives no non-empty token and with [Invalid or
    expired token.] when [verifyToken] returns [null]. *)
Theorem authenticateToken_outcomes
    (P : Jsonwebtoken.Primitives) (env : Process.Env)
    (authorization : option string) (now : Z) :
  match authenticateToken P env authorization now with
  | Next user =>
      exists token decoded,
        authorization = Some ("Bearer " +:+ token) /\ token <> ""
        /\ TokenService.verifyToken P env token now = Some decoded
        /\ user = {| userId := Jsonwebtoken.userId decoded;
                     username := Jsonwebtoken.username decoded;
                     userType := Jsonwebtoken.userType decoded |}
  | Respond status message =>
      status = 401
      /\ ((message = "Access denied. No token provided."
           /\ forall token, token <> "" ->
                            authorization <> Some ("Bearer " +:+ token))
          \/ (message = "Invalid or expired token."
              /\ exists token,
                  authorization = Some ("Bearer " +:+ token) /\ token <> ""
                  /\ TokenService.verifyToken P env token now = None))
  end.
Proof.
  unfold authenticateToken.
  destruct (TokenService.extractTokenFromHeader authorization) as [token|] eqn:He.
  - apply extract_inv in He. subst authorization.
    destruct (String.eqb_spec token "") as [->|Hne].
    + split; [reflexivity|]. left. split; [reflexivity|].
      intros t Ht E. injection E as E. apply String.app_inj in E. congruence.
    + destruct (TokenService.verifyToken P env token now) as [decoded|] eqn:Hv.
      * exists token, decoded. auto.
      * split; [reflexivity|]. right. split; [reflexivity|].
        exists token. auto.
  - split; [reflexivity|]. left. split; [reflexivity|].
    intros t Ht E. subst authorization. rewrite extract_bearer in He.
    discriminate.
Qed.

(** X2. A token issued by [generateToken], presented as [Bearer <token>]
    before its expiry, is let through by [authenticateToken] with
    [req.user] equal to the payload the token was issued for. *)
Theorem authenticateToken_accepts_issued_token
    (P : Jsonwebtoken.Primitives) (env : Process.Env)
    (ok : Jsonwebtoken.PrimitivesOk P)
    (payload : TokenService.Payload) (now now' milliseconds : Z)
    (token : string) :
  TokenService.generateToken P env payload now = Ok token ->
  Jsonwebtoken.ms P (or_else (Process.JWT_EXPIRE env) "2h") = Some milliseconds ->
  (now' / 1000 < now / 1000 + milliseconds / 1000)%Z ->
  authenticateToken P env (Some ("Bearer " +:+ token)) now'
  = Next {| userId := TokenService.p_userId payload;
            username := TokenService.p_username payload;
            userType := TokenService.p_userType payload |}.
Proof.
  intros Hg Hms Hfresh.
  apply generateToken_inv in Hg as (secret & m & Hs & Hne & Hm & ->).
  assert (m = milliseconds) as -> by congruence.
  now apply authenticateToken_issued.
Qed.

Lemma authenticateToken_accepts_issued_token_witness :
  authenticateToken JwtStub.primitives Scenario.env0
    (Some ("Bearer "
             +:+ Jsonwebtoken.jws_sign JwtStub.primitives TokenService.HS256
                   (TokenService.issuedClaims Scenario.payload0 Scenario.now0
                      7200000)
                   "test_secret_key_for_testing_purposes_only_minimum_64_chars_required"))
    (Scenario.now0 + 60000)
  = Next {| userId := Some "507f1f77bcf86cd799439011";
            username := Some "testuser";
            userType := Some "customer" |}.
Proof.
  refine (authenticateToken_accepts_issued_token JwtStub.primitives
            Scenario.env0 stub_ok Scenario.payload0 Scenario.now0
            (Scenario.now0 + 60000) 7200000 _ _ eq_refl eq_refl).
  apply generateToken_returns; [reflexivity | discriminate | reflexivity].
Defined.

(** X3. [requireCustomer] lets a request through exactly when
    [req.user.userType] is [customer], and [requireEmployee] exactly when it
    is [employee]; every other user is answered 403, no user passes both
    gates, and without [req.user] either gate throws. *)
Theorem role_gates (user : User) :
  (requireCustomer (Some user) = Ok Pass <-> userType user = Some "customer")
  /\ (requireEmployee (Some user) = Ok Pass <-> userType user = Some "employee")
  /\ (userType user <> Some "customer" ->
      requireCustomer (Some user)
      = Ok (Deny 403 "Access denied. Customer role required."))
  /\ (userType user <> Some "employee" ->
      requireEmployee (Some user)
      = Ok (Deny 403 "Access denied. Employee role required."))
  /\ ~ (requireCustomer (Some user) = Ok Pass
        /\ requireEmployee (Some user) = Ok Pass)
  /\ returns (requireCustomer None) = false
  /\ returns (requireEmployee None) = false.
Proof.
  unfold requireCustomer, requireEmployee.
  pose proof (has_type_spec "customer" user) as Hc.
  pose proof (has_type_spec "employee" user) as He.
  destruct (has_type "customer" user) eqn:Ec, (has_type "employee" user) eqn:Ee;
    simpl.
  - assert (A : userType user = Some "customer") by (apply Hc; reflexivity).
    assert (B : userType user = Some "employee") by (apply He; reflexivity).
    congruence.
  - assert (A : userType user = Some "customer") by (apply Hc; reflexivity).
    assert (B : userType user <> Some "employee")
      by (intros B; apply He in B; discriminate).
    repeat split; intuition congruence.
  - assert (B : userType user = Some "employee") by (apply He; reflexivity).
    assert (A : userType user <> Some "customer")
      by (intros A; apply Hc in A; discriminate).
    repeat split; intuition congruence.
  - assert (A : userType user <> Some "customer")
      by (intros A; apply Hc in A; discriminate).
    assert (B : userType user <> Some "employee")
      by (intros B; apply He in B; discriminate).
    repeat split; intuition congruence.
Qed.

End AuthProperties.

(** ** More on the customer login route *)

Module CustomerLoginFacts.

Import CustomerAuth CustomerAuthFacts StringFacts.

Lemma findOne_some (w : World) (q : Query) (c : Customer) :
  findOne w q = Ok (Some c) ->
  In c (customers w)
  /\ exists selects,
      Body.condition (q_accountNumber q) = Ok selects
      /\ matches selects q c = true.
Proof.
  unfold findOne. destruct (findOne_throws w); [discriminate|].
  destruct (Body.condition (q_accountNumber q)) as [selects|]; [|discriminate].
  cbn [bind]. intros [= H]. apply find_some in H as [Hin H]. eauto.
Qed.

Lemma loginQuery_account (req : Request) (q : Query) :
  loginQuery req = Ok q -> q_accountNumber q = body_accountNumber req.
Proof.
  unfold loginQuery.
  destruct (Body.truthy (body_username req));
    [destruct (toLowerCase (body_username req)); [|discriminate]|];
    cbn [bind]; intros [= <-]; reflexivity.
Qed.

(** The customer the query of the route finds is in the collection and is
    selected by the account number of the request. *)
Lemma lookup_some (w : World) (req : Request) (c : Customer) :
  lookup w req = Ok (Some c) ->
  In c (customers w)
  /\ (exists selects,
         Body.condition (body_accountNumber req) = Ok selects
         /\ selects (accountNumber c) = true)
  /\ forall s, body_accountNumber req = Body.Str s -> accountNumber c = s.
Proof.
  unfold lookup. destruct (loginQuery req) as [q|] eqn:Hq; [|discriminate].
  cbn [bind]. intros H.
  apply findOne_some in H as (Hin & selects & Hc & Hm).
  rewrite (loginQuery_account req q Hq) in Hc.
  unfold matches in Hm. apply andb_true_iff in Hm as [Hm _].
  apply andb_true_iff in Hm as [Hm _].
  split; [exact Hin|]. split; [eauto|].
  intros s Hs. rewrite Hs in Hc. cbn in Hc. injection Hc as <-.
  now apply String.eqb_eq in Hm.
Qed.

(** *** Lower case *)

Lemma lower_idem (c : ascii) :
  Validators.lower (Validators.lower c) = Validators.lower c.
Proof. destruct c as [[] [] [] [] [] [] [] []]; reflexivity. Qed.

Lemma is_word_lower (c : ascii) :
  Validators.is_word (Validators.lower c) = Validators.is_word c.
Proof. destruct c as [[] [] [] [] [] [] [] []]; reflexivity. Qed.

Lemma toLowerCase_idem (s : string) :
  Validators.toLowerCase (Validators.toLowerCase s) = Validators.toLowerCase s.
Proof.
  induction s as [|c s IH]; simpl; [reflexivity|].
  now rewrite lower_idem, IH.
Qed.

Lemma length_toLowerCase (s : string) :
  String.length (Validators.toLowerCase s) = String.length s.
Proof. induction s as [|c s IH]; simpl; [reflexivity | now rewrite IH]. Qed.

Lemma all_word_toLowerCase (s : string) :
  Validators.all_chars Validators.is_word (Validators.toLowerCase s)
  = Validators.all_chars Validators.is_word s.
Proof.
  induction s as [|c s IH]; simpl; [reflexivity|].
  now rewrite is_word_lower, IH.
Qed.

Lemma isValidUsername_toLowerCase (u : string) :
  Validators.isValidUsername (Some (Validators.toLowerCase u))
  = Validators.isValidUsername (Some u).
Proof.
  unfold Validators.isValidUsername, to_string.
  now rewrite length_toLowerCase, all_word_toLowerCase.
Qed.

Lemma truthy_toLowerCase (u : string) :
  truthy (Some (Validators.toLowerCase u)) = truthy (Some u).
Proof. now destruct u. Qed.

(** *** Documents with distinct identifiers *)

Lemma NoDup_map_eq {A B : Type} (f : A -> B) (l : list A) (a b : A) :
  List.NoDup (map f l) -> In a l -> In b l -> f a = f b -> a = b.
Proof.
  induction l as [|x l IH]; simpl; [tauto|].
  intros Hnd [->|Ha] [->|Hb] E; inversion Hnd as [|? ? Hx Hl]; subst.
  - reflexivity.
  - exfalso. apply Hx. rewrite E. now apply in_map.
  - exfalso. apply Hx. rewrite <- E. now apply in_map.
  - now apply IH.
Qed.

Lemma Forall2_map_self {A : Type} (R : A -> A -> Prop) (g : A -> A)
    (l : list A) :
  (forall d, R d (g d)) -> Forall2 R l (map g l).
Proof. intros H. induction l; simpl; constructor; auto. Qed.

Lemma Forall2_self {A : Type} (R : A -> A -> Prop) (l : list A) :
  (forall d, R d d) -> Forall2 R l l.
Proof. intros H. induction l; constructor; auto. Qed.

(** Saving the touched copy of a document found in the collection changes
    that document only, when identifiers are distinct. *)
Lemma saved_touch (l : list Customer) (customer : Customer) (now : Z) :
  List.NoDup (map _id l) -> In customer l ->
  map (fun d => if String.eqb (_id d) (_id (touch customer now))
                then stamp (touch customer now) now else d) l
  = map (fun d => if String.eqb (_id d) (_id customer)
                  then stamp (touch d now) now else d) l.
Proof.
  intros Hnd Hin. apply map_ext_in. intros d Hd. cbn [touch _id].
  destruct (String.eqb_spec (_id d) (_id customer)) as [E|]; [|reflexivity].
  now rewrite (NoDup_map_eq _id l d customer Hnd Hd Hin E).
Qed.

Section Route.

Variable bcrypt_compare : string -> string -> result bool.
Variable P : Jsonwebtoken.Primitives.
Variable env : Process.Env.

Local Abbreviation login := (CustomerAuth.login bcrypt_compare P env).
Local Abbreviation verify := (CustomerAuth.verify bcrypt_compare).

(** A request that fails a whitelist check is answered before the database
    is consulted. *)
Lemma login_ill_formed (w : World) (req : Request) (now : Z) :
  validation req = Ok false ->
  status (login w req now).2 = 400
  /\ (exists m, json (login w req now).2 = Failure m)
  /\ customers (login w req now).1 = customers w
  /\ forall w' now', (login w' req now').2 = (login w req now).2.
Proof.
  unfold CustomerAuth.login, validation.
  destruct (Body.test Validators.isValidAccountNumber _) as [[|]|];
    cbn [bind negb]; [|intros _; repeat split; eauto|discriminate].
  destruct (if Body.truthy (body_username req) then _ else _) as [[|]|];
    try discriminate.
  intros _. repeat split; eauto.
Qed.

(** A check that throws is answered 500, and nothing is written. *)
Lemma login_check_throws (w : World) (req : Request) (now : Z) (error : string) :
  validation req = Throw error -> login w req now = (w, internal_error).
Proof.
  unfold CustomerAuth.login, validation.
  destruct (Body.test Validators.isValidAccountNumber _) as [[|]|];
    cbn [bind negb]; [|discriminate|reflexivity].
  destruct (if Body.truthy (body_username req) then _ else _) as [[|]|];
    try discriminate. reflexivity.
Qed.

(** The four ways the handler ends. *)
Lemma login_cases (w : World) (req : Request) (now : Z) :
  (status (login w req now).2 = 400
   /\ (exists m, json (login w req now).2 = Failure m)
   /\ customers (login w req now).1 = customers w)
  \/ ((login w req now).2
      = {| status := 401; json := Failure "Invalid credentials." |}
      /\ customers (login w req now).1 = customers w)
  \/ ((login w req now).2 = internal_error
      /\ (customers (login w req now).1 = customers w
          \/ exists customer,
              lookup w req = Ok (Some customer)
              /\ customers (login w req now).1
                 = map (fun d => if String.eqb (_id d) (_id (touch customer now))
                                 then stamp (touch customer now) now else d)
                     (customers w)))
  \/ (exists customer token,
        well_formed req = true
        /\ lookup w req = Ok (Some customer)
        /\ verify (body_password req) (passwordHash customer)
             (passwordSalt customer) = Ok true
        /\ TokenService.generateToken P env
             {| TokenService.p_userId := Some (_id customer);
                TokenService.p_username := Some (username customer);
                TokenService.p_userType := Some "customer" |} now = Ok token
        /\ (login w req now).2
           = {| status := 200;
                json := LoggedIn token (username customer)
                          (fullName customer) |}
        /\ customers (login w req now).1
           = map (fun d => if String.eqb (_id d) (_id (touch customer now))
                           then stamp (touch customer now) now else d)
               (customers w)).
Proof.
  destruct (validation req) as [[|]|err] eqn:Hv0.
  2:{ left. destruct (login_ill_formed w req now Hv0) as (H1 & H2 & H3 & _).
      auto. }
  2:{ right. right. left. rewrite (login_check_throws w req now err Hv0).
      split; [reflexivity | now left]. }
  assert (Hwf : well_formed req = true) by (unfold well_formed; now rewrite Hv0).
  right. pose proof Hwf as Hwf'. apply well_formed_checks in Hwf as [H1 H2].
  unfold CustomerAuth.login. rewrite H1, H2.
  destruct (lookup w req) as [[customer|]|err];
    [|left; split; reflexivity|right; left; split; [reflexivity|now left]].
  destruct (CustomerAuth.verify _ _ _ _) as [[|]|err] eqn:Hv;
    [|left; split; reflexivity|right; left; split; [reflexivity|now left]].
  unfold save. destruct (save_throws w);
    [right; left; split; [reflexivity|now left]|].
  destruct (TokenService.generateToken _ _ _ _) as [token|err] eqn:Ht.
  - right. right. exists customer, token. repeat split; auto.
  - right. left. split; [reflexivity|]. right. exists customer. split; reflexivity.
Qed.

End Route.

End CustomerLoginFacts.

Module CustomerLoginProperties.

Import CustomerAuth CustomerAuthFacts CustomerLoginFacts TokenServiceFacts.

(** X4. The customer login answers with a token only on status 200, and
    only after it found an active customer that the account number of the
    request selects (for a string: the customer with that account number)
    and whose stored hash and salt [verifyPassword] accepted for the text
    of the password of the request; the token is the one [generateToken]
    issues for that customer's [_id] and [username] with [userType]
    [customer], and the [username] and [fullName] of the answer are that
    customer's. Every answer without a token has status 400, 401 or 500. *)
Theorem login_token_only_after_password_check
    (bcrypt_compare : string -> string -> result bool)
    (P : Jsonwebtoken.Primitives) (env : Process.Env)
    (w : World) (req : Request) (now : Z) :
  match json (login bcrypt_compare P env w req now).2 with
  | LoggedIn token u f =>
      status (login bcrypt_compare P env w req now).2 = 200
      /\ exists customer password,
          In customer (customers w)
          /\ isActive customer = true
          /\ (exists selects,
                 Body.condition (body_accountNumber req) = Ok selects
                 /\ selects (accountNumber customer) = true)
          /\ (forall s, body_accountNumber req = Body.Str s ->
                        accountNumber customer = s)
          /\ Body.test Validators.isValidAccountNumber (body_accountNumber req)
             = Ok true
          /\ Body.text (body_password req) = Ok password
          /\ PasswordService.verifyPassword bcrypt_compare password
               (passwordHash customer) (passwordSalt customer) = Ok true
          /\ TokenService.generateToken P env
               {| TokenService.p_userId := Some (_id customer);
                  TokenService.p_username := Some (username customer);
                  TokenService.p_userType := Some "customer" |} now = Ok token
          /\ u = username customer /\ f = fullName customer
  | Failure _ =>
      In (status (login bcrypt_compare P env w req now).2) [400; 401; 500]
  end.
Proof.
  destruct (login_cases bcrypt_compare P env w req now)
    as [(Hs & [m Hj] & _) | [[Hr _] | [[Hr _] | H]]].
  - rewrite Hj, Hs. simpl. auto.
  - rewrite Hr. simpl. auto.
  - rewrite Hr. simpl. auto.
  - destruct H as (customer & token & Hwf & Hf & Hv & Ht & Hr & _).
    rewrite Hr. cbn [json status]. split; [reflexivity|].
    pose proof (lookup_some w _ _ Hf) as (Hin & Hsel & Hstr).
    apply well_formed_checks in Hwf as [Ha _].
    unfold verify in Hv.
    destruct (Body.text (body_password req)) as [password|] eqn:Hp;
      [|discriminate].
    exists customer, password. repeat split; auto.
    exact (findOne_active w req customer Hf).
Qed.

(** X5. The token of a successful customer login, sent as [Bearer <token>]
    before it expires, is accepted by [authenticateToken]; the user it
    attaches carries the customer's username, passes [requireCustomer] and
    is answered 403 by [requireEmployee]. *)
Theorem customer_token_opens_customer_routes_only
    (bcrypt_compare : string -> string -> result bool)
    (P : Jsonwebtoken.Primitives) (env : Process.Env)
    (ok : Jsonwebtoken.PrimitivesOk P)
    (w : World) (req : Request) (now now' milliseconds : Z)
    (token u f : string) :
  json (login bcrypt_compare P env w req now).2 = LoggedIn token u f ->
  Jsonwebtoken.ms P (or_else (Process.JWT_EXPIRE env) "2h") = Some milliseconds ->
  (now' / 1000 < now / 1000 + milliseconds / 1000)%Z ->
  exists user,
    Auth.authenticateToken P env (Some ("Bearer " +:+ token)) now'
    = Auth.Next user
    /\ Auth.username user = Some u
    /\ Auth.requireCustomer (Some user) = Ok Auth.Pass
    /\ Auth.requireEmployee (Some user)
       = Ok (Auth.Deny 403 "Access denied. Employee role required.").
Proof.
  intros Hj Hms Hfresh.
  destruct (login_cases bcrypt_compare P env w req now)
    as [(_ & [m Hm] & _) | [[Hr _] | [[Hr _] | H]]];
    try (rewrite Hr in Hj; discriminate); [congruence|].
  destruct H as (customer & token' & _ & _ & _ & Ht & Hr & _).
  rewrite Hr in Hj. cbn [json] in Hj.
  assert (token' = token /\ username customer = u) as [-> <-]
    by (split; congruence).
  apply generateToken_inv in Ht as (secret & m & Hs & Hne & Hm & ->).
  assert (m = milliseconds) as -> by congruence.
  eexists. split.
  - now apply AuthFacts.authenticateToken_issued.
  - repeat split.
Qed.

Lemma customer_token_opens_customer_routes_only_witness :
  exists user,
    Auth.authenticateToken JwtStub.primitives Scenario.env0
      (Some ("Bearer " +:+ Cases.token0)) (Scenario.now0 + 60000)
    = Auth.Next user
    /\ Auth.username user = Some "testuser"
    /\ Auth.requireCustomer (Some user) = Ok Auth.Pass
    /\ Auth.requireEmployee (Some user)
       = Ok (Auth.Deny 403 "Access denied. Employee role required.").
Proof.
  refine (customer_token_opens_customer_routes_only BcryptStub.compare
            JwtStub.primitives Scenario.env0 stub_ok Scenario.world0
            Scenario.request_ok Scenario.now0 (Scenario.now0 + 60000) 7200000
            Cases.token0 "testuser" "Test User" _ eq_refl eq_refl).
  rewrite (proj1 (login_success BcryptStub.compare JwtStub.primitives
                    Scenario.env0 Scenario.world0 Scenario.request_ok
                    Scenario.now0 Scenario.customer0 Cases.token0
                    eq_refl eq_refl eq_refl eq_refl
                    (generateToken_returns JwtStub.primitives Scenario.env0
                       _ _ _ _ eq_refl ltac:(discriminate) eq_refl))).
  reflexivity.
Defined.

(** X6. What a login writes to the customer collection, when identifiers
    are distinct: every document stays as it was or gets [lastLoginAt] and,
    by the [timestamps] option of the schema, [updatedAt] set to the time of
    the request and nothing else; an answer 400 or 401 leaves all documents
    as they were; and beside a token exactly the document with the [_id] of
    the customer logged in gets the two new dates. *)
Theorem login_writes_last_login_only
    (bcrypt_compare : string -> string -> result bool)
    (P : Jsonwebtoken.Primitives) (env : Process.Env)
    (w : World) (req : Request) (now : Z) :
  List.NoDup (map _id (customers w)) ->
  Forall2 (fun d d' => d' = d \/ d' = stamp (touch d now) now)
    (customers w) (customers (login bcrypt_compare P env w req now).1)
  /\ (status (login bcrypt_compare P env w req now).2 = 400
      \/ status (login bcrypt_compare P env w req now).2 = 401 ->
      customers (login bcrypt_compare P env w req now).1 = customers w)
  /\ (forall token u f,
        json (login bcrypt_compare P env w req now).2 = LoggedIn token u f ->
        exists customer,
          In customer (customers w) /\ username customer = u
          /\ customers (login bcrypt_compare P env w req now).1
             = map (fun d => if String.eqb (_id d) (_id customer)
                             then stamp (touch d now) now else d)
                 (customers w)).
Proof.
  intros Hnd.
  assert (Hsaved : forall customer,
             lookup w req = Ok (Some customer) ->
             In customer (customers w)
             /\ map (fun d => if String.eqb (_id d) (_id (touch customer now))
                              then stamp (touch customer now) now else d)
                  (customers w)
                = map (fun d => if String.eqb (_id d) (_id customer)
                                then stamp (touch d now) now else d)
                    (customers w)).
  { intros customer Hf. apply lookup_some in Hf as [Hin _].
    split; [exact Hin | now apply saved_touch]. }
  assert (Htouched : forall customer,
             Forall2 (fun d d' => d' = d \/ d' = stamp (touch d now) now)
               (customers w)
               (map (fun d => if String.eqb (_id d) (_id customer)
                              then stamp (touch d now) now else d)
                  (customers w))).
  { intros customer. apply Forall2_map_self. intros d.
    destruct (String.eqb (_id d) (_id customer)); auto. }
  destruct (login_cases bcrypt_compare P env w req now)
    as [(Hs & [m Hj] & Hc) | [[Hr Hc] | [[Hr Hc] | H]]].
  - rewrite Hc, Hj. repeat split; [apply Forall2_self; auto | discriminate].
  - rewrite Hc, Hr. repeat split; [apply Forall2_self; auto | discriminate].
  - rewrite Hr. cbn [status json internal_error].
    repeat split; [|intros [?|?]; discriminate|discriminate].
    destruct Hc as [->|(customer & Hf & ->)]; [apply Forall2_self; auto|].
    rewrite (proj2 (Hsaved customer Hf)). apply Htouched.
  - destruct H as (customer & token & _ & Hf & _ & _ & Hr & Hc).
    rewrite Hc, Hr, (proj2 (Hsaved customer Hf)). cbn [status json].
    repeat split; [apply Htouched | intros [?|?]; discriminate|].
    intros token' u f [= _ <- _]. exists customer.
    split; [exact (proj1 (Hsaved customer Hf))|]. split; reflexivity.
Qed.

Lemma login_writes_last_login_only_witness :
  Forall2 (fun d d' => d' = d \/ d' = stamp (touch d Scenario.now0) Scenario.now0)
    (customers Scenario.world0)
    (customers (login BcryptStub.compare JwtStub.primitives Scenario.env0
                  Scenario.world0 Scenario.request_ok Scenario.now0).1)
  /\ (status (login BcryptStub.compare JwtStub.primitives Scenario.env0
                Scenario.world0 Scenario.request_ok Scenario.now0).2 = 400
      \/ status (login BcryptStub.compare JwtStub.primitives Scenario.env0
                   Scenario.world0 Scenario.request_ok Scenario.now0).2 = 401 ->
      customers (login BcryptStub.compare JwtStub.primitives Scenario.env0
                   Scenario.world0 Scenario.request_ok Scenario.now0).1
      = customers Scenario.world0)
  /\ (forall token u f,
        json (login BcryptStub.compare JwtStub.primitives Scenario.env0
                Scenario.world0 Scenario.request_ok Scenario.now0).2
        = LoggedIn token u f ->
        exists customer,
          In customer (customers Scenario.world0) /\ username customer = u
          /\ customers (login BcryptStub.compare JwtStub.primitives
                          Scenario.env0 Scenario.world0 Scenario.request_ok
                          Scenario.now0).1
             = map (fun d => if String.eqb (_id d) (_id customer)
                             then stamp (touch d Scenario.now0) Scenario.now0
                             else d)
                 (customers Scenario.world0)).
Proof.
  apply (login_writes_last_login_only BcryptStub.compare JwtStub.primitives
           Scenario.env0 Scenario.world0 Scenario.request_ok Scenario.now0).
  repeat constructor. simpl. tauto.
Defined.

(** X7. A login whose account number or username fails its whitelist
    pattern is answered 400 before the customer collection is consulted:
    the answer is the same whatever the database holds and whether or not
    it responds, and no customer document changes. *)
Theorem login_validates_before_lookup
    (bcrypt_compare : string -> string -> result bool)
    (P : Jsonwebtoken.Primitives) (env : Process.Env)
    (w w' : World) (req : Request) (now now' : Z) :
  validation req = Ok false ->
  status (login bcrypt_compare P env w req now).2 = 400
  /\ (login bcrypt_compare P env w' req now').2
     = (login bcrypt_compare P env w req now).2
  /\ customers (login bcrypt_compare P env w req now).1 = customers w.
Proof.
  intros Hwf.
  destruct (login_ill_formed bcrypt_compare P env w req now Hwf)
    as (Hs & _ & Hc & Hsame).
  auto.
Qed.

Lemma login_validates_before_lookup_witness :
  status (login BcryptStub.compare JwtStub.primitives Scenario.env0
            Scenario.world_lookup_down Cases.request_malformed
            Scenario.now0).2 = 400
  /\ (login BcryptStub.compare JwtStub.primitives Scenario.env0
        Scenario.world0 Cases.request_malformed (Scenario.now0 + 1)).2
     = (login BcryptStub.compare JwtStub.primitives Scenario.env0
          Scenario.world_lookup_down Cases.request_malformed Scenario.now0).2
  /\ customers (login BcryptStub.compare JwtStub.primitives Scenario.env0
                  Scenario.world_lookup_down Cases.request_malformed
                  Scenario.now0).1
     = customers Scenario.world_lookup_down.
Proof.
  exact (login_validates_before_lookup BcryptStub.compare JwtStub.primitives
           Scenario.env0 Scenario.world_lookup_down Scenario.world0
           Cases.request_malformed Scenario.now0 (Scenario.now0 + 1) eq_refl).
Defined.

(** X8. The customer login does not tell the spellings of a username
    apart: a request answers as the same request with the ASCII letters of
    its username in lower case. *)
Theorem login_username_case_insensitive
    (bcrypt_compare : string -> string -> result bool)
    (P : Jsonwebtoken.Primitives) (env : Process.Env)
    (w : World) (req : Request) (u : string) (now : Z) :
  (login bcrypt_compare P env w
     (Cases.with_username req (Validators.toLowerCase u)) now).2
  = (login bcrypt_compare P env w (Cases.with_username req u) now).2.
Proof.
  assert (E1 : (if Body.truthy (Body.Str (Validators.toLowerCase u))
                then Body.test Validators.isValidUsername
                       (Body.Str (Validators.toLowerCase u))
                else Ok true)
               = (if Body.truthy (Body.Str u)
                  then Body.test Validators.isValidUsername (Body.Str u)
                  else Ok true)).
  { unfold Body.test. cbn [Body.truthy Body.text bind].
    change (negb (String.eqb (Validators.toLowerCase u) ""))
      with (truthy (Some (Validators.toLowerCase u))).
    now rewrite truthy_toLowerCase, isValidUsername_toLowerCase. }
  assert (E2 : lookup w (Cases.with_username req (Validators.toLowerCase u))
               = lookup w (Cases.with_username req u)).
  { unfold lookup, loginQuery, Cases.with_username.
    cbn [body_username body_accountNumber toLowerCase Body.truthy bind].
    change (negb (String.eqb (Validators.toLowerCase u) ""))
      with (truthy (Some (Validators.toLowerCase u))).
    change (negb (String.eqb u "")) with (truthy (Some u)).
    now rewrite truthy_toLowerCase, toLowerCase_idem. }
  unfold login. rewrite E2.
  change (body_accountNumber
            (Cases.with_username req (Validators.toLowerCase u)))
    with (body_accountNumber req).
  change (body_accountNumber (Cases.with_username req u))
    with (body_accountNumber req).
  change (body_password (Cases.with_username req (Validators.toLowerCase u)))
    with (body_password req).
  change (body_password (Cases.with_username req u)) with (body_password req).
  change (body_username (Cases.with_username req (Validators.toLowerCase u)))
    with (Body.Str (Validators.toLowerCase u)).
  change (body_username (Cases.with_username req u)) with (Body.Str u).
  rewrite E1.
  destruct (Body.test Validators.isValidAccountNumber (body_accountNumber req))
    as [[|]|err]; [|reflexivity|reflexivity].
  destruct (if Body.truthy (Body.Str u) then _ else _) as [[|]|err];
    [|reflexivity|reflexivity].
  destruct (lookup w (Cases.with_username req u)) as [[customer|]|err];
    [|reflexivity|reflexivity].
  destruct (verify _ _ _ _) as [[|]|err]; [|reflexivity|reflexivity].
  unfold save. cbn [save_throws].
  destruct (save_throws w); [reflexivity|].
  destruct (TokenService.generateToken _ _ _ _); reflexivity.
Qed.

End CustomerLoginProperties.

(** ** The employee login route *)

Module EmployeeLoginFacts.

Import EmployeeAuth StringFacts.

Lemma employee_findOne_some (w : World) (name : string) (e : Employee) :
  findOne w name = Ok (Some e) ->
  In e (employees w) /\ username e = name /\ isActive e = true.
Proof.
  unfold findOne. destruct (findOne_throws w); [discriminate|].
  intros [= H]. apply find_some in H as [Hin H].
  apply andb_true_iff in H as [H1 H2]. apply String.eqb_eq in H1.
  split; [exact Hin|]. split; [exact H1|]. now destruct (isActive e).
Qed.

Section Route.

Variable bcrypt_compare : string -> string -> result bool.
Variable P : Jsonwebtoken.Primitives.
Variable env : Process.Env.

Local Abbreviation login := (EmployeeAuth.login bcrypt_compare P env).

(** The ways the handler ends. *)
Lemma employee_login_cases (w : World) (req : Request) (now : Z) :
  (status (login w req now).2 = 400
   /\ (exists m, json (login w req now).2 = Failure m)
   /\ (Validators.isValidUsername (body_username req) = false
       \/ truthy (body_password req) = false))
  \/ ((login w req now).2
      = {| status := 401; json := Failure "Invalid credentials." |}
      /\ exists name,
          body_username req = Some name
          /\ Validators.isValidUsername (Some name) = true
          /\ truthy (body_password req) = true
          /\ (findOne w (Validators.toLowerCase name) = Ok None
              \/ exists employee,
                  findOne w (Validators.toLowerCase name) = Ok (Some employee)
                  /\ PasswordService.verifyPassword bcrypt_compare
                       (to_string (body_password req))
                       (passwordHash employee) (passwordSalt employee)
                     = Ok false))
  \/ (login w req now).2 = internal_error
  \/ (exists name employee token,
        body_username req = Some name
        /\ findOne w (Validators.toLowerCase name) = Ok (Some employee)
        /\ PasswordService.verifyPassword bcrypt_compare
             (to_string (body_password req)) (passwordHash employee)
             (passwordSalt employee) = Ok true
        /\ TokenService.generateToken P env
             {| TokenService.p_userId := Some (_id employee);
                TokenService.p_username := Some (username employee);
                TokenService.p_userType := Some "employee" |} now = Ok token
        /\ (login w req now).2
           = {| status := 200;
                json := LoggedIn token (username employee)
                          (fullName employee) (role employee) |}).
Proof.
  unfold EmployeeAuth.login.
  destruct (Validators.isValidUsername (body_username req)) eqn:Hu;
    cbn [negb]; [|left; repeat split; eauto].
  destruct (truthy (body_password req)) eqn:Hp;
    cbn [negb]; [|left; repeat split; eauto].
  right.
  destruct (body_username req) as [name|]; [|right; left; reflexivity].
  destruct (findOne w (Validators.toLowerCase name)) as [[employee|]|err] eqn:Hf;
    [| left; split; [reflexivity|]; exists name; auto
     | right; left; reflexivity].
  destruct (PasswordService.verifyPassword _ _ _ _) as [[|]|err] eqn:Hv;
    [| left; split; [reflexivity|]; exists name; repeat split; eauto
     | right; left; reflexivity].
  unfold save. destruct (save_throws w); [right; left; reflexivity|].
  destruct (TokenService.generateToken _ _ _ _) as [token|err] eqn:Ht;
    [|right; left; reflexivity].
  right. right. exists name, employee, token. auto.
Qed.

Lemma employee_login_success (w : World) (req : Request) (now : Z)
    (name : string) (employee : Employee) (token : string) :
  body_username req = Some name ->
  Validators.isValidUsername (Some name) = true ->
  truthy (body_password req) = true ->
  findOne w (Validators.toLowerCase name) = Ok (Some employee) ->
  PasswordService.verifyPassword bcrypt_compare
    (to_string (body_password req)) (passwordHash employee)
    (passwordSalt employee) = Ok true ->
  save_throws w = false ->
  TokenService.generateToken P env
    {| TokenService.p_userId := Some (_id employee);
       TokenService.p_username := Some (username employee);
       TokenService.p_userType := Some "employee" |} now = Ok token ->
  (login w req now).2
  = {| status := 200;
       json := LoggedIn token (username employee) (fullName employee)
                 (role employee) |}.
Proof.
  intros Hn Hu Hp Hf Hv Hs Ht. unfold EmployeeAuth.login.
  rewrite Hn, Hu, Hp. cbn [negb]. rewrite Hf, Hv. unfold save.
  now rewrite Hs, Ht.
Qed.

End Route.

End EmployeeLoginFacts.

Module EmployeeLoginProperties.

Import EmployeeAuth EmployeeLoginFacts TokenServiceFacts.

(** X9. The employee login answers 401 exactly when the username has the
    format, a password is given, the lookup answers and either no active
    employee has that username in lower case or [verifyPassword] returns
    [false] for the one found; in both cases the answer is the same 401
    with the message [Invalid credentials.] *)
Theorem employee_login_failures_indistinguishable
    (bcrypt_compare : string -> string -> result bool)
    (P : Jsonwebtoken.Primitives) (env : Process.Env)
    (w : World) (req : Request) (now : Z) :
  (status (login bcrypt_compare P env w req now).2 = 401 <->
   exists name,
     body_username req = Some name
     /\ Validators.isValidUsername (Some name) = true
     /\ truthy (body_password req) = true
     /\ (findOne w (Validators.toLowerCase name) = Ok None
         \/ exists employee,
             findOne w (Validators.toLowerCase name) = Ok (Some employee)
             /\ PasswordService.verifyPassword bcrypt_compare
                  (to_string (body_password req))
                  (passwordHash employee) (passwordSalt employee) = Ok false))
  /\ (status (login bcrypt_compare P env w req now).2 = 401 ->
      (login bcrypt_compare P env w req now).2
      = {| status := 401; json := Failure "Invalid credentials." |}).
Proof.
  destruct (employee_login_cases bcrypt_compare P env w req now)
    as [(Hs & _ & _) | [[Hr Hc] | [Hr | H]]].
  - rewrite Hs. split; [split; [discriminate|] | discriminate].
    intros (name & Hn & Hu & Hp & Hc). exfalso. revert Hs.
    unfold login. rewrite Hn, Hu, Hp. cbn [negb].
    destruct Hc as [-> | (employee & -> & ->)]; discriminate.
  - rewrite Hr. cbn [status]. split; [split; auto | reflexivity].
  - rewrite Hr. cbn [status internal_error].
    split; [split; [discriminate|] | discriminate].
    intros (name & Hn & Hu & Hp & Hc). exfalso. revert Hr.
    unfold login. rewrite Hn, Hu, Hp. cbn [negb].
    destruct Hc as [-> | (employee & -> & ->)]; discriminate.
  - destruct H as (name & employee & token & Hn & Hf & Hv & _ & Hr).
    rewrite Hr. cbn [status]. split; [split; [discriminate|] | discriminate].
    intros (name' & Hn' & _ & _ & Hc). exfalso.
    assert (name' = name) as -> by congruence.
    destruct Hc as [Hc | (employee' & Hc & Hv')]; [congruence|].
    assert (employee' = employee) as -> by congruence. congruence.
Qed.

(** X10. An employee login without a [username] field is not rejected by
    the username check, which tests the text [undefined]: with a password
    the handler fails on [username.toLowerCase()], answers 500 and records
    no audit event; without one it answers 400 [Password is required.] *)
Theorem employee_login_without_username
    (bcrypt_compare : string -> string -> result bool)
    (P : Jsonwebtoken.Primitives) (env : Process.Env)
    (w : World) (req : Request) (now : Z) :
  body_username req = None ->
  (truthy (body_password req) = true ->
   login bcrypt_compare P env w req now = (w, internal_error))
  /\ (truthy (body_password req) = false ->
      (login bcrypt_compare P env w req now).2
      = {| status := 400; json := Failure "Password is required." |}).
Proof.
  intros Hn. unfold login. rewrite Hn.
  change (Validators.isValidUsername None) with true. cbn [negb].
  split; intros ->; reflexivity.
Qed.

Lemma employee_login_without_username_witness :
  (truthy (Some "Test@1234") = true ->
   login BcryptStub.compare JwtStub.primitives Scenario.env0 Cases.staff0
     (Cases.staff_request None (Some "Test@1234")) Scenario.now0
   = (Cases.staff0, internal_error))
  /\ (truthy (Some "Test@1234") = false ->
      (login BcryptStub.compare JwtStub.primitives Scenario.env0 Cases.staff0
         (Cases.staff_request None (Some "Test@1234")) Scenario.now0).2
      = {| status := 400; json := Failure "Password is required." |}).
Proof.
  exact (employee_login_without_username BcryptStub.compare
           JwtStub.primitives Scenario.env0 Cases.staff0
           (Cases.staff_request None (Some "Test@1234")) Scenario.now0
           eq_refl).
Defined.

(** X11. The employee login answers with a token only after
    [verifyPassword] accepted the password for an active employee found
    under the username in lower case; the answer carries that employee's
    [username], [fullName] and [role], and the token, sent as
    [Bearer <token>] before it expires, passes [authenticateToken] and
    [requireEmployee] and is answered 403 by [requireCustomer]. *)
Theorem employee_token_opens_employee_routes_only
    (bcrypt_compare : string -> string -> result bool)
    (P : Jsonwebtoken.Primitives) (env : Process.Env)
    (ok : Jsonwebtoken.PrimitivesOk P)
    (w : World) (req : Request) (now now' milliseconds : Z)
    (token u f r : string) :
  json (login bcrypt_compare P env w req now).2 = LoggedIn token u f r ->
  Jsonwebtoken.ms P (or_else (Process.JWT_EXPIRE env) "2h") = Some milliseconds ->
  (now' / 1000 < now / 1000 + milliseconds / 1000)%Z ->
  (exists employee,
      In employee (employees w) /\ isActive employee = true
      /\ username employee = Validators.toLowerCase (to_string (body_username req))
      /\ PasswordService.verifyPassword bcrypt_compare
           (to_string (body_password req)) (passwordHash employee)
           (passwordSalt employee) = Ok true
      /\ u = username employee /\ f = fullName employee /\ r = role employee)
  /\ exists user,
      Auth.authenticateToken P env (Some ("Bearer " +:+ token)) now'
      = Auth.Next user
      /\ Auth.username user = Some u
      /\ Auth.requireEmployee (Some user) = Ok Auth.Pass
      /\ Auth.requireCustomer (Some user)
         = Ok (Auth.Deny 403 "Access denied. Customer role required.").
Proof.
  intros Hj Hms Hfresh.
  destruct (employee_login_cases bcrypt_compare P env w req now)
    as [(_ & [m Hm] & _) | [[Hr _] | [Hr | H]]];
    try (rewrite Hr in Hj; discriminate); [congruence|].
  destruct H as (name & employee & token' & Hn & Hf & Hv & Ht & Hr).
  rewrite Hr in Hj. cbn [json] in Hj.
  assert (token' = token /\ username employee = u /\ fullName employee = f
          /\ role employee = r) as (-> & <- & <- & <-)
    by (repeat split; congruence).
  apply employee_findOne_some in Hf as (Hin & Hname & Hact).
  split.
  - exists employee. rewrite Hn. cbn [to_string]. repeat split; auto.
  - apply generateToken_inv in Ht as (secret & m & Hs & Hne & Hm & ->).
    assert (m = milliseconds) as -> by congruence.
    eexists. split.
    + now apply AuthFacts.authenticateToken_issued.
    + repeat split.
Qed.

Lemma employee_token_opens_employee_routes_only_witness :
  (exists employee,
      In employee (employees Cases.staff0) /\ isActive employee = true
      /\ username employee = Validators.toLowerCase (to_string (Some "Employee1"))
      /\ PasswordService.verifyPassword BcryptStub.compare
           (to_string (Some "Test@1234")) (passwordHash employee)
           (passwordSalt employee) = Ok true
      /\ "employee1" = username employee /\ "Staff Member" = fullName employee
      /\ "Employee" = role employee)
  /\ exists user,
      Auth.authenticateToken JwtStub.primitives Scenario.env0
        (Some ("Bearer " +:+ Cases.staff_token0)) (Scenario.now0 + 60000)
      = Auth.Next user
      /\ Auth.username user = Some "employee1"
      /\ Auth.requireEmployee (Some user) = Ok Auth.Pass
      /\ Auth.requireCustomer (Some user)
         = Ok (Auth.Deny 403 "Access denied. Customer role required.").
Proof.
  refine (employee_token_opens_employee_routes_only BcryptStub.compare
            JwtStub.primitives Scenario.env0 stub_ok Cases.staff0
            (Cases.staff_request (Some "Employee1") (Some "Test@1234"))
            Scenario.now0 (Scenario.now0 + 60000) 7200000
            Cases.staff_token0 "employee1" "Staff Member" "Employee"
            _ eq_refl eq_refl).
  rewrite (employee_login_success BcryptStub.compare JwtStub.primitives
             Scenario.env0 Cases.staff0
             (Cases.staff_request (Some "Employee1") (Some "Test@1234"))
             Scenario.now0 "Employee1" Cases.employee0 Cases.staff_token0
             eq_refl eq_refl eq_refl eq_refl eq_refl eq_refl
             (generateToken_returns JwtStub.primitives Scenario.env0
                _ _ _ _ eq_refl ltac:(discriminate) eq_refl)).
  reflexivity.
Defined.

End EmployeeLoginProperties.

(** ** The read side of the audit log *)

Module AuditQueryFacts.

Import AuditLog AuditQueries.

Local Open Scope Z_scope.

Lemma insert_desc_perm (ev : AuditEvent) (l : list AuditEvent) :
  Permutation (insert_desc ev l) (ev :: l).
Proof.
  induction l as [|x l IH]; simpl; [reflexivity|].
  destruct (timestamp x <? timestamp ev); [reflexivity|].
  rewrite IH. apply perm_swap.
Qed.

Lemma sort_desc_perm (l : list AuditEvent) : Permutation (sort_desc l) l.
Proof.
  induction l as [|x l IH]; [reflexivity|].
  change (sort_desc (x :: l)) with (insert_desc x (sort_desc l)).
  rewrite insert_desc_perm. now constructor.
Qed.

Lemma length_sort_desc (l : list AuditEvent) :
  length (sort_desc l) = length l.
Proof. apply Permutation_length, sort_desc_perm. Qed.

Lemma insert_desc_sorted (ev : AuditEvent) (l : list AuditEvent) :
  StronglySorted (fun a b => timestamp b <= timestamp a) l ->
  StronglySorted (fun a b => timestamp b <= timestamp a) (insert_desc ev l).
Proof.
  induction 1 as [|x l Hs IH Hx]; simpl.
  - repeat constructor.
  - destruct (Z.ltb_spec (timestamp x) (timestamp ev)) as [Hlt|Hge].
    + constructor; [now constructor|].
      constructor; [lia|].
      rewrite List.Forall_forall in *. intros y Hy. specialize (Hx y Hy). lia.
    + constructor; [exact IH|].
      rewrite List.Forall_forall in *. intros y Hy.
      apply (Permutation_in _ (insert_desc_perm ev l)) in Hy.
      destruct Hy as [<-|Hy]; [lia | now apply Hx].
Qed.

Lemma sort_desc_sorted (l : list AuditEvent) :
  StronglySorted (fun a b => timestamp b <= timestamp a) (sort_desc l).
Proof.
  induction l as [|x l IH]; [constructor|].
  change (sort_desc (x :: l)) with (insert_desc x (sort_desc l)).
  now apply insert_desc_sorted.
Qed.

(** A collection splits into what a filter keeps and what it drops. *)
Lemma filter_split {A : Type} (f : A -> bool) (l : list A) :
  Permutation l (List.filter f l ++ List.filter (fun x => negb (f x)) l).
Proof.
  induction l as [|x l IH]; simpl; [reflexivity|].
  destruct (f x); simpl.
  - now constructor.
  - rewrite IH at 1. apply Permutation_middle.
Qed.

Lemma length_filter_le {A : Type} (f g : A -> bool) (l : list A) :
  (forall x, f x = true -> g x = true) ->
  (length (List.filter f l) <= length (List.filter g l))%nat.
Proof.
  intros H. induction l as [|x l IH]; simpl; [lia|].
  destruct (f x) eqn:Hf.
  - rewrite (H x Hf). simpl. lia.
  - destruct (g x); simpl; lia.
Qed.

Lemma same_ip_spec (ip : string) (ev : AuditEvent) :
  same_ip ip ev = true <-> ipAddress ev = Some ip.
Proof.
  unfold same_ip. destruct (ipAddress ev) as [a|]; [|split; discriminate].
  destruct (String.eqb_spec a ip); split; congruence.
Qed.

Lemma is_login_failed_spec (ev : AuditEvent) :
  is_login_failed ev = true <-> eventType ev = login_failed.
Proof.
  unfold is_login_failed. destruct (eventType ev); split; congruence.
Qed.

(** What a query with the filter [f] returns. *)
Lemma query_spec (f : AuditEvent -> bool) (l : list AuditEvent) :
  Permutation l (sort_desc (List.filter f l)
                   ++ List.filter (fun ev => negb (f ev)) l)
  /\ List.Forall (fun ev => f ev = true) (sort_desc (List.filter f l))
  /\ List.Forall (fun ev => f ev = false)
       (List.filter (fun ev => negb (f ev)) l)
  /\ StronglySorted (fun a b => timestamp b <= timestamp a)
       (sort_desc (List.filter f l)).
Proof.
  split; [|split; [|split]].
  - rewrite sort_desc_perm. apply filter_split.
  - apply List.Forall_forall. intros ev Hev.
    apply (Permutation_in _ (sort_desc_perm _)) in Hev.
    now apply List.filter_In in Hev.
  - apply List.Forall_forall. intros ev Hev.
    apply List.filter_In in Hev as [_ Hev]. now apply negb_true_iff.
  - apply sort_desc_sorted.
Qed.

Lemma by_ip_filter (ip : string) (cutoff : Z) (ev : AuditEvent) :
  same_ip ip ev && is_login_failed ev && (cutoff <=? timestamp ev) = true
  <-> ipAddress ev = Some ip /\ eventType ev = login_failed
      /\ cutoff <= timestamp ev.
Proof.
  rewrite !andb_true_iff, same_ip_spec, is_login_failed_spec, Z.leb_le. tauto.
Qed.

Lemma by_username_filter (user : string) (cutoff : Z) (ev : AuditEvent) :
  String.eqb (username ev) user && is_login_failed ev
  && (cutoff <=? timestamp ev) = true
  <-> username ev = user /\ eventType ev = login_failed
      /\ cutoff <= timestamp ev.
Proof.
  rewrite !andb_true_iff, String.eqb_eq, is_login_failed_spec, Z.leb_le. tauto.
Qed.

(** The number of attempts a query by address returns. *)
Lemma count_by_ip (c : Collection) (ip : string) (minutes : option Z) (now : Z) :
  getFailedAttemptsByIP false c ip minutes now
  = Ok (sort_desc
          (List.filter
             (fun ev => same_ip ip ev && is_login_failed ev
                        && (cutoffTime now (default 30 minutes) <=? timestamp ev))
             (documents c))).
Proof. reflexivity. Qed.

(** One more document in the collection. *)
Lemma length_query_snoc (f : AuditEvent -> bool) (l : list AuditEvent)
    (ev : AuditEvent) :
  length (sort_desc (List.filter f (l ++ [ev])))
  = (length (sort_desc (List.filter f l)) + if f ev then 1 else 0)%nat.
Proof.
  rewrite !length_sort_desc, List.filter_app, List.length_app. simpl.
  now destruct (f ev).
Qed.

End AuditQueryFacts.

Module AuditQueryProperties.

Import AuditLog AuditQueries AuditQueryFacts.

Local Open Scope Z_scope.

(** X12. When the database answers, [getFailedAttemptsByIP] returns exactly
    the documents of the collection with that [ipAddress], the event type
    [login_failed] and a timestamp not before the cutoff (30 minutes before
    the clock reading unless a window is given), each as often as the
    collection holds it, newest first; [getFailedAttemptsByUsername] does
    the same for a [username]. A database error is not caught by either. *)
Theorem failed_attempt_queries
    (c : Collection) (ip user : string) (minutes : option Z) (now : Z) :
  (exists attempts others,
      getFailedAttemptsByIP false c ip minutes now = Ok attempts
      /\ Permutation (documents c) (attempts ++ others)
      /\ List.Forall
           (fun ev => ipAddress ev = Some ip /\ eventType ev = login_failed
                      /\ cutoffTime now (default 30 minutes) <= timestamp ev)
           attempts
      /\ List.Forall
           (fun ev => ~ (ipAddress ev = Some ip /\ eventType ev = login_failed
                         /\ cutoffTime now (default 30 minutes) <= timestamp ev))
           others
      /\ StronglySorted (fun a b => timestamp b <= timestamp a) attempts)
  /\ (exists attempts others,
        getFailedAttemptsByUsername false c user minutes now = Ok attempts
        /\ Permutation (documents c) (attempts ++ others)
        /\ List.Forall
             (fun ev => username ev = user /\ eventType ev = login_failed
                        /\ cutoffTime now (default 30 minutes) <= timestamp ev)
             attempts
        /\ List.Forall
             (fun ev => ~ (username ev = user /\ eventType ev = login_failed
                           /\ cutoffTime now (default 30 minutes)
                              <= timestamp ev))
             others
        /\ StronglySorted (fun a b => timestamp b <= timestamp a) attempts)
  /\ returns (getFailedAttemptsByIP true c ip minutes now) = false
  /\ returns (getFailedAttemptsByUsername true c user minutes now) = false.
Proof.
  split; [|split; [|split; reflexivity]].
  - destruct (query_spec
                (fun ev => same_ip ip ev && is_login_failed ev
                           && (cutoffTime now (default 30 minutes)
                               <=? timestamp ev))
                (documents c)) as (Hp & Ha & Ho & Hs).
    eexists _, _. split; [reflexivity|]. split; [exact Hp|].
    split; [|split; [|exact Hs]].
    + eapply List.Forall_impl; [|exact Ha]. intros ev. apply by_ip_filter.
    + eapply List.Forall_impl; [|exact Ho]. intros ev Hf Hm.
      apply by_ip_filter in Hm. congruence.
  - destruct (query_spec
                (fun ev => String.eqb (username ev) user && is_login_failed ev
                           && (cutoffTime now (default 30 minutes)
                               <=? timestamp ev))
                (documents c)) as (Hp & Ha & Ho & Hs).
    eexists _, _. split; [reflexivity|]. split; [exact Hp|].
    split; [|split; [|exact Hs]].
    + eapply List.Forall_impl; [|exact Ha]. intros ev. apply by_username_filter.
    + eapply List.Forall_impl; [|exact Ho]. intros ev Hf Hm.
      apply by_username_filter in Hm. congruence.
Qed.

(** X13. [checkSuspiciousActivity] passes a database error on; when the
    database answers it is monotone: a threshold of zero or less is always
    met, a report at one threshold is a report at every lower one, a report
    for one time window is a report for every longer one, and documents
    added to the collection never take a report back. *)
Theorem checkSuspiciousActivity_monotone
    (c : Collection) (ip : string) (now : Z) :
  (forall threshold minutes,
      returns (checkSuspiciousActivity true c ip threshold minutes now) = false)
  /\ (forall threshold minutes,
        threshold <= 0 ->
        checkSuspiciousActivity false c ip (Some threshold) minutes now
        = Ok true)
  /\ (forall lower threshold minutes,
        lower <= threshold ->
        checkSuspiciousActivity false c ip (Some threshold) minutes now
        = Ok true ->
        checkSuspiciousActivity false c ip (Some lower) minutes now = Ok true)
  /\ (forall threshold shorter longer,
        shorter <= longer ->
        checkSuspiciousActivity false c ip threshold (Some shorter) now
        = Ok true ->
        checkSuspiciousActivity false c ip threshold (Some longer) now
        = Ok true)
  /\ (forall threshold minutes more,
        checkSuspiciousActivity false c ip threshold minutes now = Ok true ->
        checkSuspiciousActivity false
          {| documents := documents c ++ more;
             accepts_writes := accepts_writes c |}
          ip threshold minutes now
        = Ok true).
Proof.
  unfold checkSuspiciousActivity, getFailedAttemptsByIP.
  cbn [bind documents default from_option id]. repeat split.
  - intros threshold minutes Ht. f_equal. apply Z.leb_le. lia.
  - intros lower threshold minutes Hle [= H]. f_equal.
    apply Z.leb_le. apply Z.leb_le in H. lia.
  - intros threshold shorter longer Hle [= H]. f_equal.
    apply Z.leb_le. apply Z.leb_le in H. rewrite length_sort_desc in *.
    etransitivity; [exact H|]. apply inj_le, length_filter_le.
    intros ev Hev. apply andb_true_iff in Hev as [Hev Ht].
    rewrite Hev. apply Z.leb_le in Ht. apply Z.leb_le.
    unfold cutoffTime in *. lia.
  - intros threshold minutes more [= H]. f_equal.
    apply Z.leb_le. apply Z.leb_le in H. rewrite length_sort_desc in *.
    rewrite List.filter_app, List.length_app. lia.
Qed.

End AuditQueryProperties.

(** ** The login route and the audit queries *)

Module LoginAuditFacts.

Import CustomerAuth CustomerAuthFacts StringFacts.

(** Whatever the data, a call of the audit log writes nothing or one
    document. *)
Lemma logFailedLogin_cases (c : AuditLog.Collection)
    (data : AuditLog.LoginData) (now : Z) :
  AuditLog.documents (AuditLog.logFailedLogin c data now)
  = AuditLog.documents c
  \/ exists ev,
      AuditLog.documents (AuditLog.logFailedLogin c data now)
      = AuditLog.documents c ++ [ev]
      /\ AuditLog.ipAddress ev = AuditLog.d_ipAddress data.
Proof.
  unfold AuditLog.logFailedLogin.
  destruct (Body.text _) as [subject|]; [|now left]. cbn [bind].
  unfold AuditLog.create, AuditLog.cast.
  destruct (Body.castString _) as [name|]; [|now left]. cbn [bind].
  destruct (Body.castString _) as [account|]; [|now left]. cbn [bind].
  destruct (negb (AuditLog.validates _)); [now left|].
  destruct (AuditLog.accepts_writes c); [|now left].
  right. eexists. split; reflexivity.
Qed.

Lemma logSuccessfulLogin_cases (c : AuditLog.Collection)
    (data : AuditLog.LoginData) (now : Z) :
  AuditLog.documents (AuditLog.logSuccessfulLogin c data now)
  = AuditLog.documents c
  \/ exists ev,
      AuditLog.documents (AuditLog.logSuccessfulLogin c data now)
      = AuditLog.documents c ++ [ev]
      /\ AuditLog.eventType ev = AuditLog.login_success.
Proof.
  unfold AuditLog.logSuccessfulLogin.
  destruct (Body.text _) as [subject|]; [|now left]. cbn [bind].
  unfold AuditLog.create, AuditLog.cast.
  destruct (Body.castString _) as [name|]; [|now left]. cbn [bind].
  destruct (Body.castString _) as [account|]; [|now left]. cbn [bind].
  destruct (negb (AuditLog.validates _)); [now left|].
  destruct (AuditLog.accepts_writes c); [|now left].
  right. eexists. split; reflexivity.
Qed.

Section Route.

Variable bcrypt_compare : string -> string -> result bool.
Variable P : Jsonwebtoken.Primitives.
Variable env : Process.Env.

Local Abbreviation login := (CustomerAuth.login bcrypt_compare P env).

(** What one request adds to the audit collection, when the collection
    accepts writes and the schema can store the two fields of the body. *)
Lemma login_audit_effect (w : World) (req : Request) (now : Z) :
  AuditLog.accepts_writes (auditLog w) = true ->
  Body.recordable (body_accountNumber req) = true ->
  Body.recordable (body_username req) = true ->
  ((status (login w req now).2 = 400 \/ status (login w req now).2 = 401)
   /\ exists ev,
       AuditLog.documents (auditLog (login w req now).1)
       = AuditLog.documents (auditLog w) ++ [ev]
       /\ AuditLog.eventType ev = AuditLog.login_failed
       /\ AuditLog.ipAddress ev
          = Some (or_else (ip req) (or_else (remoteAddress req) "unknown"))
       /\ AuditLog.timestamp ev = now)
  \/ ((status (login w req now).2 = 200 \/ status (login w req now).2 = 500)
      /\ (AuditLog.documents (auditLog (login w req now).1)
          = AuditLog.documents (auditLog w)
          \/ exists ev,
              AuditLog.documents (auditLog (login w req now).1)
              = AuditLog.documents (auditLog w) ++ [ev]
              /\ AuditLog.eventType ev = AuditLog.login_success)).
Proof.
  intros Hw Ha Hu. unfold CustomerAuth.login.
  assert (Hfail : forall username reason,
             Body.recordable username = true ->
             exists ev,
               AuditLog.documents
                 (auditLog
                    (failed w req
                       (or_else (ip req) (or_else (remoteAddress req) "unknown"))
                       (or_else (user_agent req) "unknown") username reason
                       now))
               = AuditLog.documents (auditLog w) ++ [ev]
               /\ AuditLog.eventType ev = AuditLog.login_failed
               /\ AuditLog.ipAddress ev
                  = Some (or_else (ip req)
                            (or_else (remoteAddress req) "unknown"))
               /\ AuditLog.timestamp ev = now).
  { intros username reason Hr.
    destruct (failed_appends w req (or_else (user_agent req) "unknown")
                username reason now Hw Hr Ha)
      as (ev & Hd & He & _ & _ & Hi & Ht).
    exists ev. auto. }
  destruct (Body.test Validators.isValidAccountNumber _) as [[|]|err].
  2:{ left. split; [now left|]. apply Hfail, recordable_or_else, Hu. }
  2:{ right. split; [now right | now left]. }
  destruct (if Body.truthy (body_username req) then _ else _) as [[|]|err].
  2:{ left. split; [now left|]. apply Hfail, Hu. }
  2:{ right. split; [now right | now left]. }
  destruct (lookup w req) as [[customer|]|err].
  2:{ left. split; [now right|]. apply Hfail, recordable_or_else, Hu. }
  2:{ right. split; [now right | now left]. }
  destruct (CustomerAuth.verify _ _ _ _) as [[|]|err].
  2:{ left. split; [now right|]. now apply Hfail. }
  2:{ right. split; [now right | now left]. }
  unfold save. destruct (save_throws w).
  { right. split; [now right | now left]. }
  destruct (succeeded_appends (auditLog w) req
              (or_else (user_agent req) "unknown") (username customer) now
              Hw Ha)
    as (ev & Hd & He & _).
  destruct (TokenService.generateToken _ _ _ _) as [token|err];
    (right; split; [auto|]; right; exists ev; split; [exact Hd | exact He]).
Qed.

(** Whatever the request, the audit collection gains nothing or one
    document, a success or an event of the client address. *)
Lemma login_audit_cases (w : World) (req : Request) (now : Z) :
  AuditLog.documents (auditLog (login w req now).1)
  = AuditLog.documents (auditLog w)
  \/ exists ev,
      AuditLog.documents (auditLog (login w req now).1)
      = AuditLog.documents (auditLog w) ++ [ev]
      /\ (AuditLog.eventType ev = AuditLog.login_success
          \/ AuditLog.ipAddress ev
             = Some (or_else (ip req) (or_else (remoteAddress req) "unknown"))).
Proof.
  assert (Hfail : forall username reason,
             AuditLog.documents
               (auditLog
                  (failed w req
                     (or_else (ip req) (or_else (remoteAddress req) "unknown"))
                     (or_else (user_agent req) "unknown") username reason now))
             = AuditLog.documents (auditLog w)
             \/ exists ev,
                 AuditLog.documents
                   (auditLog
                      (failed w req
                         (or_else (ip req)
                            (or_else (remoteAddress req) "unknown"))
                         (or_else (user_agent req) "unknown") username reason
                         now))
                 = AuditLog.documents (auditLog w) ++ [ev]
                 /\ (AuditLog.eventType ev = AuditLog.login_success
                     \/ AuditLog.ipAddress ev
                        = Some (or_else (ip req)
                                  (or_else (remoteAddress req) "unknown")))).
  { intros username reason. unfold failed. cbn [with_audit auditLog].
    destruct (logFailedLogin_cases (auditLog w)
                {| AuditLog.d_userType := Some "customer";
                   AuditLog.d_username := username;
                   AuditLog.d_accountNumber := body_accountNumber req;
                   AuditLog.d_ipAddress :=
                     Some (or_else (ip req)
                             (or_else (remoteAddress req) "unknown"));
                   AuditLog.d_userAgent :=
                     Some (or_else (user_agent req) "unknown");
                   AuditLog.d_failureReason := Some reason;
                   AuditLog.d_metadata := None |} now)
      as [E | (ev & E & Hi)]; [now left|].
    right. exists ev. auto. }
  unfold CustomerAuth.login.
  destruct (Body.test Validators.isValidAccountNumber _) as [[|]|err];
    [|apply Hfail|now left].
  destruct (if Body.truthy (body_username req) then _ else _) as [[|]|err];
    [|apply Hfail|now left].
  destruct (lookup w req) as [[customer|]|err]; [|apply Hfail|now left].
  destruct (CustomerAuth.verify _ _ _ _) as [[|]|err];
    [|apply Hfail|now left].
  unfold save. destruct (save_throws w); [now left|].
  destruct (TokenService.generateToken _ _ _ _) as [token|err];
    cbn [fst with_audit auditLog];
    (destruct (logSuccessfulLogin_cases (auditLog w)
                 {| AuditLog.d_userType := Some "customer";
                    AuditLog.d_username := Body.Str (username customer);
                    AuditLog.d_accountNumber := body_accountNumber req;
                    AuditLog.d_ipAddress :=
                      Some (or_else (ip req)
                              (or_else (remoteAddress req) "unknown"));
                    AuditLog.d_userAgent :=
                      Some (or_else (user_agent req) "unknown");
                    AuditLog.d_failureReason := None;
                    AuditLog.d_metadata := None |} now)
       as [E | (ev & E & He)]; [now left | right; exists ev; auto]).
Qed.

End Route.

End LoginAuditFacts.

Module LoginAuditProperties.

Import CustomerAuth LoginAuditFacts AuditQueryFacts.

(** X14. While the audit collection accepts writes and the account number
    and the username of the body are values the audit schema can store
    (strings, or absent), a customer login answered 400 or 401 adds one to
    the failed attempts that [getFailedAttemptsByIP] returns for the client
    address of the request, for every query whose window reaches back to the
    time of the request, and a login answered 200 or 500 adds none. Whatever
    the body, no login changes what the query returns for another address;
    and a login whose account number is a truthy value the schema cannot
    cast to a string, as the object [{ $gt: '' }], is counted nowhere. *)
Theorem login_attempts_are_counted
    (bcrypt_compare : string -> string -> result bool)
    (P : Jsonwebtoken.Primitives) (env : Process.Env)
    (w : World) (req : Request) (now : Z) (minutes : option Z) (now' : Z) :
  AuditLog.accepts_writes (auditLog w) = true ->
  (AuditQueries.cutoffTime now' (default 30 minutes) <= now)%Z ->
  (Body.recordable (body_accountNumber req) = true ->
   Body.recordable (body_username req) = true ->
   exists before after,
     AuditQueries.getFailedAttemptsByIP false (auditLog w)
       (or_else (ip req) (or_else (remoteAddress req) "unknown")) minutes now'
     = Ok before
     /\ AuditQueries.getFailedAttemptsByIP false
          (auditLog (login bcrypt_compare P env w req now).1)
          (or_else (ip req) (or_else (remoteAddress req) "unknown"))
          minutes now'
        = Ok after
     /\ (status (login bcrypt_compare P env w req now).2 = 400
         \/ status (login bcrypt_compare P env w req now).2 = 401 ->
         length after = S (length before))
     /\ (status (login bcrypt_compare P env w req now).2 = 200
         \/ status (login bcrypt_compare P env w req now).2 = 500 ->
         length after = length before))
  /\ (forall other,
        other <> or_else (ip req) (or_else (remoteAddress req) "unknown") ->
        AuditQueries.getFailedAttemptsByIP false
          (auditLog (login bcrypt_compare P env w req now).1) other minutes now'
        = AuditQueries.getFailedAttemptsByIP false (auditLog w) other
            minutes now')
  /\ (forall error address,
        Body.truthy (body_accountNumber req) = true ->
        Body.castString (body_accountNumber req) = Throw error ->
        AuditQueries.getFailedAttemptsByIP false
          (auditLog (login bcrypt_compare P env w req now).1) address minutes
          now'
        = AuditQueries.getFailedAttemptsByIP false (auditLog w) address
            minutes now').
Proof.
  intros Hw Hcut. split; [|split].
  - intros Ha Hu.
    destruct (login_audit_effect bcrypt_compare P env w req now Hw Ha Hu)
      as [[Hs (ev & Hd & He & Hi & Ht)] | [Hs Hd]].
    + eexists _, _. split; [apply count_by_ip|]. split; [apply count_by_ip|].
      rewrite Hd, length_query_snoc.
      assert (Hf : AuditQueries.same_ip
                     (or_else (ip req) (or_else (remoteAddress req) "unknown"))
                     ev
                   && AuditQueries.is_login_failed ev
                   && (AuditQueries.cutoffTime now' (default 30 minutes)
                       <=? AuditLog.timestamp ev)%Z = true).
      { apply by_ip_filter. rewrite Ht. auto. }
      rewrite Hf. split; [intros _; lia|].
      intros [E|E]; destruct Hs as [E'|E']; congruence.
    + destruct Hd as [Hd | (ev & Hd & He)].
      * eexists _, _. split; [apply count_by_ip|]. split; [apply count_by_ip|].
        rewrite Hd. split; [|reflexivity].
        intros [E|E]; destruct Hs as [E'|E']; congruence.
      * assert (Hf : AuditQueries.is_login_failed ev = false).
        { unfold AuditQueries.is_login_failed. now rewrite He. }
        eexists _, _. split; [apply count_by_ip|]. split; [apply count_by_ip|].
        rewrite Hd, length_query_snoc, Hf, andb_false_r. cbn [andb].
        split; [|lia].
        intros [E|E]; destruct Hs as [E'|E']; congruence.
  - intros other Hother. rewrite !count_by_ip.
    destruct (login_audit_cases bcrypt_compare P env w req now)
      as [-> | (ev & -> & [He | Hi])]; [reflexivity| |].
    + rewrite List.filter_app. cbn [List.filter].
      assert (Hf : AuditQueries.is_login_failed ev = false).
      { unfold AuditQueries.is_login_failed. now rewrite He. }
      rewrite Hf, andb_false_r. cbn [andb]. now rewrite List.app_nil_r.
    + rewrite List.filter_app. cbn [List.filter].
      assert (Hf : AuditQueries.same_ip other ev = false).
      { apply not_true_is_false. intros Hf. apply same_ip_spec in Hf.
        congruence. }
      rewrite Hf. cbn [andb]. now rewrite List.app_nil_r.
  - intros error address Ht Hc.
    now rewrite (CustomerAuthFacts.login_audit_uncastable bcrypt_compare P env
                   w req now error Ht Hc).
Qed.

Lemma login_attempts_are_counted_witness :
  (Body.recordable (body_accountNumber Scenario.request_wrong_password) = true ->
   Body.recordable (body_username Scenario.request_wrong_password) = true ->
   exists before after,
     AuditQueries.getFailedAttemptsByIP false (auditLog Scenario.world0)
       "203.0.113.7" None (Scenario.now0 + 1000)
     = Ok before
     /\ AuditQueries.getFailedAttemptsByIP false
          (auditLog (login BcryptStub.compare JwtStub.primitives Scenario.env0
                       Scenario.world0 Scenario.request_wrong_password
                       Scenario.now0).1)
          "203.0.113.7" None (Scenario.now0 + 1000)
        = Ok after
     /\ (status (login BcryptStub.compare JwtStub.primitives Scenario.env0
                   Scenario.world0 Scenario.request_wrong_password
                   Scenario.now0).2 = 400
         \/ status (login BcryptStub.compare JwtStub.primitives Scenario.env0
                      Scenario.world0 Scenario.request_wrong_password
                      Scenario.now0).2 = 401 ->
         length after = S (length before))
     /\ (status (login BcryptStub.compare JwtStub.primitives Scenario.env0
                   Scenario.world0 Scenario.request_wrong_password
                   Scenario.now0).2 = 200
         \/ status (login BcryptStub.compare JwtStub.primitives Scenario.env0
                      Scenario.world0 Scenario.request_wrong_password
                      Scenario.now0).2 = 500 ->
         length after = length before))
  /\ (forall other,
        other <> "203.0.113.7" ->
        AuditQueries.getFailedAttemptsByIP false
          (auditLog (login BcryptStub.compare JwtStub.primitives Scenario.env0
                       Scenario.world0 Scenario.request_wrong_password
                       Scenario.now0).1)
          other None (Scenario.now0 + 1000)
        = AuditQueries.getFailedAttemptsByIP false (auditLog Scenario.world0)
            other None (Scenario.now0 + 1000))
  /\ (forall error address,
        Body.truthy (body_accountNumber Scenario.request_wrong_password)
        = true ->
        Body.castString (body_accountNumber Scenario.request_wrong_password)
        = Throw error ->
        AuditQueries.getFailedAttemptsByIP false
          (auditLog (login BcryptStub.compare JwtStub.primitives Scenario.env0
                       Scenario.world0 Scenario.request_wrong_password
                       Scenario.now0).1)
          address None (Scenario.now0 + 1000)
        = AuditQueries.getFailedAttemptsByIP false (auditLog Scenario.world0)
            address None (Scenario.now0 + 1000)).
Proof.
  apply (login_attempts_are_counted BcryptStub.compare JwtStub.primitives
           Scenario.env0 Scenario.world0 Scenario.request_wrong_password
           Scenario.now0 None (Scenario.now0 + 1000)).
  - reflexivity.
  - vm_compute. discriminate.
Defined.

End LoginAuditProperties.

(** ** Password patterns and password strength *)

Module PasswordFacts.

Import Patterns PasswordStrength.

Local Open Scope N_scope.

Ltac class_cases :=
  unfold is_alnum, is_letter, is_lower, is_upper, is_digit in *;
  repeat match goal with
         | |- context [?a <=? ?b] => destruct (N.leb_spec a b)
         | H : context [?a <=? ?b] |- _ => destruct (N.leb_spec a b)
         end;
  simpl in *; try reflexivity; try discriminate; try lia.

Lemma digit_not_letter (c : N) :
  is_digit c = true -> is_lower c = false /\ is_upper c = false.
Proof. intros H. split; class_cases. Qed.

Lemma letter_not_digit (c : N) : is_letter c = true -> is_digit c = false.
Proof. intros H. class_cases. Qed.

Lemma letter_cases (c : N) :
  is_letter c = true -> is_lower c || is_upper c = true.
Proof. intros H. exact H. Qed.

Lemma digit_alnum (c : N) : is_digit c = true -> is_alnum c = true.
Proof.
  intros H. unfold is_alnum. rewrite H. now rewrite !orb_true_r.
Qed.

Lemma letter_alnum (c : N) : is_letter c = true -> is_alnum c = true.
Proof.
  unfold is_alnum, is_letter. intros ->. reflexivity.
Qed.

Lemma special_not_alnum (c : N) : is_special c = true -> is_alnum c = false.
Proof.
  unfold is_special. intros H. apply existsb_exists in H as (x & Hx & E).
  apply N.eqb_eq in E. subst x.
  assert (A : forallb (fun c => negb (is_alnum c)) specials = true)
    by reflexivity.
  rewrite forallb_forall in A. apply negb_true_iff, A, Hx.
Qed.

Lemma password_char_printable (c : N) :
  is_password_char c = true -> 33 <= c <= 126 /\ c <> 34 /\ c <> 39 /\ c <> 47.
Proof.
  unfold is_password_char. intros H.
  apply orb_true_iff in H as [H|H].
  - assert (48 <= c <= 122) by class_cases. lia.
  - unfold is_special in H. apply existsb_exists in H as (x & Hx & E).
    apply N.eqb_eq in E. subst x.
    assert (A : forallb (fun c => (33 <=? c) && (c <=? 126)
                                  && negb (c =? 34) && negb (c =? 39)
                                  && negb (c =? 47)) specials = true)
      by reflexivity.
    rewrite forallb_forall in A. specialize (A c Hx).
    repeat (apply andb_true_iff in A as [A ?]).
    repeat match goal with
           | H : negb _ = true |- _ =>
               apply negb_true_iff, N.eqb_neq in H
           | H : (_ <=? _) = true |- _ => apply N.leb_le in H
           end.
    auto.
Qed.

(** A string of digits has a digit and nothing else. *)
Lemma only_digit_inv (s : list N) :
  only is_digit s = true ->
  existsb is_digit s = true /\ existsb is_lower s = false
  /\ existsb is_upper s = false
  /\ existsb (fun c => negb (is_alnum c)) s = false
  /\ only is_letter s = false.
Proof.
  unfold only. intros H. apply andb_true_iff in H as [Hne Hall].
  assert (G : existsb is_lower s = false /\ existsb is_upper s = false
              /\ existsb (fun c => negb (is_alnum c)) s = false
              /\ forallb is_letter s = negb (negb (Nat.eqb (length s) 0))).
  { clear Hne. induction s as [|c s IH]; [repeat split|].
    simpl in Hall. apply andb_true_iff in Hall as [Hc Hall].
    destruct (IH Hall) as (H1 & H2 & H3 & _). simpl.
    destruct (digit_not_letter c Hc) as [-> ->].
    rewrite (digit_alnum c Hc), H1, H2, H3.
    unfold is_letter. destruct (digit_not_letter c Hc) as [-> ->].
    repeat split. }
  destruct G as (H1 & H2 & H3 & H4). rewrite H4, Hne.
  repeat split; auto.
  destruct s as [|c s]; [discriminate|]. simpl in *.
  apply andb_true_iff in Hall as [-> _]. reflexivity.
Qed.

(** A string of letters has a letter and nothing else. *)
Lemma only_letter_inv (s : list N) :
  only is_letter s = true ->
  existsb is_lower s || existsb is_upper s = true
  /\ existsb is_digit s = false
  /\ existsb (fun c => negb (is_alnum c)) s = false.
Proof.
  unfold only. intros H. apply andb_true_iff in H as [Hne Hall].
  assert (G : existsb is_digit s = false
              /\ existsb (fun c => negb (is_alnum c)) s = false).
  { clear Hne. induction s as [|c s IH]; [repeat split|].
    simpl in Hall. apply andb_true_iff in Hall as [Hc Hall].
    destruct (IH Hall) as (H1 & H2). simpl.
    now rewrite (letter_not_digit c Hc), (letter_alnum c Hc), H1, H2. }
  destruct G as (H1 & H2). repeat split; auto.
  destruct s as [|c s]; [discriminate|]. simpl in *.
  apply andb_true_iff in Hall as [Hc _]. unfold is_letter in Hc.
  destruct (is_lower c), (is_upper c); try discriminate; simpl;
    rewrite ?orb_true_r; reflexivity.
Qed.

Lemma point_cases (b : bool) : (point b = if b then 1 else 0)%Z.
Proof. reflexivity. Qed.

Lemma existsb_special_not_alnum (s : list N) :
  existsb is_special s = true ->
  existsb (fun c => negb (is_alnum c)) s = true.
Proof.
  intros H. apply existsb_exists in H as (c & Hin & Hc).
  apply existsb_exists. exists c. split; [exact Hin|].
  now rewrite (special_not_alnum c Hc).
Qed.

(** *** Occurrences of a literal *)

Lemma starts_with_app (ignoreCase : bool) (p q s : list N) :
  starts_with ignoreCase (p ++ q) s = true -> starts_with ignoreCase p s = true.
Proof.
  revert s. induction p as [|x p IH]; intros s H; [reflexivity|].
  destruct s as [|c s]; [discriminate|]. simpl in *.
  apply andb_true_iff in H as [-> H]. now apply IH.
Qed.

Lemma occurs_app (ignoreCase : bool) (p q s : list N) :
  occurs ignoreCase (p ++ q) s = true -> occurs ignoreCase p s = true.
Proof.
  induction s as [|c s IH]; simpl; intros H.
  - apply orb_true_iff in H as [H|H]; [|discriminate].
    now rewrite (starts_with_app _ _ _ _ H).
  - apply orb_true_iff in H as [H|H].
    + now rewrite (starts_with_app _ _ _ _ H).
    + rewrite (IH H). apply orb_true_r.
Qed.

Lemma fold_case_dollar (c : N) : fold_case c = 36 -> c = 36.
Proof.
  unfold fold_case, is_lower.
  destruct (N.leb_spec 97 c), (N.leb_spec c 122); simpl; lia.
Qed.

Lemma occurs_head (ignoreCase : bool) (x : N) (p s : list N) :
  occurs ignoreCase (x :: p) s = true ->
  exists c, In c s /\ same ignoreCase x c = true.
Proof.
  induction s as [|c s IH]; simpl; [discriminate|].
  intros H. apply orb_true_iff in H as [H|H].
  - apply andb_true_iff in H as [H _]. exists c. auto.
  - destruct (IH H) as (c' & Hin & Hc). exists c'. auto.
Qed.

(** A literal without letters matches the same with and without the [i]
    flag. *)
Lemma same_nonletter (p c : N) :
  is_lower p || is_upper p = false -> same true p c = same false p c.
Proof.
  unfold same, fold_case, is_lower, is_upper. intros H.
  apply orb_false_iff in H as [H1 H2]. rewrite H1.
  destruct (N.leb_spec 97 c), (N.leb_spec c 122); simpl; try reflexivity.
  destruct (N.eqb_spec p (c - 32)), (N.eqb_spec p c); try reflexivity; subst.
  - destruct (N.leb_spec 65 (c - 32)), (N.leb_spec (c - 32) 90);
      simpl in H2; try congruence; exfalso; lia.
  - destruct (N.leb_spec 97 c), (N.leb_spec c 122);
      simpl in H1; try congruence; exfalso; lia.
Qed.

Lemma starts_with_nonletters (p s : list N) :
  forallb (fun x => negb (is_lower x || is_upper x)) p = true ->
  starts_with true p s = starts_with false p s.
Proof.
  revert s. induction p as [|x p IH]; intros s H; [reflexivity|].
  simpl in H. apply andb_true_iff in H as [Hx H].
  apply negb_true_iff in Hx.
  destruct s as [|c s]; [reflexivity|]. cbn [starts_with].
  now rewrite (same_nonletter x c Hx), (IH s H).
Qed.

Lemma occurs_nonletters (p s : list N) :
  forallb (fun x => negb (is_lower x || is_upper x)) p = true ->
  occurs true p s = occurs false p s.
Proof.
  intros H. induction s as [|c s IH]; cbn [occurs].
  - now rewrite (starts_with_nonletters p [] H).
  - now rewrite (starts_with_nonletters p (c :: s) H), IH.
Qed.

End PasswordFacts.

Module PasswordProperties.

Import Patterns PasswordStrength PasswordFacts.

(** X15. [validatePasswordStrength] gives a score from -2 to 7. The rating
    is [strong] exactly for a password of 16 or more characters with a
    lowercase letter, an uppercase letter, a digit and another character and
    no character three times in a row; it is [weak] exactly when [isValid]
    is false. A password of fewer than 8 characters is never valid, and a
    password that gets no advice is valid. *)
Theorem validatePasswordStrength_score (password : list N) :
  (-2 <= score (validatePasswordStrength password) <= 7)%Z
  /\ (rating (validatePasswordStrength password) = "strong" <->
      (16 <= length password)%nat
      /\ existsb is_lower password = true
      /\ existsb is_upper password = true
      /\ existsb is_digit password = true
      /\ existsb (fun c => negb (is_alnum c)) password = true
      /\ has_triple password = false)
  /\ (rating (validatePasswordStrength password) = "weak" <->
      isValid (validatePasswordStrength password) = false)
  /\ (isValid (validatePasswordStrength password) = true ->
      (8 <= length password)%nat)
  /\ (feedback (validatePasswordStrength password) = [] ->
      isValid (validatePasswordStrength password) = true).
Proof.
  unfold validatePasswordStrength. cbn [score rating feedback isValid].
  pose proof (only_digit_inv password) as HD.
  pose proof (only_letter_inv password) as HA.
  destruct (Nat.leb_spec 8 (length password)) as [L8|L8],
    (Nat.leb_spec 12 (length password)) as [L12|L12],
    (Nat.leb_spec 16 (length password)) as [L16|L16],
    (Nat.ltb_spec (length password) 12) as [L12'|L12']; try lia.
  all: destruct (only is_digit password);
    [destruct (HD eq_refl) as (-> & -> & -> & -> & ->);
     destruct (has_triple password);
     cbn; intuition (try lia; try discriminate; try congruence)
    | clear HD].
  all: destruct (only is_letter password);
    [destruct (HA eq_refl) as (HA1 & -> & ->);
     destruct (existsb is_lower password), (existsb is_upper password);
     try discriminate; destruct (has_triple password);
     cbn; intuition (try lia; try discriminate; try congruence)
    | clear HA].
  all: destruct (existsb is_lower password), (existsb is_upper password),
    (existsb is_digit password),
    (existsb (fun c => negb (is_alnum c)) password), (has_triple password).
  all: cbn; intuition (try lia; try discriminate; try congruence).
Qed.

(** X16. A password that the pattern of [isValidPassword] accepts has 8 to
    100 characters, all of them printable ASCII other than the blank, the
    two quotes and the slash, and among them a lowercase letter, an
    uppercase letter, a digit and a special character.
    [validatePasswordStrength] gives it a score of 4 or more and no advice
    other than the one on length, and finds it valid exactly when it has 12
    or more characters or no character three times in a row. *)
Theorem isValidPassword_strength (password : list N) :
  isValidPassword password = true ->
  (8 <= length password <= 100)%nat
  /\ List.Forall
       (fun c => (33 <= c <= 126)%N /\ c <> 34%N /\ c <> 39%N /\ c <> 47%N)
       password
  /\ (exists l u d x,
         In l password /\ is_lower l = true /\ In u password
         /\ is_upper u = true /\ In d password /\ is_digit d = true
         /\ In x password /\ is_special x = true)
  /\ (4 <= score (validatePasswordStrength password))%Z
  /\ feedback (validatePasswordStrength password)
     = advice (Nat.ltb (length password) 12) "Use at least 12 characters"
  /\ (isValid (validatePasswordStrength password) = true <->
      (12 <= length password)%nat \/ has_triple password = false).
Proof.
  unfold isValidPassword. intros H.
  repeat (apply andb_true_iff in H as [H ?]).
  match goal with
  | Hl : existsb is_lower _ = true, Hu : existsb is_upper _ = true,
    Hd : existsb is_digit _ = true, Hs : existsb is_special _ = true,
    H8 : Nat.leb 8 _ = true, H100 : Nat.leb _ 100 = true,
    Hall : forallb _ _ = true |- _ =>
      rename Hl into El; rename Hu into Eu; rename Hd into Ed;
      rename Hs into Es; rename H8 into E8; rename H100 into E100;
      rename Hall into Eall
  end.
  pose proof (existsb_special_not_alnum password Es) as Ex.
  split; [split; apply Nat.leb_le; assumption|].
  split.
  { apply List.Forall_forall. intros c Hc.
    rewrite forallb_forall in Eall. apply password_char_printable, Eall, Hc. }
  split.
  { apply existsb_exists in El as (l & ? & ?).
    apply existsb_exists in Eu as (u & ? & ?).
    apply existsb_exists in Ed as (d & ? & ?).
    apply existsb_exists in Es as (x & ? & ?).
    exists l, u, d, x. auto 10. }
  assert (D : only is_digit password = false).
  { destruct (only is_digit password) eqn:E; [|reflexivity].
    destruct (only_digit_inv password E) as (_ & E' & _). congruence. }
  assert (A : only is_letter password = false).
  { destruct (only is_letter password) eqn:E; [|reflexivity].
    destruct (only_letter_inv password E) as (_ & E' & _). congruence. }
  unfold validatePasswordStrength. cbn [score feedback isValid].
  rewrite El, Eu, Ed, Ex, D, A, E8.
  apply Nat.leb_le in E8.
  destruct (Nat.leb_spec 12 (length password)) as [L12|L12],
    (Nat.leb_spec 16 (length password)) as [L16|L16],
    (Nat.ltb_spec (length password) 12) as [L12'|L12']; try lia;
    destruct (has_triple password); cbn;
    intuition (try lia; try discriminate; try congruence).
Qed.

Lemma isValidPassword_strength_witness :
  (8 <= length (Sanitizer.units "Test@1234") <= 100)%nat
  /\ List.Forall
       (fun c => (33 <= c <= 126)%N /\ c <> 34%N /\ c <> 39%N /\ c <> 47%N)
       (Sanitizer.units "Test@1234")
  /\ (exists l u d x,
         In l (Sanitizer.units "Test@1234") /\ is_lower l = true
         /\ In u (Sanitizer.units "Test@1234") /\ is_upper u = true
         /\ In d (Sanitizer.units "Test@1234") /\ is_digit d = true
         /\ In x (Sanitizer.units "Test@1234") /\ is_special x = true)
  /\ (4 <= score (validatePasswordStrength (Sanitizer.units "Test@1234")))%Z
  /\ feedback (validatePasswordStrength (Sanitizer.units "Test@1234"))
     = advice (Nat.ltb (length (Sanitizer.units "Test@1234")) 12)
         "Use at least 12 characters"
  /\ (isValid (validatePasswordStrength (Sanitizer.units "Test@1234")) = true
      <-> (12 <= length (Sanitizer.units "Test@1234"))%nat
          \/ has_triple (Sanitizer.units "Test@1234") = false).
Proof.
  exact (isValidPassword_strength (Sanitizer.units "Test@1234") eq_refl).
Defined.

(** X17. Four of the six patterns of [containsPathTraversal] add nothing:
    it reports an input exactly when the input holds two dots in a row or
    the text [%2e%2e] in either case of the letter. *)
Theorem containsPathTraversal_spec (input : list N) :
  containsPathTraversal input
  = occurs false (Sanitizer.units "..") input
    || occurs true (Sanitizer.units "%2e%2e") input.
Proof.
  unfold containsPathTraversal, pathPatterns. cbn [existsb fst snd].
  rewrite orb_false_r.
  destruct (occurs false (Sanitizer.units "..") input) eqn:E1;
    [reflexivity|]. cbn [orb].
  destruct (occurs false (Sanitizer.units "..\") input) eqn:E2.
  { now rewrite (occurs_app false (Sanitizer.units "..") (Sanitizer.units "\")
                   input E2) in E1. }
  destruct (occurs false (Sanitizer.units "../") input) eqn:E3.
  { now rewrite (occurs_app false (Sanitizer.units "..") (Sanitizer.units "/")
                   input E3) in E1. }
  cbn [orb].
  destruct (occurs true (Sanitizer.units "%2e%2e") input) eqn:E4;
    [reflexivity|]. cbn [orb].
  destruct (occurs true (Sanitizer.units "..%2f") input) eqn:E5.
  { pose proof (occurs_app true (Sanitizer.units "..") (Sanitizer.units "%2f")
                  input E5) as E.
    rewrite (occurs_nonletters (Sanitizer.units "..") input eq_refl) in E.
    congruence. }
  destruct (occurs true (Sanitizer.units "%2e%2e%2f") input) eqn:E6;
    [|reflexivity].
  now rewrite (occurs_app true (Sanitizer.units "%2e%2e")
                 (Sanitizer.units "%2f") input E6) in E4.
Qed.

(** X18. [containsNoSQLInjection] reports only inputs that hold a dollar
    sign, and the patterns for [$gte] and [$lte] add nothing to those for
    [$gt] and [$lt]. *)
Theorem containsNoSQLInjection_needs_dollar (input : list N) :
  (containsNoSQLInjection input = true -> In 36%N input)
  /\ containsNoSQLInjection input
     = existsb (fun p => occurs true p input)
         (map Sanitizer.units
            [ "$where"; "$ne"; "$gt"; "$lt"; "$regex"; "$or"; "$and"; "$not";
              "$nor"; "$exists" ]).
Proof.
  split.
  - unfold containsNoSQLInjection. intros H.
    apply existsb_exists in H as (p & Hp & H).
    assert (exists rest, p = 36%N :: rest) as [rest ->].
    { unfold noSqlPatterns in Hp. cbn in Hp.
      repeat (destruct Hp as [<-|Hp]; [eexists; reflexivity|]).
      destruct Hp. }
    apply occurs_head in H as (c & Hin & Hc).
    unfold same in Hc. change (fold_case 36%N) with 36%N in Hc.
    apply N.eqb_eq in Hc. symmetry in Hc.
    apply fold_case_dollar in Hc. now subst.
  - unfold containsNoSQLInjection, noSqlPatterns. cbn [map existsb].
    destruct (occurs true (Sanitizer.units "$where") input); [reflexivity|].
    destruct (occurs true (Sanitizer.units "$ne") input); [reflexivity|].
    destruct (occurs true (Sanitizer.units "$gt") input) eqn:E1;
      [reflexivity|].
    destruct (occurs true (Sanitizer.units "$gte") input) eqn:E2.
    { now rewrite (occurs_app true (Sanitizer.units "$gt")
                     (Sanitizer.units "e") input E2) in E1. }
    destruct (occurs true (Sanitizer.units "$lt") input) eqn:E3;
      [reflexivity|].
    destruct (occurs true (Sanitizer.units "$lte") input) eqn:E4.
    { now rewrite (occurs_app true (Sanitizer.units "$lt")
                     (Sanitizer.units "e") input E4) in E3. }
    reflexivity.
Qed.

End PasswordProperties.

(** ** More on the sanitizer *)

Module SanitizerFixedPoints.

Import Sanitizer SanitizerFacts.

Local Open Scope N_scope.

Lemma filter_keeps_all {A : Type} (f : A -> bool) (l : list A) :
  forallb f l = true -> List.filter f l = l.
Proof.
  induction l as [|x l IH]; simpl; [reflexivity|].
  intros H. apply andb_true_iff in H as [-> H]. now rewrite IH.
Qed.

Lemma filter_sublist {A : Type} (f : A -> bool) (l : list A) :
  sublist (List.filter f l) l.
Proof.
  induction l as [|x l IH]; simpl; [constructor|].
  destruct (f x); now constructor.
Qed.

Lemma strip_tags_sublist (inTag : bool) (s : list N) :
  sublist (strip_tags inTag s) s.
Proof.
  revert inTag. induction s as [|c s IH]; intros inTag; simpl; [constructor|].
  destruct inTag.
  - destruct (c =? GT); constructor; apply IH.
  - destruct ((c =? LT) && has_gt s); constructor; apply IH.
Qed.

Lemma strip_tags_no_lt (s : list N) :
  forallb (fun c => negb (c =? LT)) s = true -> strip_tags false s = s.
Proof.
  induction s as [|c s IH]; simpl; [reflexivity|].
  intros H. apply andb_true_iff in H as [Hc H].
  apply negb_true_iff in Hc. rewrite Hc. simpl. now rewrite IH.
Qed.

Lemma trimStart_sublist (s : list N) : sublist (trimStart s) s.
Proof.
  destruct (trimStart_suffix s) as [d Hd]. rewrite Hd at 2.
  now apply sublist_inserts_l.
Qed.

Lemma trimEnd_sublist (s : list N) : sublist (trimEnd s) s.
Proof.
  destruct (trimEnd_prefix s) as [d Hd]. rewrite Hd at 2.
  now apply sublist_inserts_r.
Qed.

Lemma trimStart_fixed (s : list N) :
  (forall c, head s = Some c -> is_white c = false) -> trimStart s = s.
Proof.
  destruct s as [|c s]; [reflexivity|]. intros H. simpl.
  now rewrite (H c eq_refl).
Qed.

Lemma trimEnd_fixed (s : list N) :
  (forall c, last s = Some c -> is_white c = false) -> trimEnd s = s.
Proof.
  intros H. unfold trimEnd. rewrite trimStart_fixed.
  - apply reverse_involutive.
  - intros c Hc. apply H. now rewrite <- head_reverse.
Qed.

Lemma clean_fixed (s : list N) :
  Forall (fun c => forbidden c = false) s ->
  strip_amp_parens (strip_angles (strip_tags false s)) = s.
Proof.
  intros H.
  assert (A : forall c, In c s -> forbidden c = false).
  { intros c Hc. rewrite Forall_forall in H. apply H.
    now apply list_elem_of_In. }
  rewrite strip_tags_no_lt.
  2:{ apply forallb_forall. intros c Hc. specialize (A c Hc).
      unfold forbidden in A. repeat (apply orb_false_iff in A as [A ?]).
      now rewrite A. }
  unfold strip_angles. rewrite filter_keeps_all.
  2:{ apply forallb_forall. intros c Hc. specialize (A c Hc).
      unfold forbidden in A. apply orb_false_iff in A as [A _].
      apply orb_false_iff in A as [A _]. apply orb_false_iff in A as [A _].
      now rewrite A. }
  unfold strip_amp_parens. apply filter_keeps_all.
  apply forallb_forall. intros c Hc. specialize (A c Hc).
  unfold forbidden in A. apply orb_false_iff in A as [A A5].
  apply orb_false_iff in A as [A A4]. apply orb_false_iff in A as [A A3].
  now rewrite A3, A4, A5.
Qed.

End SanitizerFixedPoints.

Module SanitizerProperties.

Import Sanitizer SanitizerFacts SanitizerFixedPoints.

(** X19. [sanitizeInput] only deletes: its result is a subsequence of the
    input. The strings it returns unchanged are exactly those that hold
    none of [<], [>], [&], [(], [)] and neither start nor end with white
    space, so sanitizing a second time changes nothing. *)
Theorem sanitizeInput_fixed_points :
  (forall s, sublist (sanitizeInput (VString s)) s)
  /\ (forall s,
        sanitizeInput (VString s) = s <->
        Forall (fun c => forbidden c = false) s
        /\ (forall c, head s = Some c -> is_white c = false)
        /\ (forall c, last s = Some c -> is_white c = false))
  /\ (forall input,
        sanitizeInput (VString (sanitizeInput input)) = sanitizeInput input).
Proof.
  assert (Hfix : forall s,
             Forall (fun c => forbidden c = false) s ->
             (forall c, head s = Some c -> is_white c = false) ->
             (forall c, last s = Some c -> is_white c = false) ->
             sanitizeInput (VString s) = s).
  { intros s H1 H2 H3. unfold sanitizeInput. rewrite (clean_fixed s H1).
    unfold trim. rewrite (trimStart_fixed s H2). now apply trimEnd_fixed. }
  assert (Hout : forall s,
             Forall (fun c => forbidden c = false) (sanitizeInput (VString s))
             /\ (forall c, head (sanitizeInput (VString s)) = Some c ->
                           is_white c = false)
             /\ (forall c, last (sanitizeInput (VString s)) = Some c ->
                           is_white c = false)).
  { intros s. unfold sanitizeInput. split; [|split].
    - apply trim_sublist, strip_amp_parens_clean, strip_angles_clean.
    - intros c. apply trim_head.
    - intros c. apply trim_last. }
  split; [|split].
  - intros s. unfold sanitizeInput, trim.
    etransitivity; [apply trimEnd_sublist|].
    etransitivity; [apply trimStart_sublist|].
    etransitivity; [apply filter_sublist|].
    etransitivity; [apply filter_sublist|].
    apply strip_tags_sublist.
  - intros s. split.
    + intros E. rewrite <- E. apply Hout.
    + intros (H1 & H2 & H3). now apply Hfix.
  - intros input.
    destruct input as [| | b | n | s |]; try reflexivity.
    destruct (Hout s) as (H1 & H2 & H3). now apply Hfix.
Qed.

End SanitizerProperties.

(** ** Random tokens *)

Module SecureTokenProperties.

Import SecureToken.

(** X20. [generateSecureToken] returns two lowercase hexadecimal digits for
    each random byte, 64 characters when no length is given;
    [generatePasswordResetToken] returns such a token of 64 characters and
    an expiry one hour after the clock reading. *)
Theorem generateSecureToken_format
    (length : option nat) (e : PasswordService.Entropy) (now : Z) :
  String.length (generateSecureToken length e) = 2 * default 32 length
  /\ Validators.all_chars is_lower_hex (generateSecureToken length e) = true
  /\ String.length (generatePasswordResetToken e now).1 = 64
  /\ Validators.all_chars is_lower_hex (generatePasswordResetToken e now).1
     = true
  /\ ((generatePasswordResetToken e now).2 - now = 3600000)%Z.
Proof.
  assert (Hlen : forall bytes, String.length (hex bytes) = 2 * List.length bytes).
  { induction bytes as [|b bytes IH]; simpl; [reflexivity|]. rewrite IH. lia. }
  assert (Hhex : forall bytes, Validators.all_chars is_lower_hex (hex bytes) = true).
  { induction bytes as [|b bytes IH]; [reflexivity|].
    cbn [hex Validators.all_chars]. rewrite IH.
    destruct b; reflexivity. }
  assert (Hn : forall n, List.length (PasswordService.randomBytes n e) = n).
  { intros n. unfold PasswordService.randomBytes.
    now rewrite List.length_map, List.length_seq. }
  unfold generatePasswordResetToken, generateSecureToken. cbn [fst snd].
  rewrite !Hlen, !Hhex, !Hn. repeat split. lia.
Qed.

End SecureTokenProperties.

(** ** The Argon2id password service *)

Module EnhancedFacts.

Import PasswordServiceEnhanced StringFacts.

Lemma stub_argon2_verifies_own_hashes :
  Cases.argon2_verifies_own_hashes Cases.argon2_hash Cases.argon2_verify.
Proof.
  intros plain options salt h. unfold Cases.argon2_hash, Cases.argon2_verify.
  intros E. assert (Eh : h = ("$argon2id$" +:+ Base64.encode salt +:+ "$")
                             +:+ plain).
  { rewrite !append_assoc. congruence. }
  clear E. subst h. rewrite length_append.
  replace (String.length ("$argon2id$" +:+ Base64.encode salt +:+ "$")
           + String.length plain - String.length plain)
    with (String.length ("$argon2id$" +:+ Base64.encode salt +:+ "$")) by lia.
  rewrite substring_tail by reflexivity. rewrite String.eqb_refl.
  rewrite !append_assoc. now rewrite prefix_append.
Qed.

End EnhancedFacts.

Module EnhancedProperties.

Import PasswordServiceEnhanced EnhancedFacts.

(** X21. In the Argon2id service a password verifies against the hash that
    [hashPassword] made of it, whatever is passed for the salt, which
    [verifyPassword] does not read; the salt [hashPassword] returns is the
    base64 text of the 32 random bytes it drew; and [verifyPassword] never
    throws: an error inside it is answered [false]. *)
Theorem enhanced_hash_then_verify
    (argon2_hash : string -> Argon2Options -> list byte -> result string)
    (argon2_verify : string -> string -> result bool)
    (env : Process.Env) (password : string) (e : PasswordService.Entropy)
    (cred : PasswordService.Credential) :
  Cases.argon2_verifies_own_hashes argon2_hash argon2_verify ->
  hashPassword argon2_hash env password e = Ok cred ->
  (forall salt,
      verifyPassword argon2_verify env password
        (PasswordService.hash cred) salt = Ok true)
  /\ PasswordService.salt cred
     = Base64.encode (PasswordService.randomBytes 32 e)
  /\ (forall candidate hash salt,
        returns (verifyPassword argon2_verify env candidate hash salt) = true)
  /\ (forall candidate hash salt error,
        argon2_verify hash (candidate +:+ pepper env) = Throw error ->
        verifyPassword argon2_verify env candidate hash salt = Ok false).
Proof.
  intros Hok Hh. unfold hashPassword, try_catch, bind in Hh.
  destruct (argon2_hash (password +:+ pepper env) argon2Options
              (PasswordService.randomBytes 32 e)) as [h|err] eqn:E;
    [|discriminate].
  injection Hh as <-. cbn [PasswordService.hash PasswordService.salt].
  split; [|split; [reflexivity|split]].
  - intros salt. unfold verifyPassword, try_catch, bind.
    now rewrite (Hok _ _ _ _ E).
  - intros candidate hash salt. unfold verifyPassword, try_catch, bind.
    now destruct (argon2_verify hash (candidate +:+ pepper env)).
  - intros candidate hash salt error Ht.
    unfold verifyPassword, try_catch, bind. now rewrite Ht.
Qed.

Lemma enhanced_hash_then_verify_witness :
  (forall salt,
      verifyPassword Cases.argon2_verify Scenario.env0 "Test@1234"
        ("$argon2id$"
           +:+ Base64.encode (PasswordService.randomBytes 32 Scenario.entropy0)
           +:+ "$" +:+ "Test@1234" +:+ pepper Scenario.env0)
        salt = Ok true)
  /\ Base64.encode (PasswordService.randomBytes 32 Scenario.entropy0)
     = Base64.encode (PasswordService.randomBytes 32 Scenario.entropy0)
  /\ (forall candidate hash salt,
        returns (verifyPassword Cases.argon2_verify Scenario.env0 candidate
                   hash salt) = true)
  /\ (forall candidate hash salt error,
        Cases.argon2_verify hash (candidate +:+ pepper Scenario.env0)
        = Throw error ->
        verifyPassword Cases.argon2_verify Scenario.env0 candidate hash salt
        = Ok false).
Proof.
  exact (enhanced_hash_then_verify Cases.argon2_hash Cases.argon2_verify
           Scenario.env0 "Test@1234" Scenario.entropy0
           {| PasswordService.hash :=
                "$argon2id$"
                  +:+ Base64.encode
                        (PasswordService.randomBytes 32 Scenario.entropy0)
                  +:+ "$" +:+ "Test@1234" +:+ pepper Scenario.env0;
              PasswordService.salt :=
                Base64.encode
                  (PasswordService.randomBytes 32 Scenario.entropy0) |}
           stub_argon2_verifies_own_hashes eq_refl).
Defined.

End EnhancedProperties.

(** ** The token service without its secret *)

Module SecretFacts.

Import Jsonwebtoken TokenService.

Section WithPrimitives.

Variable P : Primitives.
Variable env : Process.Env.

Lemma generateToken_without_secret (payload : Payload) (now : Z) :
  truthy (Process.JWT_SECRET env) = false ->
  returns (generateToken P env payload now) = false.
Proof.
  unfold generateToken, sign, truthy.
  destruct (Process.JWT_SECRET env) as [secret|]; [|reflexivity].
  destruct (String.eqb secret ""); [reflexivity | discriminate].
Qed.

Lemma verify_without_secret (token : string) (now : Z) :
  truthy (Process.JWT_SECRET env) = false ->
  verifyToken P env token now = None.
Proof.
  intros Hs. unfold verifyToken, verify. rewrite Hs.
  destruct (String.eqb token ""); [reflexivity|].
  destruct (split_dots token) as [|h [|p [|signature [|x rest]]]];
    try reflexivity.
  destruct (decodeHeader P h); [|reflexivity].
  destruct (decodeClaims P p); [|reflexivity].
  now destruct (blank signature).
Qed.

End WithPrimitives.

End SecretFacts.

Module SecretProperties.

Import SecretFacts.

(** X22. When [JWT_SECRET] is unset or empty, [generateToken] throws for
    every payload, [verifyToken] returns [null] for every token, and
    [authenticateToken] answers every request 401. *)
Theorem token_service_without_secret
    (P : Jsonwebtoken.Primitives) (env : Process.Env) :
  truthy (Process.JWT_SECRET env) = false ->
  (forall payload now,
      returns (TokenService.generateToken P env payload now) = false)
  /\ (forall token now, TokenService.verifyToken P env token now = None)
  /\ (forall authorization now,
        exists message,
          Auth.authenticateToken P env authorization now
          = Auth.Respond 401 message).
Proof.
  intros Hs. split; [|split].
  - intros payload now. now apply generateToken_without_secret.
  - intros token now. now apply verify_without_secret.
  - intros authorization now. unfold Auth.authenticateToken.
    destruct (TokenService.extractTokenFromHeader authorization) as [token|];
      [|eauto].
    destruct (String.eqb token ""); [eauto|].
    rewrite (verify_without_secret P env token now Hs). eauto.
Qed.

Lemma token_service_without_secret_witness :
  (forall payload now,
      returns (TokenService.generateToken JwtStub.primitives
                 Cases.env_no_secret payload now) = false)
  /\ (forall token now,
        TokenService.verifyToken JwtStub.primitives Cases.env_no_secret
          token now = None)
  /\ (forall authorization now,
        exists message,
          Auth.authenticateToken JwtStub.primitives Cases.env_no_secret
            authorization now
          = Auth.Respond 401 message).
Proof.
  exact (token_service_without_secret JwtStub.primitives Cases.env_no_secret
           eq_refl).
Defined.

(** X23. The customer login saves the customer document, with the new
    [lastLoginAt] and [updatedAt], and records the [login_success] event
    before it asks for the token: when [generateToken] throws, a login with
    the right password is answered 500 although the customer document is
    saved and, when the account number of the body is a value the audit
    schema can store, the audit collection has the success event. *)
Theorem login_records_success_before_token
    (bcrypt_compare : string -> string -> result bool)
    (P : Jsonwebtoken.Primitives) (env : Process.Env)
    (w : CustomerAuth.World) (req : CustomerAuth.Request) (now : Z)
    (customer : CustomerAuth.Customer) :
  CustomerAuth.well_formed req = true ->
  CustomerAuth.lookup w req = Ok (Some customer) ->
  CustomerAuth.verify bcrypt_compare (CustomerAuth.body_password req)
    (CustomerAuth.passwordHash customer) (CustomerAuth.passwordSalt customer)
  = Ok true ->
  CustomerAuth.save_throws w = false ->
  AuditLog.accepts_writes (CustomerAuth.auditLog w) = true ->
  returns (TokenService.generateToken P env
             {| TokenService.p_userId := Some (CustomerAuth._id customer);
                TokenService.p_username := Some (CustomerAuth.username customer);
                TokenService.p_userType := Some "customer" |} now) = false ->
  (CustomerAuth.login bcrypt_compare P env w req now).2
  = CustomerAuth.internal_error
  /\ In (CustomerAuth.stamp (CustomerAuth.touch customer now) now)
       (CustomerAuth.customers
          (CustomerAuth.login bcrypt_compare P env w req now).1)
  /\ (Body.recordable (CustomerAuth.body_accountNumber req) = true ->
      exists ev,
        AuditLog.documents
          (CustomerAuth.auditLog
             (CustomerAuth.login bcrypt_compare P env w req now).1)
        = AuditLog.documents (CustomerAuth.auditLog w) ++ [ev]
        /\ AuditLog.eventType ev = AuditLog.login_success
        /\ AuditLog.username ev = CustomerAuth.username customer).
Proof.
  intros Hwf Hf Hv Hs Hw Ht.
  pose proof (CustomerLoginFacts.lookup_some w _ _ Hf) as [Hin _].
  apply CustomerAuthFacts.well_formed_checks in Hwf as [H1 H2].
  unfold CustomerAuth.login. rewrite H1, H2, Hf, Hv.
  unfold CustomerAuth.save. rewrite Hs.
  destruct (TokenService.generateToken _ _ _ _) as [token|err];
    [discriminate|].
  cbn [fst snd CustomerAuth.with_audit CustomerAuth.auditLog
       CustomerAuth.customers].
  split; [reflexivity|]. split.
  - apply in_map_iff. exists customer. split; [|exact Hin].
    cbn [CustomerAuth.stamp CustomerAuth.touch CustomerAuth._id].
    now rewrite String.eqb_refl.
  - intros Ha.
    destruct (CustomerAuthFacts.succeeded_appends (CustomerAuth.auditLog w) req
                (or_else (CustomerAuth.user_agent req) "unknown")
                (CustomerAuth.username customer) now Hw Ha)
      as (ev & Hd & He & _ & Hu).
    exists ev. auto.
Qed.

Lemma login_records_success_before_token_witness :
  (CustomerAuth.login BcryptStub.compare JwtStub.primitives
     Cases.env_no_secret Scenario.world0 Scenario.request_ok Scenario.now0).2
  = CustomerAuth.internal_error
  /\ In (CustomerAuth.stamp
           (CustomerAuth.touch Scenario.customer0 Scenario.now0) Scenario.now0)
       (CustomerAuth.customers
          (CustomerAuth.login BcryptStub.compare JwtStub.primitives
             Cases.env_no_secret Scenario.world0 Scenario.request_ok
             Scenario.now0).1)
  /\ (Body.recordable (CustomerAuth.body_accountNumber Scenario.request_ok)
      = true ->
      exists ev,
        AuditLog.documents
          (CustomerAuth.auditLog
             (CustomerAuth.login BcryptStub.compare JwtStub.primitives
                Cases.env_no_secret Scenario.world0 Scenario.request_ok
                Scenario.now0).1)
        = AuditLog.documents (CustomerAuth.auditLog Scenario.world0) ++ [ev]
        /\ AuditLog.eventType ev = AuditLog.login_success
        /\ AuditLog.username ev = CustomerAuth.username Scenario.customer0).
Proof.
  exact (login_records_success_before_token BcryptStub.compare
           JwtStub.primitives Cases.env_no_secret Scenario.world0
           Scenario.request_ok Scenario.now0 Scenario.customer0
           eq_refl eq_refl eq_refl eq_refl eq_refl eq_refl).
Defined.

End SecretProperties.

(** ** The employee portal *)

Module PortalFacts.

Import EmployeePortal.

Lemma status_eqb_spec (a b : Status) : status_eqb a b = true <-> a = b.
Proof. destruct a, b; split; (reflexivity || discriminate). Qed.

Lemma reachable_step (a b c : Status) :
  reachable a b = true -> allowed b c = true -> reachable a c = true.
Proof. destruct a, b, c; (reflexivity || discriminate). Qed.

Lemma same_order_refl (p : Payment) : same_order p p.
Proof. repeat split. Qed.

Lemma same_order_trans (p q r : Payment) :
  same_order p q -> same_order q r -> same_order p r.
Proof. unfold same_order. intuition congruence. Qed.

Lemma Forall2_same {A : Type} (R : A -> A -> Prop) (l : list A) :
  (forall d, R d d) -> Forall2 R l l.
Proof. intros H. induction l; constructor; auto. Qed.

Lemma Forall2_compose {A : Type} (R S T : A -> A -> Prop) (l1 l2 l3 : list A) :
  (forall a b c, R a b -> S b c -> T a c) ->
  Forall2 R l1 l2 -> Forall2 S l2 l3 -> Forall2 T l1 l3.
Proof.
  intros H H1. revert l3. induction H1 as [|a b l1 l2 Hab _ IH];
    intros l3 H2; inversion H2; subst; constructor; eauto.
Qed.

Lemma Forall2_map_each {A : Type} (R : A -> A -> Prop) (g : A -> A)
    (l : list A) :
  (forall d, R d (g d)) -> Forall2 R l (map g l).
Proof. intros H. induction l; simpl; constructor; auto. Qed.

Lemma find_by_id (x : string) (l : list Payment) (p : Payment) :
  List.find (fun d => String.eqb (_id d) x) l = Some p ->
  In p l /\ _id p = x.
Proof.
  intros H. apply find_some in H as [Hin H]. now apply String.eqb_eq in H.
Qed.

(** Saving a copy of the document found replaces that document. *)
Lemma replace_found (x : string) (l : list Payment) (p p' : Payment) :
  List.find (fun d => String.eqb (_id d) x) l = Some p -> _id p' = x ->
  Forall2 (fun d d' => d' = d \/ (d = p /\ d' = p')) l (replace_first p' l)
  /\ List.find (fun d => String.eqb (_id d) x) (replace_first p' l) = Some p'
  /\ In p' (replace_first p' l).
Proof.
  intros Hf Hid. induction l as [|d l IH]; [discriminate|].
  cbn [List.find replace_first] in *. rewrite Hid.
  destruct (String.eqb (_id d) x) eqn:E.
  - injection Hf as ->. split; [|split].
    + constructor; [now right|]. apply Forall2_same. now left.
    + cbn [List.find]. rewrite Hid, String.eqb_refl. reflexivity.
    + now left.
  - destruct (IH Hf) as (H1 & H2 & H3). split; [|split].
    + constructor; [now left | exact H1].
    + cbn [List.find]. now rewrite E.
    + now right.
Qed.

(** The two ways a decision ends. *)
Lemma decide_cases (outcome : Status) (verb done : string) (db : Db)
    (user : Auth.User) (paymentId : option string) (now : Z) :
  ((decide outcome verb done db user paymentId now).1 = db
   /\ In (code (decide outcome verb done db user paymentId now).2)
        [400; 404; 500]
   /\ exists m,
       json (decide outcome verb done db user paymentId now).2 = Failure m)
  \/ (exists payment,
         isValidObjectId paymentId = true
         /\ find_throws db = false
         /\ List.find
              (fun d => String.eqb (_id d)
                          (Validators.toLowerCase (to_string paymentId)))
              (payments db) = Some payment
         /\ status payment = Pending
         /\ save_throws db = false
         /\ decide outcome verb done db user paymentId now
            = (set_payments db
                 (replace_first (decide_payment payment outcome user now)
                    (payments db)),
               {| code := 200;
                  json := Changed ("Payment " +:+ done +:+ " successfully")
                            (decide_payment payment outcome user now) |})).
Proof.
  unfold decide, findById, save.
  destruct (isValidObjectId paymentId); cbn [negb];
    [|left; cbn; eauto 10].
  destruct (find_throws db); [left; cbn; eauto 10|].
  destruct (List.find _ (payments db)) as [payment|] eqn:Hf;
    [|left; cbn; eauto 10].
  destruct (status_eqb (status payment) Pending) eqn:Hs; cbn [negb];
    [|left; cbn; eauto 10].
  apply status_eqb_spec in Hs.
  destruct (save_throws db); [left; cbn; eauto 10|].
  right. exists payment. auto 10.
Qed.

(** What one decision does to the collection. *)
Lemma decide_step (outcome : Status) (verb done : string) (db : Db)
    (user : Auth.User) (paymentId : option string) (now : Z) :
  Forall2
    (fun p p' => p' = p
                 \/ (status p = Pending
                     /\ p' = decide_payment p outcome user now))
    (payments db)
    (payments (decide outcome verb done db user paymentId now).1).
Proof.
  destruct (decide_cases outcome verb done db user paymentId now)
    as [(-> & _) | (payment & _ & _ & Hf & Hs & _ & ->)].
  - apply Forall2_same. now left.
  - cbn [fst set_payments payments].
    destruct (replace_found _ _ payment
                (decide_payment payment outcome user now) Hf) as (H & _).
    { apply find_by_id in Hf as [_ Hid]. exact Hid. }
    eapply Forall2_impl; [exact H|]. cbn beta.
    intros d d' [->|[-> ->]]; auto.
Qed.

Lemma submit_step (db : Db) (now : Z) :
  Forall2
    (fun p p' => p' = p
                 \/ (status p = Verified /\ p' = submit_payment p now))
    (payments db) (payments (submitToSwift db now).1).
Proof.
  unfold submitToSwift.
  destruct (find_throws db); [apply Forall2_same; now left|].
  destruct (Nat.eqb _ 0); [apply Forall2_same; now left|].
  destruct (update_throws db); [apply Forall2_same; now left|].
  cbn [fst set_payments payments]. apply Forall2_map_each. intros p.
  unfold is_verified. destruct (status_eqb (status p) Verified) eqn:E; auto.
  apply status_eqb_spec in E. auto.
Qed.

(** What one request does to each payment. *)
Lemma perform_step (db : Db) (op : Operation) (now : Z) :
  Forall2
    (fun p p' =>
       p' = p
       \/ (status p = Pending
           /\ exists outcome user,
               (outcome = Verified \/ outcome = Rejected)
               /\ p' = decide_payment p outcome user now)
       \/ (status p = Verified /\ p' = submit_payment p now))
    (payments db) (payments (perform db op now).1).
Proof.
  destruct op as [user paymentId | user paymentId reason |]; cbn [perform].
  - eapply Forall2_impl; [apply decide_step|]. cbn beta.
    intros p p' [->|[Hs ->]]; [now left|]. right. left. eauto 10.
  - eapply Forall2_impl; [apply decide_step|]. cbn beta.
    intros p p' [->|[Hs ->]]; [now left|]. right. left. eauto 10.
  - eapply Forall2_impl; [apply submit_step|]. cbn beta.
    intros p p' [->|[Hs ->]]; [now left|]. right. right. auto.
Qed.

(** The effects of one decision. *)
Lemma decide_effects (outcome : Status) (verb done : string) (db : Db)
    (user : Auth.User) (paymentId : option string) (now : Z) :
  In (code (decide outcome verb done db user paymentId now).2)
    [200; 400; 404; 500]
  /\ (code (decide outcome verb done db user paymentId now).2 <> 200 ->
      (decide outcome verb done db user paymentId now).1 = db)
  /\ (code (decide outcome verb done db user paymentId now).2 = 200 ->
      exists payment,
        In payment (payments db)
        /\ _id payment = Validators.toLowerCase (to_string paymentId)
        /\ status payment = Pending
        /\ json (decide outcome verb done db user paymentId now).2
           = Changed ("Payment " +:+ done +:+ " successfully")
               (decide_payment payment outcome user now)
        /\ In (decide_payment payment outcome user now)
             (payments (decide outcome verb done db user paymentId now).1))
  /\ Forall2
       (fun p p' => p' = p
                    \/ (status p = Pending
                        /\ p' = decide_payment p outcome user now))
       (payments db)
       (payments (decide outcome verb done db user paymentId now).1).
Proof.
  split; [|split; [|split; [|apply decide_step]]];
    destruct (decide_cases outcome verb done db user paymentId now)
      as [(Hdb & Hc & m & Hj) | (payment & _ & _ & Hf & Hs & _ & E)].
  - simpl in Hc. simpl. tauto.
  - rewrite E. simpl. auto.
  - auto.
  - rewrite E. cbn [snd code]. congruence.
  - intros H200. rewrite H200 in Hc. simpl in Hc.
    destruct Hc as [?|[?|[?|[]]]]; discriminate.
  - intros _. exists payment. pose proof (find_by_id _ _ _ Hf) as [Hin Hid].
    rewrite E. cbn [fst snd json set_payments payments].
    repeat split; auto.
    now apply (replace_found _ _ payment _ Hf).
Qed.

End PortalFacts.

Module PortalProperties.

Import EmployeePortal PortalFacts.

(** X24. POST /verify-payment and POST /reject-payment answer 200, 400, 404
    or 500. An answer other than 200 leaves the database as it was. An
    answer 200 means that the payment with the given identifier was
    [Pending]; it is returned with the new status, the [userId] and
    [username] of the employee and the time of the request, and so stored.
    No other payment changes, and the [reason] sent with a rejection is not
    used. *)
Theorem decision_effects (db : Db) (user : Auth.User)
    (paymentId reason : option string) (now : Z) :
  (In (code (verifyPayment db user paymentId now).2) [200; 400; 404; 500]
   /\ (code (verifyPayment db user paymentId now).2 <> 200 ->
       (verifyPayment db user paymentId now).1 = db)
   /\ (code (verifyPayment db user paymentId now).2 = 200 ->
       exists payment,
         In payment (payments db)
         /\ _id payment = Validators.toLowerCase (to_string paymentId)
         /\ status payment = Pending
         /\ json (verifyPayment db user paymentId now).2
            = Changed "Payment verified successfully"
                (decide_payment payment Verified user now)
         /\ In (decide_payment payment Verified user now)
              (payments (verifyPayment db user paymentId now).1))
   /\ Forall2
        (fun p p' => p' = p
                     \/ (status p = Pending
                         /\ p' = decide_payment p Verified user now))
        (payments db) (payments (verifyPayment db user paymentId now).1))
  /\ (In (code (rejectPayment db user paymentId reason now).2)
        [200; 400; 404; 500]
      /\ (code (rejectPayment db user paymentId reason now).2 <> 200 ->
          (rejectPayment db user paymentId reason now).1 = db)
      /\ (code (rejectPayment db user paymentId reason now).2 = 200 ->
          exists payment,
            In payment (payments db)
            /\ _id payment = Validators.toLowerCase (to_string paymentId)
            /\ status payment = Pending
            /\ json (rejectPayment db user paymentId reason now).2
               = Changed "Payment rejected successfully"
                   (decide_payment payment Rejected user now)
            /\ In (decide_payment payment Rejected user now)
                 (payments (rejectPayment db user paymentId reason now).1))
      /\ Forall2
           (fun p p' => p' = p
                        \/ (status p = Pending
                            /\ p' = decide_payment p Rejected user now))
           (payments db)
           (payments (rejectPayment db user paymentId reason now).1))
  /\ (forall other,
        rejectPayment db user paymentId other now
        = rejectPayment db user paymentId reason now).
Proof.
  split; [|split].
  - exact (decide_effects Verified "verify" "verified" db user paymentId now).
  - exact (decide_effects Rejected "reject" "rejected" db user paymentId now).
  - reflexivity.
Qed.

(** X25. Whatever requests the portal serves, in whatever order and with
    whatever database failures in between, every payment keeps its place,
    its identifier, customer, amount, currency, provider, payee and SWIFT
    code; its status only moves from [Pending] to [Verified] or [Rejected]
    and from [Verified] to [Submitted], so [Rejected], [Submitted] and
    [Completed] are final; the record of who decided and when is written
    once, when the payment leaves [Pending], and a payment that has left
    [Pending] carries the time of that decision. *)
Theorem portal_workflow
    (db : Db) (ops : list (Operation * Z * (bool * bool * bool))) :
  Forall2
    (fun p p' =>
       same_order p p'
       /\ reachable (status p) (status p') = true
       /\ (status p <> Pending ->
           verifiedBy p' = verifiedBy p
           /\ verifiedByUsername p' = verifiedByUsername p
           /\ verifiedAt p' = verifiedAt p)
       /\ (status p = Pending -> status p' <> Pending ->
           is_Some (verifiedAt p')))
    (payments db) (payments (run db ops)).
Proof.
  revert db. induction ops as [|[[op now] [[f s] u]] ops IH]; intros db.
  - apply Forall2_same. intros p. split; [apply same_order_refl|].
    split; [now destruct (status p)|]. split; [auto | congruence].
  - cbn [run].
    set (db0 := {| payments := payments db; find_throws := f;
                   save_throws := s; update_throws := u |}).
    eapply Forall2_compose;
      [|exact (perform_step db0 op now) | exact (IH (perform db0 op now).1)].
    cbn beta. clear. intros a b c Hab (Ho & Hr & Hk & Hv).
    destruct Hab as [-> | [(Ha & outcome & user & Hout & ->)
                          | (Ha & ->)]].
    + auto.
    + cbn [status decide_payment verifiedAt verifiedBy verifiedByUsername] in *.
      split; [|split; [|split]].
      * eapply same_order_trans; [|exact Ho]. repeat split.
      * rewrite Ha. destruct Hout as [-> | ->], (status c);
          (reflexivity || discriminate).
      * congruence.
      * intros _ _. destruct Hk as (_ & _ & ->); [|eauto].
        destruct Hout as [-> | ->]; discriminate.
    + cbn [status submit_payment verifiedAt verifiedBy verifiedByUsername] in *.
      split; [|split; [|split]].
      * eapply same_order_trans; [|exact Ho]. repeat split.
      * rewrite Ha. destruct (status c); (reflexivity || discriminate).
      * intros _. apply Hk. discriminate.
      * congruence.
Qed.

(** X26. POST /submit-to-swift answers 200 exactly when the database
    responds and holds a [Verified] payment. Then every payment that was
    [Verified] is [Submitted] with the time of the request, all others are
    as they were, no [Verified] payment is left, and the count in the answer
    is the number of payments submitted; a second request right after is
    answered 400. Any other answer leaves the database as it was. *)
Theorem submitToSwift_effects (db : Db) (now : Z) :
  (code (submitToSwift db now).2 = 200 <->
   find_throws db = false /\ update_throws db = false
   /\ exists p, In p (payments db) /\ status p = Verified)
  /\ (code (submitToSwift db now).2 <> 200 -> (submitToSwift db now).1 = db)
  /\ (code (submitToSwift db now).2 = 200 ->
      Forall2
        (fun p p' => (status p = Verified -> p' = submit_payment p now)
                     /\ (status p <> Verified -> p' = p))
        (payments db) (payments (submitToSwift db now).1)
      /\ Forall (fun p' => status p' <> Verified)
           (payments (submitToSwift db now).1)
      /\ (exists message,
             json (submitToSwift db now).2
             = Submittal message
                 (length (List.filter is_verified (payments db))))
      /\ forall now',
          (submitToSwift (submitToSwift db now).1 now').2
          = {| code := 400; json := Failure "No verified payments to submit." |}).
Proof.
  assert (Hnone : forall l,
             length (List.filter is_verified l) = 0 <->
             ~ exists p, In p l /\ status p = Verified).
  { intros l. split.
    - intros H (p & Hin & Hs).
      assert (Hp : In p (List.filter is_verified l)).
      { apply List.filter_In. split; [exact Hin|].
        unfold is_verified. now apply status_eqb_spec. }
      destruct (List.filter is_verified l); [destruct Hp | discriminate].
    - intros H. destruct (List.filter is_verified l) as [|p rest] eqn:E;
        [reflexivity|]. exfalso. apply H. exists p.
      assert (Hp : In p (List.filter is_verified l)) by (rewrite E; now left).
      apply List.filter_In in Hp as [Hin Hp]. split; [exact Hin|].
      now apply status_eqb_spec. }
  assert (Hleft : forall l,
             List.filter is_verified
               (map (fun p => if is_verified p then submit_payment p now else p)
                  l) = []).
  { induction l as [|p l IH]; [reflexivity|]. cbn [map List.filter].
    destruct (is_verified p) eqn:E; [|now rewrite E].
    now change (is_verified (submit_payment p now)) with false. }
  unfold submitToSwift.
  destruct (find_throws db) eqn:Hf.
  { cbn [fst snd code]. split; [|split]; try congruence.
    split; [discriminate | intros (? & _); discriminate]. }
  destruct (Nat.eqb_spec (length (List.filter is_verified (payments db))) 0)
    as [E0|E0].
  { cbn [fst snd code]. split; [|split]; try congruence.
    split; [discriminate|]. intros (_ & _ & Hp). exfalso.
    now apply (proj1 (Hnone _) E0). }
  destruct (update_throws db) eqn:Hu.
  { cbn [fst snd code]. split; [|split]; try congruence.
    split; [discriminate | intros (_ & ? & _); discriminate]. }
  cbn [fst snd code json set_payments payments find_throws update_throws].
  split; [|split; [congruence|]].
  - split; [intros _ | reflexivity]. repeat split.
    destruct (List.filter is_verified (payments db)) as [|p rest] eqn:E;
      [now destruct E0|].
    assert (Hp : In p (List.filter is_verified (payments db)))
      by (rewrite E; now left).
    apply List.filter_In in Hp as [Hin Hp]. exists p. split; [exact Hin|].
    now apply status_eqb_spec.
  - intros _. split; [|split; [|split]].
    + apply Forall2_map_each. intros p. unfold is_verified.
      destruct (status_eqb (status p) Verified) eqn:E.
      * split; [reflexivity|]. apply status_eqb_spec in E. congruence.
      * split; [|reflexivity]. intros Hs. apply status_eqb_spec in Hs.
        congruence.
    + apply List.Forall_forall. intros p' Hp' Hs.
      assert (Hin : In p' (List.filter is_verified
                             (map (fun p => if is_verified p
                                            then submit_payment p now else p)
                                (payments db)))).
      { apply List.filter_In. split; [exact Hp'|].
        unfold is_verified. now apply status_eqb_spec. }
      rewrite Hleft in Hin. destruct Hin.
    + eauto.
    + intros now'. rewrite Hf, Hleft. reflexivity.
Qed.

(** X27. A decision is final: once a payment was verified, or rejected, a
    later request to verify or to reject it is answered 400 with the
    payment's status in the message and changes nothing. *)
Theorem decision_is_final (db : Db) (user user' : Auth.User)
    (paymentId reason reason' : option string) (now now' : Z) :
  (code (verifyPayment db user paymentId now).2 = 200 ->
   verifyPayment (verifyPayment db user paymentId now).1 user' paymentId now'
   = ((verifyPayment db user paymentId now).1,
      {| code := 400;
         json := Failure
                   "Payment cannot be verified. Current status: Verified" |})
   /\ rejectPayment (verifyPayment db user paymentId now).1 user' paymentId
        reason' now'
      = ((verifyPayment db user paymentId now).1,
         {| code := 400;
            json := Failure
                      "Payment cannot be rejected. Current status: Verified" |}))
  /\ (code (rejectPayment db user paymentId reason now).2 = 200 ->
      verifyPayment (rejectPayment db user paymentId reason now).1 user'
        paymentId now'
      = ((rejectPayment db user paymentId reason now).1,
         {| code := 400;
            json := Failure
                      "Payment cannot be verified. Current status: Rejected" |})
      /\ rejectPayment (rejectPayment db user paymentId reason now).1 user'
           paymentId reason' now'
         = ((rejectPayment db user paymentId reason now).1,
            {| code := 400;
               json := Failure
                         "Payment cannot be rejected. Current status: Rejected" |})).
Proof.
  assert (Hfinal : forall outcome verb done,
             outcome <> Pending ->
             code (decide outcome verb done db user paymentId now).2 = 200 ->
             forall outcome' verb' done',
               decide outcome' verb' done'
                 (decide outcome verb done db user paymentId now).1
                 user' paymentId now'
               = ((decide outcome verb done db user paymentId now).1,
                  {| code := 400;
                     json := Failure ("Payment cannot be " +:+ done'
                                        +:+ ". Current status: "
                                        +:+ status_name outcome) |})).
  { intros outcome verb done Hout H200 outcome' verb' done'.
    destruct (decide_cases outcome verb done db user paymentId now)
      as [(_ & Hc & _) | (payment & Hv & Hft & Hf & Hs & Hst & E)].
    { rewrite H200 in Hc. simpl in Hc.
      destruct Hc as [?|[?|[?|[]]]]; discriminate. }
    rewrite E. cbn [fst]. unfold decide at 1. rewrite Hv. cbn [negb].
    unfold findById. cbn [set_payments find_throws payments]. rewrite Hft.
    destruct (replace_found _ _ payment
                (decide_payment payment outcome user now) Hf) as (_ & -> & _).
    { apply find_by_id in Hf as [_ Hid]. exact Hid. }
    cbn [status decide_payment].
    destruct outcome; [congruence| | | |]; reflexivity. }
  split; intros H200; split.
  - exact (Hfinal Verified "verify" "verified" ltac:(discriminate) H200
             Verified "verify" "verified").
  - exact (Hfinal Verified "verify" "verified" ltac:(discriminate) H200
             Rejected "reject" "rejected").
  - exact (Hfinal Rejected "reject" "rejected" ltac:(discriminate) H200
             Verified "verify" "verified").
  - exact (Hfinal Rejected "reject" "rejected" ltac:(discriminate) H200
             Rejected "reject" "rejected").
Qed.

End PortalProperties.

(** ** Who reaches the portal *)

Module PortalGateProperties.

Import EmployeePortal.

(** X28. The portal serves a request only when its Authorization header is
    [Bearer ] followed by a token that [verifyToken] accepts and whose
    [userType] is [employee]; the handler then runs with the [userId] and
    [username] of the token. Every other request is answered 401 or 403
    and leaves the database as it was. *)
Theorem portal_requires_employee_token
    (P : Jsonwebtoken.Primitives) (env : Process.Env)
    (db : Db) (authorization : option string) (body : Body) (now : Z) :
  (exists token decoded,
      authorization = Some ("Bearer " +:+ token) /\ token <> ""
      /\ TokenService.verifyToken P env token now = Some decoded
      /\ Jsonwebtoken.userType decoded = Some "employee"
      /\ handle P env db authorization body now
         = perform db
             (operation {| Auth.userId := Jsonwebtoken.userId decoded;
                           Auth.username := Jsonwebtoken.username decoded;
                           Auth.userType := Jsonwebtoken.userType decoded |}
                body)
             now)
  \/ ((handle P env db authorization body now).1 = db
      /\ (code (handle P env db authorization body now).2 = 401
          \/ code (handle P env db authorization body now).2 = 403)
      /\ exists message,
          json (handle P env db authorization body now).2 = Failure message).
Proof.
  unfold handle, Auth.authenticateToken.
  destruct (TokenService.extractTokenFromHeader authorization) as [token|] eqn:He;
    [|right; cbn; eauto].
  apply AuthFacts.extract_inv in He. subst authorization.
  destruct (String.eqb_spec token "") as [->|Hne]; [right; cbn; eauto|].
  destruct (TokenService.verifyToken P env token now) as [decoded|] eqn:Hv;
    [|right; cbn; eauto].
  unfold Auth.requireEmployee.
  destruct (Auth.has_type "employee" _) eqn:Ht; cbn [negb];
    [|right; cbn; eauto].
  apply AuthFacts.has_type_spec in Ht. cbn [Auth.userType] in Ht.
  left. exists token, decoded. auto.
Qed.

(** X29. The token of a customer login does not open the portal: sent
    before its expiry, with whatever body, it is answered 403 and the
    payments stay as they were. *)
Theorem portal_refuses_customer_token
    (bcrypt_compare : string -> string -> result bool)
    (P : Jsonwebtoken.Primitives) (env : Process.Env)
    (ok : Jsonwebtoken.PrimitivesOk P)
    (w : CustomerAuth.World) (req : CustomerAuth.Request)
    (now now' milliseconds : Z) (token u f : string)
    (db : Db) (body : Body) :
  CustomerAuth.json (CustomerAuth.login bcrypt_compare P env w req now).2
  = CustomerAuth.LoggedIn token u f ->
  Jsonwebtoken.ms P (or_else (Process.JWT_EXPIRE env) "2h") = Some milliseconds ->
  (now' / 1000 < now / 1000 + milliseconds / 1000)%Z ->
  handle P env db (Some ("Bearer " +:+ token)) body now'
  = (db, {| code := 403;
            json := Failure "Access denied. Employee role required." |}).
Proof.
  intros Hj Hms Hfresh.
  destruct (CustomerLoginFacts.login_cases bcrypt_compare P env w req now)
    as [(_ & [m Hm] & _) | [[Hr _] | [[Hr _] | H]]];
    try (rewrite Hr in Hj; discriminate); [congruence|].
  destruct H as (customer & token' & _ & _ & _ & Ht & Hr & _).
  rewrite Hr in Hj. cbn [CustomerAuth.json] in Hj.
  assert (token' = token) as -> by congruence.
  apply TokenServiceFacts.generateToken_inv in Ht
    as (secret & m & Hs & Hne & Hm & ->).
  assert (m = milliseconds) as -> by congruence.
  unfold handle.
  rewrite (AuthFacts.authenticateToken_issued P env ok secret milliseconds
             _ now now' Hs Hne Hfresh).
  reflexivity.
Qed.

Lemma portal_refuses_customer_token_witness :
  handle JwtStub.primitives Scenario.env0 Cases.ledger0
    (Some ("Bearer " +:+ Cases.token0))
    (VerifyBody (Some "65a000000000000000000001")) (Scenario.now0 + 60000)
  = (Cases.ledger0,
     {| code := 403;
        json := Failure "Access denied. Employee role required." |}).
Proof.
  refine (portal_refuses_customer_token BcryptStub.compare
            JwtStub.primitives Scenario.env0 TokenServiceFacts.stub_ok
            Scenario.world0 Scenario.request_ok Scenario.now0
            (Scenario.now0 + 60000) 7200000 Cases.token0 "testuser"
            "Test User" Cases.ledger0
            (VerifyBody (Some "65a000000000000000000001")) _ eq_refl eq_refl).
  rewrite (proj1 (CustomerAuthFacts.login_success BcryptStub.compare
                    JwtStub.primitives Scenario.env0 Scenario.world0
                    Scenario.request_ok Scenario.now0 Scenario.customer0
                    Cases.token0 eq_refl eq_refl eq_refl eq_refl
                    (TokenServiceFacts.generateToken_returns
                       JwtStub.primitives Scenario.env0
                       _ _ _ _ eq_refl ltac:(discriminate) eq_refl))).
  reflexivity.
Defined.

(** X30. The token of an employee login opens the portal for that
    employee: sent before its expiry, the request is handled with the
    [_id] and [username] of the employee who logged in, which is what a
    decision records in [verifiedBy] and [verifiedByUsername]. *)
Theorem portal_acts_for_logged_in_employee
    (bcrypt_compare : string -> string -> result bool)
    (P : Jsonwebtoken.Primitives) (env : Process.Env)
    (ok : Jsonwebtoken.PrimitivesOk P)
    (w : EmployeeAuth.World) (req : EmployeeAuth.Request)
    (now now' milliseconds : Z) (token u f r : string)
    (db : Db) (body : Body) :
  EmployeeAuth.json (EmployeeAuth.login bcrypt_compare P env w req now).2
  = EmployeeAuth.LoggedIn token u f r ->
  Jsonwebtoken.ms P (or_else (Process.JWT_EXPIRE env) "2h") = Some milliseconds ->
  (now' / 1000 < now / 1000 + milliseconds / 1000)%Z ->
  exists employee,
    In employee (EmployeeAuth.employees w)
    /\ EmployeeAuth.username employee = u
    /\ handle P env db (Some ("Bearer " +:+ token)) body now'
       = perform db
           (operation {| Auth.userId := Some (EmployeeAuth._id employee);
                         Auth.username := Some u;
                         Auth.userType := Some "employee" |}
              body)
           now'.
Proof.
  intros Hj Hms Hfresh.
  destruct (EmployeeLoginFacts.employee_login_cases bcrypt_compare P env w
              req now)
    as [(_ & [m Hm] & _) | [[Hr _] | [Hr | H]]];
    try (rewrite Hr in Hj; discriminate); [congruence|].
  destruct H as (name & employee & token' & Hn & Hf & Hv & Ht & Hr).
  rewrite Hr in Hj. cbn [EmployeeAuth.json] in Hj.
  assert (token' = token /\ EmployeeAuth.username employee = u) as [-> <-]
    by (split; congruence).
  apply EmployeeLoginFacts.employee_findOne_some in Hf as (Hin & _ & _).
  apply TokenServiceFacts.generateToken_inv in Ht
    as (secret & m & Hs & Hne & Hm & ->).
  assert (m = milliseconds) as -> by congruence.
  exists employee. split; [exact Hin|]. split; [reflexivity|].
  unfold handle.
  rewrite (AuthFacts.authenticateToken_issued P env ok secret milliseconds
             _ now now' Hs Hne Hfresh).
  reflexivity.
Qed.

Lemma portal_acts_for_logged_in_employee_witness :
  exists employee,
    In employee (EmployeeAuth.employees Cases.staff0)
    /\ EmployeeAuth.username employee = "employee1"
    /\ handle JwtStub.primitives Scenario.env0 Cases.ledger0
         (Some ("Bearer " +:+ Cases.staff_token0))
         (VerifyBody (Some "65a000000000000000000001"))
         (Scenario.now0 + 60000)
       = perform Cases.ledger0
           (operation {| Auth.userId := Some (EmployeeAuth._id employee);
                         Auth.username := Some "employee1";
                         Auth.userType := Some "employee" |}
              (VerifyBody (Some "65a000000000000000000001")))
           (Scenario.now0 + 60000).
Proof.
  refine (portal_acts_for_logged_in_employee BcryptStub.compare
            JwtStub.primitives Scenario.env0 TokenServiceFacts.stub_ok
            Cases.staff0
            (Cases.staff_request (Some "Employee1") (Some "Test@1234"))
            Scenario.now0 (Scenario.now0 + 60000) 7200000
            Cases.staff_token0 "employee1" "Staff Member" "Employee"
            Cases.ledger0 (VerifyBody (Some "65a000000000000000000001"))
            _ eq_refl eq_refl).
  rewrite (EmployeeLoginFacts.employee_login_success BcryptStub.compare
             JwtStub.primitives Scenario.env0 Cases.staff0
             (Cases.staff_request (Some "Employee1") (Some "Test@1234"))
             Scenario.now0 "Employee1" Cases.employee0 Cases.staff_token0
             eq_refl eq_refl eq_refl eq_refl eq_refl eq_refl
             (TokenServiceFacts.generateToken_returns
                JwtStub.primitives Scenario.env0
                _ _ _ _ eq_refl ltac:(discriminate) eq_refl)).
  reflexivity.
Defined.

End PortalGateProperties.
